(** * Speedometer server: conversion utilities and measurement controller

    A shallow embedding of [gspeedometer/helpers/util.py] and
    [gspeedometer/controllers/measurement.py], with the properties of the
    specification stated and proved over it.

    Python values are embedded as an inductive type, exceptions as data,
    and every function that can raise returns a [result].  Functions that
    touch objects thread the object heap explicitly. *)

From Stdlib Require Import ZArith Ascii String List Bool Lia DecimalString.
From stdpp Require Import base list strings.

Set Warnings "-register-all".

Local Open Scope string_scope.
Local Open Scope Z_scope.

#[local] Arguments String.append _ _ : simpl nomatch.

(** ** Exceptions and results *)

Inductive exn : Type :=
| ValueError (msg : string)
| IndexError (msg : string)
| KeyError (key : string)
| TypeError (msg : string)
| AttributeError (attr : string)
| NameError (name : string)
| UnboundLocalError (name : string)
| RuntimeError (msg : string)
| BadRequest (msg : string)
| BadValueError (msg : string)
| BadKeyError (msg : string)
| ProtocolBufferEncodeError (msg : string)
| OverflowError (msg : string).

Inductive result (A : Type) : Type :=
| Ok (a : A)
| Raise (e : exn).

Arguments Ok {A} a.
Arguments Raise {A} e.

Definition rbind {A B} (r : result A) (k : A -> result B) : result B :=
  match r with
  | Ok a => k a
  | Raise e => Raise e
  end.

Notation "x <-! r ; k" := (rbind r (fun x => k))
  (at level 100, r at next level, right associativity).

(** ** Python string primitives used by [util.py] *)

Module Str.

(** [s.split(sep)] for a one-character separator: never empty. *)
Fixpoint split_on (sep : ascii) (s : string) : list string :=
  match s with
  | EmptyString => [EmptyString]
  | String c s' =>
      let r := split_on sep s' in
      if Ascii.eqb c sep then EmptyString :: r
      else match r with
           | x :: xs => String c x :: xs
           | [] => [String c EmptyString]
           end
  end.

(** [s[:-1]]: the empty string stays empty. *)
Fixpoint drop_last (s : string) : string :=
  match s with
  | EmptyString => EmptyString
  | String c EmptyString => EmptyString
  | String c s' => String c (drop_last s')
  end.

(** [s[-1]]: raises [IndexError] on the empty string. *)
Fixpoint last_char (s : string) : option ascii :=
  match s with
  | EmptyString => None
  | String c EmptyString => Some c
  | String _ s' => last_char s'
  end.

Definition index_last (s : string) : result ascii :=
  match last_char s with
  | Some c => Ok c
  | None => Raise (IndexError "string index out of range")
  end.

Definition len (s : string) : Z := Z.of_nat (String.length s).

(** The value of a decimal digit: the characters 48 to 57. *)
Definition digit_of (c : ascii) : option Z :=
  let n := Z.of_nat (nat_of_ascii c) in
  if (48 <=? n) && (n <=? 57) then Some (n - 48) else None.

(** The character of the last decimal digit of [d]. *)
Definition digit_char (d : Z) : ascii :=
  ascii_of_nat (48 + Z.to_nat (d mod 10)).

(** C [isspace]: blank, tab, newline, vertical tab, form feed, return. *)
Definition is_space (c : ascii) : bool :=
  let n := nat_of_ascii c in
  (n =? 32)%nat || ((9 <=? n)%nat && (n <=? 13)%nat).

Fixpoint lstrip (s : string) : string :=
  match s with
  | String c s' => if is_space c then lstrip s' else s
  | EmptyString => EmptyString
  end.

(** A maximal run of decimal digits, most significant first, folded into
    an accumulator; returns the value, the number of digits read and the
    rest of the string. *)
Fixpoint read_digits (s : string) (acc : Z) (n : nat) : Z * nat * string :=
  match s with
  | String c s' =>
      match digit_of c with
      | Some d => read_digits s' (10 * acc + d) (S n)
      | None => (acc, n, s)
      end
  | EmptyString => (acc, n, s)
  end.

(** [int(s)] in base 10 on a byte string, as [PyInt_FromString] reads it:
    blanks, an optional sign, blanks, at least one digit, blanks. *)
Definition py_int (s : string) : result Z :=
  let bad := Raise (ValueError "invalid literal for int() with base 10") in
  let s1 := lstrip s in
  let '(neg, s2) :=
    match s1 with
    | String c r =>
        if Ascii.eqb c "-" then (true, r)
        else if Ascii.eqb c "+" then (false, r)
        else (false, s1)
    | EmptyString => (false, s1)
    end in
  let '(v, n, s3) := read_digits (lstrip s2) 0 0%nat in
  match n with
  | O => bad
  | S _ =>
      match lstrip s3 with
      | EmptyString => Ok (if neg then - v else v)
      | String _ _ => bad
      end
  end.

(** ["%0wd" % n] for [0 <= n < 10^w]: exactly [w] digits. *)
Fixpoint zfill (w : nat) (n : Z) : string :=
  match w with
  | O => EmptyString
  | S w' => String (digit_char (n / 10 ^ Z.of_nat w')) (zfill w' n)
  end.

(** [c in s] for a character [c]. *)
Fixpoint has_char (c : ascii) (s : string) : bool :=
  match s with
  | EmptyString => false
  | String a s' => Ascii.eqb a c || has_char c s'
  end.

End Str.

(** ** [datetime] values, [time.strptime] and [isoformat] *)

Module Datetime.

(** A timezone-unaware [datetime.datetime]. *)
Record datetime : Type := mkdt {
  year : Z; month : Z; day : Z;
  hour : Z; minute : Z; second : Z;
  microsecond : Z
}.

(** What [isinstance(value, datetime.date)] accepts: a plain date or a
    [datetime] (a subclass of [date]). *)
Inductive timeval : Type :=
| ADate (y m d : Z)
| ADateTime (dt : datetime).

Definition is_leap (y : Z) : bool :=
  (y mod 4 =? 0) && (negb (y mod 100 =? 0) || (y mod 400 =? 0)).

Definition days_in_month (y m : Z) : Z :=
  match m with
  | 1 | 3 | 5 | 7 | 8 | 10 | 12 => 31
  | 4 | 6 | 9 | 11 => 30
  | 2 => if is_leap y then 29 else 28
  | _ => 0
  end.

Definition between (lo x hi : Z) : bool := (lo <=? x) && (x <=? hi).

Definition valid_date (y m d : Z) : bool :=
  between 1 y 9999 && between 1 m 12 && between 1 d (days_in_month y m).

(** The invariant of the [datetime] class. *)
Definition valid_datetime (t : datetime) : bool :=
  valid_date (year t) (month t) (day t)
  && between 0 (hour t) 23 && between 0 (minute t) 59
  && between 0 (second t) 59 && between 0 (microsecond t) 999999.

(** [datetime.datetime(y, m, d, hh, mm, ss)]: the constructor checks ranges. *)
Definition datetime_new (y m d hh mm ss : Z) : result datetime :=
  if negb (between 1 y 9999) then Raise (ValueError "year is out of range")
  else if negb (between 1 m 12) then Raise (ValueError "month must be in 1..12")
  else if negb (between 1 d (days_in_month y m))
    then Raise (ValueError "day is out of range for month")
  else if negb (between 0 hh 23) then Raise (ValueError "hour must be in 0..23")
  else if negb (between 0 mm 59) then Raise (ValueError "minute must be in 0..59")
  else if negb (between 0 ss 59) then Raise (ValueError "second must be in 0..59")
  else Ok (mkdt y m d hh mm ss 0).

(** [dt.replace(microsecond=usec)]. *)
Definition replace_microsecond (dt : datetime) (usec : Z) : result datetime :=
  if between 0 usec 999999
  then Ok (mkdt (year dt) (month dt) (day dt)
                (hour dt) (minute dt) (second dt) usec)
  else Raise (ValueError "microsecond must be in 0..999999").

(** *** The regular expression of ["%Y-%m-%dT%H:%M:%S"]

    [_strptime] turns each directive into an alternation of digit patterns
    and matches with [re.IGNORECASE].  Every alternative consumes digits
    only (or a blank and a digit) and is followed by a separator that is
    not a digit, so trying the alternatives in order and committing to the
    first that matches accepts the same strings as backtracking does. *)

Definition matcher : Type := string -> option (Z * string).

Definition alt (p q : matcher) : matcher :=
  fun s => match p s with Some r => Some r | None => q s end.

Definition two_digits (P1 P2 : Z -> bool) : matcher :=
  fun s =>
    match s with
    | String a (String b r) =>
        match Str.digit_of a, Str.digit_of b with
        | Some x, Some y => if P1 x && P2 y then Some (10 * x + y, r) else None
        | _, _ => None
        end
    | _ => None
    end.

Definition one_digit (P : Z -> bool) : matcher :=
  fun s =>
    match s with
    | String a r =>
        match Str.digit_of a with
        | Some x => if P x then Some (x, r) else None
        | None => None
        end
    | _ => None
    end.

Definition blank_digit (P : Z -> bool) : matcher :=
  fun s =>
    match s with
    | String " "%char r => one_digit P r
    | _ => None
    end.

Definition any_digit (x : Z) : bool := true.

(** [%Y]: [\d\d\d\d]. *)
Definition re_Y : matcher :=
  fun s =>
    match two_digits any_digit any_digit s with
    | Some (hi, r) =>
        match two_digits any_digit any_digit r with
        | Some (lo, r') => Some (100 * hi + lo, r')
        | None => None
        end
    | None => None
    end.

(** [%m]: [1[0-2]|0[1-9]|[1-9]]. *)
Definition re_m : matcher :=
  alt (two_digits (Z.eqb 1) (fun y => y <=? 2))
 (alt (two_digits (Z.eqb 0) (Z.leb 1))
      (one_digit (Z.leb 1))).

(** [%d]: [3[0-1]|[1-2]\d|0[1-9]|[1-9]| [1-9]]. *)
Definition re_d : matcher :=
  alt (two_digits (Z.eqb 3) (fun y => y <=? 1))
 (alt (two_digits (fun x => between 1 x 2) any_digit)
 (alt (two_digits (Z.eqb 0) (Z.leb 1))
 (alt (one_digit (Z.leb 1))
      (blank_digit (Z.leb 1))))).

(** [%H]: [2[0-3]|[0-1]\d|\d]. *)
Definition re_H : matcher :=
  alt (two_digits (Z.eqb 2) (fun y => y <=? 3))
 (alt (two_digits (fun x => x <=? 1) any_digit)
      (one_digit any_digit)).

(** [%M]: [[0-5]\d|\d]. *)
Definition re_M : matcher :=
  alt (two_digits (fun x => x <=? 5) any_digit) (one_digit any_digit).

(** [%S]: [6[0-1]|[0-5]\d|\d]. *)
Definition re_S : matcher :=
  alt (two_digits (Z.eqb 6) (fun y => y <=? 1))
 (alt (two_digits (fun x => x <=? 5) any_digit)
      (one_digit any_digit)).

(** A literal character of the format. *)
Definition lit (c : ascii) (s : string) : option string :=
  match s with
  | String a r => if Ascii.eqb a c then Some r else None
  | EmptyString => None
  end.

(** The literal [T], matched ignoring case. *)
Definition lit_T (s : string) : option string :=
  match lit "T" s with
  | Some r => Some r
  | None => lit "t" s
  end.

Definition obind {A B} (o : option A) (k : A -> option B) : option B :=
  match o with Some a => k a | None => None end.

Definition fields : Type := Z * Z * Z * Z * Z * Z.

Definition re_match (s : string) : option (fields * string) :=
  obind (re_Y s) (fun '(y, s) =>
  obind (lit "-" s) (fun s =>
  obind (re_m s) (fun '(m, s) =>
  obind (lit "-" s) (fun s =>
  obind (re_d s) (fun '(d, s) =>
  obind (lit_T s) (fun s =>
  obind (re_H s) (fun '(hh, s) =>
  obind (lit ":" s) (fun s =>
  obind (re_M s) (fun '(mm, s) =>
  obind (lit ":" s) (fun s =>
  obind (re_S s) (fun '(ss, s) =>
  Some ((y, m, d, hh, mm, ss), s)))))))))))).

(** [time.strptime(s, "%Y-%m-%dT%H:%M:%S")[0:6]].  After the match
    [_strptime] builds a [datetime.date] from year, month and day to find
    the day of the year, which rejects dates that do not exist. *)
Definition strptime (s : string) : result fields :=
  match re_match s with
  | None => Raise (ValueError "time data does not match format")
  | Some (f, rest) =>
      match rest with
      | String _ _ => Raise (ValueError "unconverted data remains")
      | EmptyString =>
          let '(y, m, d, _, _, _) := f in
          if valid_date y m d then Ok f
          else Raise (ValueError "day is out of range for month")
      end
  end.

(** [date.isoformat()] and [datetime.isoformat()]: the fraction is printed
    only when the microsecond is not zero. *)
Definition isoformat_date (y m d : Z) : string :=
  Str.zfill 4 y +:+ "-" +:+ Str.zfill 2 m +:+ "-" +:+ Str.zfill 2 d.

Definition isoformat_time (hh mm ss : Z) : string :=
  Str.zfill 2 hh +:+ ":" +:+ Str.zfill 2 mm +:+ ":" +:+ Str.zfill 2 ss.

(** The part of [datetime.isoformat()] down to the seconds. *)
Definition isoformat_seconds (t : datetime) : string :=
  isoformat_date (year t) (month t) (day t) +:+ "T"
  +:+ isoformat_time (hour t) (minute t) (second t).

Definition isoformat (v : timeval) : string :=
  match v with
  | ADate y m d => isoformat_date y m d
  | ADateTime t =>
      isoformat_seconds t
      +:+ (if microsecond t =? 0 then EmptyString
           else "." +:+ Str.zfill 6 (microsecond t))
  end.

End Datetime.

(** ** [util.py]: timestamps *)

(** The loop [while (len(usecstr) < 6): usecstr = usecstr + '0']. *)
Fixpoint pad_usec (fuel : nat) (usecstr : string) : string :=
  match fuel with
  | O => usecstr
  | S fuel' =>
      if Str.len usecstr <? 6 then pad_usec fuel' (usecstr +:+ "0")
      else usecstr
  end.

(** [StringToTime(thestr)].  The bare [except] catches the failed
    unpacking when [split('.')] does not give exactly two parts. *)
Definition StringToTime (thestr : string) : result Datetime.datetime :=
  let '(strtime, extra) :=
    match Str.split_on "." thestr with
    | [a; b] => (a, b)
    | _ => (Str.drop_last thestr, "Z")
    end in
  f <-! Datetime.strptime strtime;
  let '(y, m, d, hh, mm, ss) := f in
  dt <-! Datetime.datetime_new y m d hh mm ss;
  c <-! Str.index_last extra;
  if negb (Ascii.eqb c "Z") then Raise (ValueError "Timestring does not end in Z")
  else
    let usecstr := pad_usec 6 (Str.drop_last extra) in
    usec <-! Str.py_int usecstr;
    Datetime.replace_microsecond dt usec.

(** In the words of the specification: the fractional digits before the
    final character, and a string right-padded with zeros to six
    characters. *)
Definition fraction_digits (thestr : string) : string :=
  match Str.split_on "." thestr with
  | [_; extra] => Str.drop_last extra
  | _ => EmptyString
  end.

Fixpoint zeros (n : nat) : string :=
  match n with
  | O => EmptyString
  | S n' => String "0" (zeros n')
  end.

Definition zero_padded (s : string) : string :=
  s +:+ zeros (6 - String.length s).

(** [TimeToString(dt)]. *)
Definition TimeToString (dt : Datetime.timeval) : string :=
  Datetime.isoformat dt +:+ "Z".


(** ** Python values and the object heap *)

Definition loc : Type := nat.

(** A datastore key: a kind with a key name or a numeric id. *)
Inductive dskey : Type :=
| KName (kind name : string)
| KId (kind : string) (id : Z).

(** A float is kept by its [repr]; no arithmetic is done on floats. *)
Definition pyfloat : Type := string.

(** The values the program handles.  A field of a model declared with
    [db.UserProperty] holds a [users.User], the kind of object whose
    [email()] the controller calls on [users.get_current_user()];
    [db.UserProperty] itself is the class of the property descriptor,
    like the [prop] objects that [model.properties()] yields, and its
    instances are instances of "another class" here. *)
Inductive value : Type :=
| VNone
| VBool (b : bool)
| VInt (n : Z)                        (* int and long *)
| VFloat (x : pyfloat)
| VStr (s : string)                   (* str and unicode *)
| VList (l : list value)
| VDict (d : list (string * value))   (* items in iteration order *)
| VTime (t : Datetime.timeval)        (* datetime.date, datetime.datetime *)
| VGeoPt (lat lon : pyfloat)          (* db.GeoPt *)
| VRef (l : loc)                      (* an instance on the heap *)
| VKey (k : dskey)                    (* db.Key *)
| VUser (email : string)              (* users.User *)
| VOpaque (cls : string).             (* an instance of any other class *)

Definition dict : Type := list (string * value).

(** The class of the property descriptor [db.UserProperty]. *)
Definition UserProperty : string := "google.appengine.ext.db.UserProperty".

(** *** Dictionaries as association lists with unique keys *)

Module Dict.

Fixpoint get (k : string) (d : dict) : option value :=
  match d with
  | [] => None
  | (k', v) :: d' => if String.eqb k k' then Some v else get k d'
  end.

Definition has (k : string) (d : dict) : bool :=
  match get k d with Some _ => true | None => false end.

(** [d[k] = v]: replaces in place, or appends a new item. *)
Fixpoint set (k : string) (v : value) (d : dict) : dict :=
  match d with
  | [] => [(k, v)]
  | (k', v') :: d' =>
      if String.eqb k k' then (k', v) :: d' else (k', v') :: set k v d'
  end.

(** [del d[k]] on a key that is present. *)
Definition del (k : string) (d : dict) : dict :=
  List.filter (fun kv => negb (String.eqb k (fst kv))) d.

(** [d[k]]. *)
Definition getitem (k : string) (d : dict) : result value :=
  match get k d with
  | Some v => Ok v
  | None => Raise (KeyError k)
  end.

End Dict.

(** *** Objects and classes *)

(** An instance: its class, its datastore key once it has one, and its
    attributes. *)
Record pyobj : Type := mkobj {
  obj_class : string;
  obj_key : option dskey;
  obj_attrs : dict
}.

Abbreviation heap := (list pyobj).

(** Computations over a state that may raise; the state reached when the
    exception is raised is kept. *)
Definition ST (S A : Type) : Type := S -> result A * S.

Definition ret {S A} (a : A) : ST S A := fun s => (Ok a, s).

Definition raise {S A} (e : exn) : ST S A := fun s => (Raise e, s).

Definition bind {S A B} (c : ST S A) (k : A -> ST S B) : ST S B :=
  fun s =>
    match c s with
    | (Ok a, s') => k a s'
    | (Raise e, s') => (Raise e, s')
    end.

Definition lift_result {S A} (r : result A) : ST S A := fun s => (r, s).

Notation "x <~ c ;; k" := (bind c (fun x => k))
  (at level 100, c at next level, right associativity).
Notation "c ;;; k" := (bind c (fun _ => k))
  (at level 100, right associativity).

Definition M (A : Type) : Type := ST heap A.

(** The property descriptor of a model field, known by its [repr]. *)
Definition property : Type := string.

(** A method of one argument besides [self]. *)
Definition method : Type := loc -> value -> M unit.

(** What a property descriptor does with a value that is assigned to
    it ([validate] of [db.Property]): it accepts the value, which is
    then stored as it is, or it raises.  It may look at the instance the
    value refers to.  Property classes that replace the value by a
    converted one are not covered by this type. *)
Definition validator : Type := heap -> value -> result unit.

Record pyclass : Type := mkclass {
  cls_is_model : bool;                        (* derives from db.Model *)
  cls_properties : list (string * property);  (* properties().iteritems() *)
  cls_defaults : dict;                        (* attributes of a new instance *)
  cls_methods : list (string * method);
  cls_validate : string -> validator          (* validate() of a declared property *)
}.

(** Whether [name] is a declared property of the class. *)
Definition declared (c : pyclass) (name : string) : bool :=
  existsb (String.eqb name) (map fst (cls_properties c)).

Fixpoint find_method (name : string) (ms : list (string * method)) : option method :=
  match ms with
  | [] => None
  | (n, m) :: ms' => if String.eqb name n then Some m else find_method name ms'
  end.

(** The type name used in messages. *)
Definition type_name (v : value) : string :=
  match v with
  | VNone => "NoneType" | VBool _ => "bool" | VInt _ => "int"
  | VFloat _ => "float" | VStr _ => "str" | VList _ => "list"
  | VDict _ => "dict" | VTime _ => "datetime" | VGeoPt _ _ => "GeoPt"
  | VRef _ => "instance" | VKey _ => "Key" | VUser _ => "User"
  | VOpaque cls => cls
  end.

(** [needle in haystack] for strings: substring test. *)
Fixpoint is_prefix (p s : string) : bool :=
  match p, s with
  | EmptyString, _ => true
  | String a p', String b s' => Ascii.eqb a b && is_prefix p' s'
  | String _ _, EmptyString => false
  end.

Fixpoint is_substring (p s : string) : bool :=
  is_prefix p s ||
  match s with
  | EmptyString => false
  | String _ s' => is_substring p s'
  end.

(** [key in container] for a string [key]. *)
Definition py_in (key : string) (container : value) : result bool :=
  match container with
  | VList l =>
      Ok (existsb (fun x => match x with VStr s => String.eqb key s | _ => false end) l)
  | VDict d => Ok (Dict.has key d)
  | VStr s => Ok (is_substring key s)
  | v => Raise (TypeError ("argument of type '" +:+ type_name v +:+ "' is not iterable"))
  end.

(** *** Attribute access on the heap *)

Definition get_obj (l : loc) : M pyobj :=
  fun h =>
    match h !! l with
    | Some o => (Ok o, h)
    | None => (Raise (RuntimeError "dangling reference"), h)
    end.

Definition put_obj (l : loc) (o : pyobj) : M unit :=
  fun h => (Ok tt, <[l := o]> h).

(** [ClassName()]-style allocation of a new instance. *)
Definition alloc (o : pyobj) : M loc :=
  fun h => (Ok (List.length h), (h ++ [o])%list).

(** Writing the dictionary of the instance at [l]. *)
Definition store_attr (l : loc) (name : string) (v : value) : M unit :=
  o <~ get_obj l ;;
  put_obj l (mkobj (obj_class o) (obj_key o) (Dict.set name v (obj_attrs o))).

(** Assignment through a property descriptor ([db.Property.__set__]):
    the value is validated and, when it is accepted, stored. *)
Definition property_set (validate : validator) (l : loc) (name : string)
    (v : value) : M unit :=
  (fun h => (validate h v, h)) ;;;
  store_attr l name v.

(** What an attribute lookup finds: a data attribute of the instance, or
    a method of its class bound to it.  The instance dictionary is
    searched before the methods of the class. *)
Inductive attr : Type :=
| Data (v : value)
| Bound (m : method).

Section Objects.

(** The classes of the program, by name.  [gspeedometer/model.py] is not
    part of the sources, so the table is a parameter. *)
Variable classes : string -> option pyclass.

Definition class_of (o : pyobj) : pyclass :=
  match classes (obj_class o) with
  | Some c => c
  | None => mkclass false [] [] [] (fun _ _ _ => Ok tt)
  end.

Definition lookup_attr (o : pyobj) (name : string) : option attr :=
  match Dict.get name (obj_attrs o) with
  | Some v => Some (Data v)
  | None =>
      match find_method name (cls_methods (class_of o)) with
      | Some m => Some (Bound m)
      | None => None
      end
  end.

(** [hasattr(x, name)]: values that are not instances expose none of the
    names looked up here. *)
Definition py_hasattr (x : value) (name : string) : M bool :=
  match x with
  | VRef l =>
      o <~ get_obj l ;;
      ret (match lookup_attr o name with Some _ => true | None => false end)
  | _ => ret false
  end.

(** [getattr(x, name)]. *)
Definition py_getattr (x : value) (name : string) : M attr :=
  match x with
  | VRef l =>
      o <~ get_obj l ;;
      match lookup_attr o name with
      | Some a => ret a
      | None => raise (AttributeError name)
      end
  | _ => raise (AttributeError name)
  end.

(** [setattr(x, name, v)]: a declared property of the class of [x]
    validates [v] before it is stored; any other name is an entry of the
    instance dictionary and takes [v] as it is. *)
Definition py_setattr (x : value) (name : string) (v : value) : M unit :=
  match x with
  | VRef l =>
      o <~ get_obj l ;;
      if declared (class_of o) name
      then property_set (cls_validate (class_of o) name) l name v
      else store_attr l name v
  | _ => raise (AttributeError name)
  end.

(** [f(v)] where [f] is the result of an attribute lookup on [x]. *)
Definition py_call (x : value) (a : attr) (v : value) : M unit :=
  match a, x with
  | Bound m, VRef l => m l v
  | Bound _, _ => raise (TypeError "unbound method")
  | Data d, _ => raise (TypeError ("'" +:+ type_name d +:+ "' object is not callable"))
  end.

(** [isinstance(x, db.Model)]. *)
Definition is_model (x : value) : M bool :=
  match x with
  | VRef l => fun h =>
      match h !! l with
      | Some o => (Ok (cls_is_model (class_of o)), h)
      | None => (Ok false, h)
      end
  | _ => ret false
  end.

(** [model.properties().iteritems()]: the class method of [db.Model],
    which a data attribute named [properties] would shadow. *)
Definition py_properties (x : value) : M (list (string * property)) :=
  match x with
  | VRef l =>
      o <~ get_obj l ;;
      match Dict.get "properties" (obj_attrs o) with
      | Some d => raise (TypeError ("'" +:+ type_name d +:+ "' object is not callable"))
      | None =>
          if cls_is_model (class_of o) then ret (cls_properties (class_of o))
          else raise (AttributeError "properties")
      end
  | _ => raise (AttributeError "properties")
  end.

(** ** [util.py]: objects to dictionaries *)

(** [isinstance(value, _SIMPLE_TYPES)] or [value is None]. *)
Definition is_simple (v : value) : bool :=
  match v with
  | VNone | VInt _ | VFloat _ | VBool _ | VDict _ | VStr _ | VList _ => true
  | _ => false
  end.

(** The data attribute [getattr(model, key)] reads; a bound method is a
    value of a class none of the tests recognises. *)
Definition getattr_value (model : value) (key : string) : M value :=
  a <~ py_getattr model key ;;
  match a with
  | Data v => ret v
  | Bound _ => ret (VOpaque "instancemethod")
  end.

(** The body of the [for] loop of [ConvertToDict], with the recursive call
    as a parameter; [output] is the dictionary built so far. *)
Fixpoint ConvertToDict_loop (rec : value -> value -> value -> M dict)
    (model include_fields exclude_fields : value)
    (props : list (string * property)) (output : dict) : M dict :=
  match props with
  | [] => ret output
  | (key, prop) :: rest =>
      let continue := ConvertToDict_loop rec model include_fields exclude_fields rest in
      skip1 <~ match include_fields with
               | VNone => ret false
               | _ => lift_result (b <-! py_in key include_fields; Ok (negb b))
               end ;;
      if (skip1 : bool) then continue output else
      skip2 <~ match exclude_fields with
               | VNone => ret false
               | _ => lift_result (py_in key exclude_fields)
               end ;;
      if (skip2 : bool) then continue output else
      value <~ getattr_value model key ;;
      if is_simple value then continue (Dict.set key value output)
      else match value with
      | VTime t => continue (Dict.set key (VStr (TimeToString t)) output)
      | VGeoPt lat lon =>
          continue (Dict.set key
            (VDict [("latitude", VFloat lat); ("longitude", VFloat lon)]) output)
      | _ =>
          m <~ is_model value ;;
          if (m : bool) then
            d <~ rec value include_fields exclude_fields ;;
            continue (Dict.set key (VDict d) output)
          else match value with
          | VOpaque cls =>
              if String.eqb cls UserProperty
              then raise (AttributeError "email")   (* value.email() *)
              else raise (ValueError ("cannot encode " +:+ prop))
          | _ => raise (ValueError ("cannot encode " +:+ prop))
          end
      end
  end.

(** [ConvertToDict(model, include_fields, exclude_fields)].  [depth] is
    the number of nested calls the interpreter still allows. *)
Fixpoint ConvertToDict (depth : nat) (model include_fields exclude_fields : value)
    : M dict :=
  match depth with
  | O => raise (RuntimeError "maximum recursion depth exceeded")
  | S depth' =>
      props <~ py_properties model ;;
      ConvertToDict_loop (ConvertToDict depth') model include_fields exclude_fields
        props []
  end.

(** [json.dumps] on the values it can encode; strings are taken to be
    printable ASCII apart from the escapes listed here. *)
Definition dquote : ascii := ascii_of_nat 34.

Definition json_escape_char (c : ascii) : string :=
  if Ascii.eqb c dquote then String "\" (String dquote EmptyString)
  else match c with
  | "\"%char => "\\"
  | "010"%char => "\n"
  | "013"%char => "\r"
  | "009"%char => "\t"
  | _ => String c EmptyString
  end.

Fixpoint json_escape (s : string) : string :=
  match s with
  | EmptyString => EmptyString
  | String c s' => json_escape_char c +:+ json_escape s'
  end.

Definition json_string (s : string) : string :=
  String dquote (json_escape s) +:+ String dquote EmptyString.

Fixpoint join (sep : string) (l : list string) : string :=
  match l with
  | [] => EmptyString
  | [x] => x
  | x :: xs => x +:+ sep +:+ join sep xs
  end.

Definition dec_string (n : Z) : string :=
  DecimalString.NilZero.string_of_int (Z.to_int n).

Fixpoint json_dumps (v : value) : result string :=
  match v with
  | VNone => Ok "null"
  | VBool true => Ok "true"
  | VBool false => Ok "false"
  | VInt n => Ok (dec_string n)
  | VFloat x => Ok x
  | VStr s => Ok (json_string s)
  | VList l =>
      parts <-! (fix go (l : list value) : result (list string) :=
                   match l with
                   | [] => Ok []
                   | x :: xs => s <-! json_dumps x; r <-! go xs; Ok (s :: r)
                   end) l;
      Ok ("[" +:+ join ", " parts +:+ "]")
  | VDict d =>
      parts <-! (fix go (d : dict) : result (list string) :=
                   match d with
                   | [] => Ok []
                   | (k, x) :: xs =>
                       s <-! json_dumps x; r <-! go xs;
                       Ok ((json_string k +:+ ": " +:+ s) :: r)
                   end) d;
      Ok ("{" +:+ join ", " parts +:+ "}")
  | v => Raise (TypeError (type_name v +:+ " is not JSON serializable"))
  end.

(** [ConvertToJson(model, include_fields, exclude_fields)]: the call in
    the source is [ConvertToDict(include_fields, exclude_fields)], so the
    allow-list takes the place of the model, the deny-list that of the
    allow-list, and the deny-list is the default [None]. *)
Definition ConvertToJson (depth : nat) (model include_fields exclude_fields : value)
    : M string :=
  d <~ ConvertToDict depth include_fields exclude_fields VNone ;;
  lift_result (json_dumps (VDict d)).

(** ** [util.py]: dictionaries to objects *)

(** [input_dict.items()]. *)
Definition py_items (x : value) : M (list (string * value)) :=
  match x with
  | VDict d => ret d
  | _ => raise (AttributeError "items")
  end.

Definition hook_name (k : string) : string := "JSON_DECODE_" +:+ k.

(** One pass through the loop body of [ConvertFromDict]. *)
Definition ConvertFromDict_step (model : value) (fields_to_exclude : value)
    (k : string) (v : value) : M unit :=
  skip <~ lift_result (py_in k fields_to_exclude) ;;
  if (skip : bool) then ret tt
  else
    has <~ py_hasattr model (hook_name k) ;;
    if (has : bool) then
      method <~ py_getattr model (hook_name k) ;;
      py_call model method v
    else py_setattr model k v.

Fixpoint ConvertFromDict_loop (model : value) (fields_to_exclude : value)
    (items : list (string * value)) : M unit :=
  match items with
  | [] => ret tt
  | (k, v) :: rest =>
      ConvertFromDict_step model fields_to_exclude k v ;;;
      ConvertFromDict_loop model fields_to_exclude rest
  end.

(** [ConvertFromDict(model, input_dict, fields_to_exclude)]. *)
Definition ConvertFromDict (model input_dict fields_to_exclude : value) : M unit :=
  items <~ py_items input_dict ;;
  ConvertFromDict_loop model fields_to_exclude items.

(** The default of [fields_to_exclude]. *)
Definition no_fields : value := VList [].

(** ** The datastore, the request and the response *)

Record entity : Type := mkent {
  ent_key : dskey;
  ent_attrs : dict
}.

(** A piece of the response body: text, or a template rendered against
    its variables (the template engine is outside the program). *)
Inductive chunk : Type :=
| Text (s : string)
| Rendered (template : string) (args : dict).

Record request : Type := mkreq {
  req_method : string;
  req_body : string;
  req_params : list (string * string)
}.

Record world : Type := mkworld {
  w_heap : heap;
  w_store : list entity;              (* stored entities, oldest first *)
  w_next_id : Z;                      (* next numeric id of the datastore *)
  w_log : list (string * value);      (* logging.info: text, value shown *)
  w_status : Z;                       (* response status *)
  w_headers : list (string * string); (* response headers, in order *)
  w_out : list chunk                  (* response.out *)
}.

Definition Handler (A : Type) : Type := ST world A.

Definition set_heap (w : world) (h : heap) : world :=
  mkworld h (w_store w) (w_next_id w) (w_log w) (w_status w) (w_headers w) (w_out w).

Definition set_store (w : world) (s : list entity) (n : Z) : world :=
  mkworld (w_heap w) s n (w_log w) (w_status w) (w_headers w) (w_out w).

(** Run a heap computation inside a handler. *)
Definition on_heap {A} (c : M A) : Handler A :=
  fun w => let '(r, h) := c (w_heap w) in (r, set_heap w h).

Definition logging_info (text : string) (shown : value) : Handler unit :=
  fun w => (Ok tt, mkworld (w_heap w) (w_store w) (w_next_id w)
                     (w_log w ++ [(text, shown)])%list
                     (w_status w) (w_headers w) (w_out w)).

(** [s.lower()] on a byte string. *)
Definition lower_char (c : ascii) : ascii :=
  let n := nat_of_ascii c in
  if (65 <=? n)%nat && (n <=? 90)%nat then ascii_of_nat (n + 32) else c.

Fixpoint lower (s : string) : string :=
  match s with
  | EmptyString => EmptyString
  | String c s' => String (lower_char c) (lower s')
  end.

(** [headers[name] = v] on the headers of the response
    ([wsgiref.headers.Headers]): every header of that name, compared
    without regard to case, is deleted and the new one is appended. *)
Definition with_header (name v : string) (headers : list (string * string))
    : list (string * string) :=
  (List.filter (fun kv => negb (String.eqb (lower (fst kv)) (lower name))) headers
   ++ [(name, v)])%list.

Definition set_header (name v : string) : Handler unit :=
  fun w => (Ok tt, mkworld (w_heap w) (w_store w) (w_next_id w) (w_log w)
                     (w_status w) (with_header name v (w_headers w)) (w_out w)).

Definition out_write (c : chunk) : Handler unit :=
  fun w => (Ok tt, mkworld (w_heap w) (w_store w) (w_next_id w) (w_log w)
                     (w_status w) (w_headers w) (w_out w ++ [c])%list).

Definition dskey_eqb (a b : dskey) : bool :=
  match a, b with
  | KName k n, KName k' n' => String.eqb k k' && String.eqb n n'
  | KId k i, KId k' i' => String.eqb k k' && (i =? i')
  | _, _ => false
  end.

Definition key_kind (k : dskey) : string :=
  match k with KName kind _ => kind | KId kind _ => kind end.

Fixpoint find_entity (k : dskey) (s : list entity) : option entity :=
  match s with
  | [] => None
  | e :: s' => if dskey_eqb k (ent_key e) then Some e else find_entity k s'
  end.

(** Writes an entity under its key: in place when the key is stored
    already, at the end otherwise. *)
Fixpoint upsert (e : entity) (s : list entity) : list entity :=
  match s with
  | [] => [e]
  | e' :: s' =>
      if dskey_eqb (ent_key e) (ent_key e') then e :: s' else e' :: upsert e s'
  end.

(** How an attribute is stored: a reference to an instance is stored as
    the key of that instance, which must have been saved. *)
Definition stored_value (h : heap) (v : value) : result value :=
  match v with
  | VRef r =>
      match h !! r with
      | Some o =>
          match obj_key o with
          | Some k => Ok (VKey k)
          | None => Raise (ValueError "instance must have a complete key")
          end
      | None => Raise (RuntimeError "dangling reference")
      end
  | _ => Ok v
  end.

Fixpoint stored_attrs (h : heap) (d : dict) : result dict :=
  match d with
  | [] => Ok []
  | (k, v) :: d' =>
      v' <-! stored_value h v;
      r <-! stored_attrs h d';
      Ok ((k, v') :: r)
  end.

(** [obj.put()]. *)
Definition db_put (x : value) : Handler unit :=
  match x with
  | VRef l => fun w =>
      match w_heap w !! l with
      | None => (Raise (RuntimeError "dangling reference"), w)
      | Some o =>
          match stored_attrs (w_heap w) (obj_attrs o) with
          | Raise e => (Raise e, w)
          | Ok attrs =>
              let '(k, n) :=
                match obj_key o with
                | Some k => (k, w_next_id w)
                | None => (KId (obj_class o) (w_next_id w), w_next_id w + 1)
                end in
              let w1 := set_store w (upsert (mkent k attrs) (w_store w)) n in
              (Ok tt, set_heap w1
                 (<[l := mkobj (obj_class o) (Some k) (obj_attrs o)]> (w_heap w)))
          end
      end
  | _ => raise (AttributeError "put")
  end.

(** Loading a stored entity gives a new instance. *)
Definition instance_of (e : entity) : pyobj :=
  mkobj (key_kind (ent_key e)) (Some (ent_key e)) (ent_attrs e).

(** [Kind.get_or_insert(key_name)]. *)
Definition get_or_insert (kind : string) (key_name : string) : Handler value :=
  fun w =>
    let k := KName kind key_name in
    let '(e, s) :=
      match find_entity k (w_store w) with
      | Some e => (e, w_store w)
      | None =>
          let defaults :=
            match classes kind with Some c => cls_defaults c | None => [] end in
          let e := mkent k defaults in
          (e, (w_store w ++ [e])%list)
      end in
    let w1 := set_store w s (w_next_id w) in
    let '(r, h) := alloc (instance_of e) (w_heap w1) in
    (match r with Ok l => Ok (VRef l) | Raise x => Raise x end, set_heap w1 h).

(** The ids a key can be looked up with: a key whose id is zero is
    incomplete, and an id is sent as a signed integer of 64 bits. *)
Definition check_id (id : Z) : result unit :=
  if id =? 0 then Raise (BadKeyError "Key is not complete.")
  else if (- 2 ^ 63 <=? id) && (id <? 2 ^ 63) then Ok tt
  else Raise (ProtocolBufferEncodeError "int64 too big").

(** [Kind.get_by_id(id)]: the instance, or [None]; it raises on an id
    that cannot be looked up. *)
Definition get_by_id (kind : string) (id : Z) : Handler value :=
  lift_result (check_id id) ;;;
  fun w =>
    match find_entity (KId kind id) (w_store w) with
    | Some e =>
        let '(r, h) := alloc (instance_of e) (w_heap w) in
        (match r with Ok l => Ok (VRef l) | Raise x => Raise x end, set_heap w h)
    | None => (Ok VNone, w)
    end.

(** [Kind()]: a new instance that has no key yet. *)
Definition new_instance (kind : string) : Handler value :=
  let defaults :=
    match classes kind with Some c => cls_defaults c | None => [] end in
  l <~ on_heap (alloc (mkobj kind None defaults)) ;;
  ret (VRef l).

(** ** Operators on values used by the controller *)

(** [x[k]] for a string [k]. *)
Definition py_getitem (x : value) (k : string) : result value :=
  match x with
  | VDict d => Dict.getitem k d
  | v => Raise (TypeError ("'" +:+ type_name v +:+ "' object is unsubscriptable"))
  end.

(** [del x[k]] for a string [k]. *)
Definition py_delitem (x : value) (k : string) : result value :=
  match x with
  | VDict d => if Dict.has k d then Ok (VDict (Dict.del k d)) else Raise (KeyError k)
  | v => Raise (TypeError ("'" +:+ type_name v +:+ "' object does not support item deletion"))
  end.

(** ['text' + x]. *)
Definition str_concat (text : string) (x : value) : result string :=
  match x with
  | VStr s => Ok (text +:+ s)
  | v => Raise (TypeError ("cannot concatenate 'str' and '" +:+ type_name v +:+ "' objects"))
  end.

Fixpoint chars (s : string) : list value :=
  match s with
  | EmptyString => []
  | String c s' => VStr (String c EmptyString) :: chars s'
  end.

(** The items a [for] loop over [x] visits. *)
Definition py_iter (x : value) : result (list value) :=
  match x with
  | VList l => Ok l
  | VDict d => Ok (map (fun kv => VStr (fst kv)) d)
  | VStr s => Ok (chars s)
  | v => Raise (TypeError ("'" +:+ type_name v +:+ "' object is not iterable"))
  end.

(** [not x]: true for [None] and for empty or zero values, false for
    every instance; it is applied to what [get_by_id] returns. *)
Definition py_not (x : value) : bool :=
  match x with
  | VNone | VBool false | VInt 0 | VStr EmptyString | VList [] | VDict [] => true
  | _ => false
  end.

(** ** [controllers/measurement.py] *)

Definition MEASUREMENT_TYPES : list (string * string) :=
  [("ping", "ping"); ("dns_lookup", "DNS lookup"); ("traceroute", "traceroute");
   ("http", "HTTP get"); ("ndt", "NDT measurement")].

(** The names the module binds: its imports, its constant and its class. *)
Definition module_globals : list string :=
  ["logging"; "json"; "users"; "webapp"; "template"; "model"; "error";
   "util"; "MEASUREMENT_TYPES"; "Measurement"].

(** Evaluating a global name that the module does not bind. *)
Definition load_global (globals : list string) (name : string) : Handler unit :=
  if existsb (String.eqb name) globals then ret tt else raise (NameError name).

(** What the platform provides to a handler. *)
Record platform : Type := mkplatform {
  json_loads : string -> result value;          (* json.loads *)
  current_user : option string;                 (* users.get_current_user() *)
  create_logout_url : string -> string          (* users.create_logout_url *)
}.

Variable env : platform.

Definition key_of (x : value) : Handler dskey :=
  match x with
  | VRef l => fun w =>
      match w_heap w !! l with
      | Some o =>
          match obj_key o with
          | Some k => (Ok k, w)
          | None => (Raise (ValueError "instance must have a complete key"), w)
          end
      | None => (Raise (RuntimeError "dangling reference"), w)
      end
  | _ => raise (AttributeError "key")
  end.

Definition snapshot_of (k : dskey) (e : entity) : bool :=
  String.eqb (key_kind (ent_key e)) "DeviceProperties" &&
  match Dict.get "device_info" (ent_attrs e) with
  | Some (VKey k') => dskey_eqb k k'
  | _ => false
  end.

(** Modelled from the spec: the helper [GetLatestDeviceProperties] of the
    module [device] is not in the sources.  It fetches the most recently
    stored DeviceProperties snapshot of the DeviceInfo, creating and
    persisting a default one if none exists yet. *)
Definition GetLatestDeviceProperties (device_info : value) (create_new_if_none : bool)
    : Handler value :=
  k <~ key_of device_info ;;
  fun w =>
    match last (List.filter (snapshot_of k) (w_store w)) with
    | Some e =>
        (l <~ on_heap (alloc (instance_of e)) ;; ret (VRef l)) w
    | None =>
        if create_new_if_none then
          (dp <~ new_instance "DeviceProperties" ;;
           on_heap (py_setattr dp "device_info" device_info) ;;;
           db_put dp ;;;
           ret dp) w
        else (Ok VNone, w)
    end.

(** Lines 46 to 56 of the loop body: the snapshot of the entry, and the
    entry's data as the rest of the body sees it.  [globals] are the names
    bound in the module. *)
Definition PostMeasurement_properties (globals : list string)
    (device_info measurement_dict : value) : Handler (value * value) :=
  has <~ lift_result (py_in "properties" measurement_dict) ;;
  if (has : bool) then
    device_properties <~ new_instance "DeviceProperties" ;;
    on_heap (py_setattr device_properties "device_info" device_info) ;;;
    properties_dict <~ lift_result (py_getitem measurement_dict "properties") ;;
    on_heap (ConvertFromDict device_properties properties_dict no_fields) ;;;
    (* Don't want the embedded properties in the Measurement object *)
    measurement_dict' <~ lift_result (py_delitem measurement_dict "properties") ;;
    ret (device_properties, measurement_dict')
  else
    (* Get most recent device properties *)
    load_global globals "device" ;;;
    device_properties <~ GetLatestDeviceProperties device_info true ;;
    ret (device_properties, measurement_dict).

(** Lines 57 to 64: the snapshot and the measurement are saved. *)
Definition PostMeasurement_store (device_properties measurement_dict : value)
    : Handler unit :=
  db_put device_properties ;;;
  measurement <~ new_instance "Measurement" ;;
  on_heap (ConvertFromDict measurement measurement_dict no_fields) ;;;
  on_heap (py_setattr measurement "device_properties" device_properties) ;;;
  db_put measurement ;;;
  logging_info "Stored measurement: " measurement ;;;
  shown <~ on_heap (getattr_value measurement "device_properties") ;;
  logging_info "Device: " shown.

(** The body of the loop of [PostMeasurement] for one entry. *)
Definition PostMeasurement_entry (globals : list string) (measurement_dict : value)
    : Handler unit :=
  device_id <~ lift_result (py_getitem measurement_dict "device_id") ;;
  text <~ lift_result (str_concat "Device ID: " device_id) ;;
  logging_info text VNone ;;;
  device_info <~ match device_id with
                 | VStr name => get_or_insert "DeviceInfo" name
                 | _ => raise (TypeError "key_name must be a string")
                 end ;;
  st <~ PostMeasurement_properties globals device_info measurement_dict ;;
  PostMeasurement_store (fst st) (snd st).

Fixpoint PostMeasurement_loop (globals : list string) (entries : list value) : Handler unit :=
  match entries with
  | [] => ret tt
  | measurement_dict :: rest =>
      PostMeasurement_entry globals measurement_dict ;;;
      PostMeasurement_loop globals rest
  end.

Definition PostMeasurement_in (globals : list string) (req : request) : Handler unit :=
  if negb (String.eqb (lower (req_method req)) "post")
  then raise (BadRequest "Not a POST request.")
  else
    logging_info "PostMeasurement: request is " VNone ;;;
    logging_info ("PostMeasurement: body is " +:+ req_body req) VNone ;;;
    measurement_list <~ lift_result (json_loads env (req_body req)) ;;
    entries <~ lift_result (py_iter measurement_list) ;;
    PostMeasurement_loop globals entries ;;;
    let response := VDict [("success", VBool true)] in
    set_header "Content-Type" "application/json" ;;;
    body <~ lift_result (json_dumps response) ;;
    out_write (Text body).

(** [Measurement.PostMeasurement]. *)
Definition PostMeasurement (req : request) : Handler unit :=
  PostMeasurement_in module_globals req.

(** How a block of statements ends. *)
Inductive completion : Type :=
| Normal
| Returned
| Thrown (e : exn).

(** The local variables of [MeasurementDetail]; [None] is an unbound
    name. *)
Record detail_locals : Type := mklocals {
  l_measid : option string;
  l_measurement : option value;
  l_template_args : option dict
}.

(** [self.request.get(name)]: the empty string when the parameter is
    missing.  The text is a unicode string, held here as its code points,
    all below 256. *)
Fixpoint request_get (params : list (string * string)) (name : string) : string :=
  match params with
  | [] => EmptyString
  | (n, v) :: rest => if String.eqb name n then v else request_get rest name
  end.

(** [users.get_current_user().email()]. *)
Definition current_user_email : result string :=
  match current_user env with
  | Some email => Ok email
  | None => Raise (AttributeError "email")
  end.

Definition read_local {A} (name : string) (x : option A) : result A :=
  match x with
  | Some a => Ok a
  | None => Raise (UnboundLocalError name)
  end.

Definition detail_template : string := "templates/measurementdetail.html".

(** The blanks of a unicode string with code points below 256: the
    blanks of a byte string, the four separators 28 to 31, the next-line
    mark and the no-break space. *)
Definition unicode_space (c : ascii) : bool :=
  let n := nat_of_ascii c in
  Str.is_space c || ((28 <=? n)%nat && (n <=? 31)%nat) || (n =? 133)%nat
  || (n =? 160)%nat.

(** [PyUnicode_EncodeDecimal]: every blank becomes a space, a NUL is
    refused (with [UnicodeEncodeError], a [ValueError]) and any other
    character below 256 is copied. *)
Fixpoint encode_decimal (s : string) : result string :=
  match s with
  | EmptyString => Ok EmptyString
  | String c s' =>
      if unicode_space c then r <-! encode_decimal s'; Ok (String " " r)
      else if (nat_of_ascii c =? 0)%nat
      then Raise (ValueError "invalid decimal Unicode string")
      else r <-! encode_decimal s'; Ok (String c r)
  end.

(** [int(u)] in base 10 on a unicode string. *)
Definition unicode_int (u : string) : result Z :=
  b <-! encode_decimal u;
  Str.py_int b.

(** The [try] block of [MeasurementDetail]. *)
Definition MeasurementDetail_try (req : request) (w : world)
    : completion * detail_locals * world :=
  let measid := request_get (req_params req) "id" in
  let locals1 := mklocals (Some measid) None None in
  match unicode_int measid with
  | Raise e => (Thrown e, locals1, w)
  | Ok id =>
      match get_by_id "Measurement" id w with
      | (Raise e, w1) => (Thrown e, locals1, w1)
      | (Ok measurement, w1) =>
          let locals2 := mklocals (Some measid) (Some measurement) None in
          if py_not measurement then
            let errormsg := "Cannot get measurement " +:+ measid in
            match current_user_email with
            | Raise e => (Thrown e, locals2, w1)
            | Ok email =>
                let template_args :=
                  [("error", VStr errormsg); ("user", VStr email);
                   ("logout_link", VStr (create_logout_url env "/"))] in
                (Returned,
                 mklocals (Some measid) (Some measurement) (Some template_args), w1)
            end
          else (Normal, locals2, w1)
      end
  end.

(** The [finally] block: it assigns [template_args] anew and renders. *)
Definition MeasurementDetail_finally (locals : detail_locals) : Handler detail_locals :=
  measid <~ lift_result (read_local "measid" (l_measid locals)) ;;
  measurement <~ lift_result (read_local "measurement" (l_measurement locals)) ;;
  email <~ lift_result current_user_email ;;
  let template_args :=
    [("id", VStr measid); ("measurement", measurement); ("user", VStr email);
     ("logout_link", VStr (create_logout_url env "/"))] in
  out_write (Rendered detail_template template_args) ;;;
  ret (mklocals (l_measid locals) (l_measurement locals) (Some template_args)).

(** [Measurement.MeasurementDetail]: the [finally] block runs however the
    [try] block ends; an exception raised in it replaces the pending one,
    otherwise the pending exception is raised again. *)
Definition MeasurementDetail (req : request) : Handler unit :=
  fun w =>
    let '(c, locals, w1) := MeasurementDetail_try req w in
    match MeasurementDetail_finally locals w1 with
    | (Raise e, w2) => (Raise e, w2)
    | (Ok _, w2) =>
        match c with
        | Thrown e => (Raise e, w2)
        | Normal | Returned => (Ok tt, w2)
        end
    end.

End Objects.

Arguments mkplatform json_loads current_user create_logout_url : assert.

(** The headers of a response that the handler has not touched yet. *)
Definition default_headers : list (string * string) :=
  [("Content-Type", "text/html; charset=utf-8"); ("Cache-Control", "no-cache")].

(** An empty datastore and an untouched response. *)
Definition empty_world : world := mkworld [] [] 1 [] 200 default_headers [].

(** A computation that leaves the heap as it found it, whatever it
    returns or raises. *)
Definition read_only {A} (c : M A) : Prop := forall h, snd (c h) = h.

(** An optional list of field names as the value the caller passes. *)
Definition fields_value (fields : option (list string)) : value :=
  match fields with
  | None => VNone
  | Some l => VList (map VStr l)
  end.

(** ** Validation by property classes of the datastore library

    The classes of [model.py] are not in the sources; these are the
    checks of the property classes the examples below declare. *)

Definition refuse (name what : string) : result unit :=
  Raise (BadValueError ("Property " +:+ name +:+ " must be " +:+ what)).

Definition accept_all : string -> validator := fun _ _ _ => Ok tt.

(** [db.IntegerProperty]: an [int] or [long] of 64 bits that is no
    [bool]. *)
Definition IntegerProperty (name : string) : validator :=
  fun _ v =>
    match v with
    | VNone => Ok tt
    | VInt n =>
        if (- 2 ^ 63 <=? n) && (n <? 2 ^ 63) then Ok tt
        else Raise (OverflowError ("Property " +:+ name +:+ " must fit in 64 bits"))
    | _ => refuse name "an int or long"
    end.

(** [db.StringProperty]: a string of one line. *)
Definition StringProperty (name : string) : validator :=
  fun _ v =>
    match v with
    | VNone => Ok tt
    | VStr s =>
        if Str.has_char "010" s
        then Raise (BadValueError ("Property " +:+ name +:+ " is not multi-line"))
        else Ok tt
    | _ => refuse name "a str or unicode instance"
    end.

(** [db.DateTimeProperty]: the test is [if value and not isinstance(...)],
    so that every value that counts as false passes. *)
Definition DateTimeProperty (name : string) : validator :=
  fun _ v =>
    match v with
    | VTime (Datetime.ADateTime _) => Ok tt
    | _ => if py_not v then Ok tt else refuse name "a datetime"
    end.

(** [db.DateProperty]: as above for a date that is no [datetime]. *)
Definition DateProperty (name : string) : validator :=
  fun _ v =>
    match v with
    | VTime (Datetime.ADate _ _ _) => Ok tt
    | _ => if py_not v then Ok tt else refuse name "a date"
    end.

(** [db.GeoPtProperty] on a value that is a point already. *)
Definition GeoPtProperty (name : string) : validator :=
  fun _ v =>
    match v with
    | VNone | VGeoPt _ _ => Ok tt
    | _ => refuse name "a GeoPt"
    end.

(** [db.UserProperty]. *)
Definition UserProperty_validate (name : string) : validator :=
  fun _ v =>
    match v with
    | VNone | VUser _ => Ok tt
    | _ => refuse name "a User"
    end.

(** [db.ReferenceProperty]: a key, or an instance that has been saved
    ([value.has_key()]). *)
Definition ReferenceProperty (name : string) : validator :=
  fun h v =>
    match v with
    | VNone | VKey _ => Ok tt
    | VRef l =>
        match h !! l with
        | Some o =>
            match obj_key o with
            | Some _ => Ok tt
            | None =>
                Raise (BadValueError
                  "instance must have a complete key before it can be stored as a reference")
            end
        | None => Raise (RuntimeError "dangling reference")
        end
    | VDict _ => Raise (TypeError "has_key() takes exactly one argument (0 given)")
    | _ => Raise (AttributeError "has_key")
    end.

(** ** A small program to run the functions on *)

Module Example.

(** A decode hook that keeps what it was given under another name. *)
Definition decode_x : method :=
  fun self v => store_attr self "decoded_x" v.

(** A decode hook that reads a timestamp. *)
Definition decode_timestamp : method :=
  fun self v =>
    match v with
    | VStr s =>
        dt <~ lift_result (StringToTime s) ;;
        property_set (DateTimeProperty "timestamp") self "timestamp"
          (VTime (Datetime.ADateTime dt))
    | _ => raise (TypeError "expected string or buffer")
    end.

Definition Thing : pyclass :=
  mkclass true [("owner", "<UserProperty owner>")] []
          [("JSON_DECODE_x", decode_x)] UserProperty_validate.

Definition MeasurementClass : pyclass :=
  mkclass true
    [("device_properties", "<ReferenceProperty device_properties>");
     ("type", "<StringProperty type>");
     ("timestamp", "<DateTimeProperty timestamp>")]
    [("type", VNone); ("timestamp", VNone)]
    [("JSON_DECODE_timestamp", decode_timestamp)]
    (fun name =>
       if String.eqb name "device_properties" then ReferenceProperty name
       else if String.eqb name "type" then StringProperty name
       else DateTimeProperty name).

Definition classes (name : string) : option pyclass :=
  if String.eqb name "Thing" then Some Thing
  else if String.eqb name "DeviceInfo" then Some (mkclass true [] [] [] accept_all)
  else if String.eqb name "DeviceProperties"
  then Some (mkclass true [] [] [] accept_all)
  else if String.eqb name "Measurement" then Some MeasurementClass
  else None.

Definition thing : pyobj := mkobj "Thing" None [("owner", VUser "a@example.com")].

(** A batch of two entries from the device [d1]: the first carries
    [properties], the second does not. *)
Definition entry1 : dict :=
  [("device_id", VStr "d1");
   ("properties", VDict [("os_version", VStr "2.3"); ("carrier", VStr "T")]);
   ("type", VStr "ping");
   ("timestamp", VStr "2021-01-01T00:00:00.5Z")].

Definition entry2 : dict :=
  [("device_id", VStr "d1");
   ("type", VStr "dns_lookup");
   ("timestamp", VStr "2021-01-01T00:00:01Z")].

Definition batch : value := VList [VDict entry1; VDict entry2].

Definition batch_body : string :=
  match json_dumps batch with
  | Ok s => s
  | Raise _ => EmptyString
  end.

(** [json.loads] on the one body the example sends. *)
Definition loads (body : string) : result value :=
  if String.eqb body batch_body then Ok batch
  else Raise (ValueError "No JSON object could be decoded").

Definition env : platform :=
  mkplatform loads (Some "user@example.com") (fun dest => "/logout?continue=" +:+ dest).

Definition post : request := mkreq "POST" batch_body [].

End Example.

(** ** Predicates of the statements *)

(** The object at [l], if there is one, has no attribute [name]. *)
Definition absent (name : string) (l : loc) (h : heap) : Prop :=
  forall o, h !! l = Some o -> Dict.get name (obj_attrs o) = None.

(** A method that does not give its object an attribute [name]. *)
Definition preserves_absent (name : string) (m : method) : Prop :=
  forall l v h, absent name l h -> absent name l (snd (m l v h)).

(** No method of any class of the table creates the attribute [name]. *)
Definition hooks_preserve_absent (classes : string -> option pyclass)
    (name : string) : Prop :=
  forall cls c hook m,
    classes cls = Some c ->
    find_method hook (cls_methods c) = Some m ->
    preserves_absent name m.

(** A handler computation that writes nothing to the response body. *)
Definition silent {A} (c : Handler A) : Prop := forall w, w_out (snd (c w)) = w_out w.

(** The world when the loop of [PostMeasurement] starts: the request and
    its body have been logged. *)
Definition logged (req : request) (w : world) : world :=
  snd ((logging_info "PostMeasurement: request is " VNone ;;;
        logging_info ("PostMeasurement: body is " +:+ req_body req) VNone) w).

(** The stored entities of a kind, and the snapshots the stored
    measurements are linked to. *)
Definition entities_of_kind (kind : string) (s : list entity) : list entity :=
  List.filter (fun e => String.eqb (key_kind (ent_key e)) kind) s.

Definition linked_snapshots (s : list entity) : list (option value) :=
  map (fun e => Dict.get "device_properties" (ent_attrs e))
      (entities_of_kind "Measurement" s).

(** The text [{"success": true}]. *)
Definition success_body : string :=
  "{" +:+ String dquote ("success" +:+ String dquote ": true}").

(** ** Further predicates on strings *)

(** How many times [c] occurs in [s]. *)
Fixpoint count_char (c : ascii) (s : string) : nat :=
  match s with
  | EmptyString => O
  | String a s' => (if Ascii.eqb a c then 1 else 0) + count_char c s'
  end.

(** The characters the directives of the format consume: digits and the
    blank. *)
Definition field_char (c : ascii) : bool :=
  match Str.digit_of c with
  | Some _ => true
  | None => Ascii.eqb c " "
  end.

Fixpoint all_chars (P : ascii -> bool) (s : string) : bool :=
  match s with
  | EmptyString => true
  | String a s' => P a && all_chars P s'
  end.

(** A matcher that consumes field characters only. *)
Definition consumes_field (p : Datetime.matcher) : Prop :=
  forall s v r, p s = Some (v, r) ->
    exists pre, s = pre +:+ r /\ all_chars field_char pre = true.


(** ** The filters of [ConvertToDict] and the assignments of
    [ConvertFromDict], as functions on lists *)

(** Whether the allow-list and the deny-list let a field through. *)
Definition selected (include_fields exclude_fields : option (list string))
    (key : string) : bool :=
  match include_fields with
  | None => true
  | Some l => existsb (String.eqb key) l
  end &&
  match exclude_fields with
  | None => true
  | Some l => negb (existsb (String.eqb key) l)
  end.

(** The attributes after the items that are not in the deny-list have
    been assigned in order. *)
Fixpoint assign (exclude : list string) (items : dict) (attrs : dict) : dict :=
  match items with
  | [] => attrs
  | (k, v) :: rest =>
      assign exclude rest
        (if existsb (String.eqb k) exclude then attrs else Dict.set k v attrs)
  end.

(** ** More objects to run the functions on *)

Module Sample.

Definition Pair : pyclass :=
  mkclass true [("a", "<IntegerProperty a>"); ("b", "<StringProperty b>")]
          [("a", VNone); ("b", VNone)] []
          (fun name =>
             if String.eqb name "a" then IntegerProperty name
             else StringProperty name).

Definition Node : pyclass :=
  mkclass true [("next", "<ReferenceProperty next>")] [("next", VNone)] []
          ReferenceProperty.

Definition Holder : pyclass :=
  mkclass true [("child", "<ReferenceProperty child>")] [("child", VNone)] []
          ReferenceProperty.

Definition classes (name : string) : option pyclass :=
  if String.eqb name "Pair" then Some Pair
  else if String.eqb name "Node" then Some Node
  else if String.eqb name "Holder" then Some Holder
  else None.

Definition pair : pyobj := mkobj "Pair" None [("a", VInt 1); ("b", VStr "x")].

(** A node that refers to itself. *)
Definition knot : pyobj := mkobj "Node" None [("next", VRef 0%nat)].

(** A holder of the pair at location 1. *)
Definition holder : pyobj := mkobj "Holder" None [("child", VRef 1%nat)].

End Sample.

(** Two recursive calls of which the second returns whatever the first
    returns. *)
Definition extends_call (rec rec' : value -> value -> value -> M dict) : Prop :=
  forall m i e h d h', rec m i e h = (Ok d, h') -> rec' m i e h = (Ok d, h').


(** The object [o] with [v] stored under [k]. *)
Definition with_attr (o : pyobj) (k : string) (v : value) : pyobj :=
  mkobj (obj_class o) (obj_key o) (Dict.set k v (obj_attrs o)).

(** The class of [o] lets [v] be assigned to the attribute [k]: either
    [k] is no declared property, or its validation accepts [v] whatever
    the heap. *)
Definition admits (classes : string -> option pyclass) (o : pyobj)
    (k : string) (v : value) : Prop :=
  declared (class_of classes o) k = true ->
  forall h, cls_validate (class_of classes o) k h v = Ok tt.

(** An object without decode hooks, neither as methods of its class nor
    as attributes. *)
Definition no_hooks (classes : string -> option pyclass) (o : pyobj) : Prop :=
  (forall k, find_method (hook_name k) (cls_methods (class_of classes o)) = None) /\
  (forall k, Dict.get (hook_name k) (obj_attrs o) = None).

(** ** Predicates on the datastore and the response *)

(** The keys of the stored entities, oldest first. *)
Definition keys (s : list entity) : list dskey := map ent_key s.

(** From one state of the datastore to a later one no key is lost and no
    key comes to be stored twice. *)
Definition store_grows (s s' : list entity) : Prop :=
  (forall k, In k (keys s) -> In k (keys s')) /\
  (List.NoDup (keys s) -> List.NoDup (keys s')).

Definition grows {A} (c : Handler A) : Prop :=
  forall w, store_grows (w_store w) (w_store (snd (c w))).

(** The response as the client sees it. *)
Definition response_of (w : world) : Z * list (string * string) * list chunk :=
  (w_status w, w_headers w, w_out w).

(** A handler computation that leaves the response as it is. *)
Definition quiet {A} (c : Handler A) : Prop :=
  forall w, response_of (snd (c w)) = response_of w.

(** A datastore that knows one device already. *)
Definition known_device : world :=
  mkworld [] [mkent (KName "DeviceInfo" "d0") []] 1 [] 200 default_headers [].

(** The response after the success body has been written. *)
Definition success_response (w : world) : Z * list (string * string) * list chunk :=
  (w_status w, with_header "Content-Type" "application/json" (w_headers w),
   (w_out w ++ [Text success_body])%list).

(** A computation that, started from any world, either returns with the
    success response written or raises with the response untouched. *)
Definition answers (c : Handler unit) : Prop :=
  forall w,
    (fst (c w) = Ok tt -> response_of (snd (c w)) = success_response w) /\
    (forall e, fst (c w) = Raise e -> response_of (snd (c w)) = response_of w).

(** A platform whose JSON decoder finds an empty array in every body, and
    where nobody is signed in. *)
Definition empty_platform : platform :=
  mkplatform (fun _ => Ok (VList [])) None (fun dest => dest).

(** The values [ConvertToDict] encodes without a recursive call, and
    what it puts in the dictionary for them. *)
Definition is_flat (v : value) : bool :=
  is_simple v || match v with VTime _ | VGeoPt _ _ => true | _ => false end.

Definition encode_flat (v : value) : value :=
  match v with
  | VTime t => VStr (TimeToString t)
  | VGeoPt lat lon => VDict [("latitude", VFloat lat); ("longitude", VFloat lon)]
  | _ => v
  end.

Definition encoded (o : option value) : option value :=
  match o with
  | Some v => Some (encode_flat v)
  | None => None
  end.

Module Sample2.

(** A model with a number, a time, a place and a date. *)
Definition Reading : pyclass :=
  mkclass true
    [("count", "<IntegerProperty count>"); ("at", "<DateTimeProperty at>");
     ("where", "<GeoPtProperty where>"); ("day", "<DateProperty day>")]
    [] []
    (fun name =>
       if String.eqb name "count" then IntegerProperty name
       else if String.eqb name "at" then DateTimeProperty name
       else if String.eqb name "where" then GeoPtProperty name
       else DateProperty name).

Definition classes (name : string) : option pyclass :=
  if String.eqb name "Reading" then Some Reading
  else if String.eqb name "Holder" then Some Sample.Holder
  else None.

Definition reading : pyobj :=
  mkobj "Reading" None
    [("count", VInt 3);
     ("at", VTime (Datetime.ADateTime (Datetime.mkdt 2021 1 1 12 0 0 250000)));
     ("where", VGeoPt "47.6" "-122.3");
     ("day", VTime (Datetime.ADate 2021 1 1))].

End Sample2.

(** ** Keys of the instances on the heap *)

(** The instance at [l] has been saved under the key [k]. *)
Definition keyed (k : dskey) (l : loc) (h : heap) : Prop :=
  exists o, h !! l = Some o /\ obj_key o = Some k.

(** A method that leaves the keys of the other instances as they are. *)
Definition keeps_others (m : method) : Prop :=
  forall self v h l k, l <> self -> keyed k l h -> keyed k l (snd (m self v h)).

(** Every method of every class of the table does. *)
Definition hooks_keep_others (classes : string -> option pyclass) : Prop :=
  forall cls c hook m,
    classes cls = Some c ->
    find_method hook (cls_methods c) = Some m ->
    keeps_others m.

(** A heap with one snapshot that has not been saved. *)
Definition unsaved_snapshot : world :=
  mkworld [mkobj "DeviceProperties" None [("carrier", VStr "T")]] [] 1 [] 200
    default_headers [].
(** * Properties *)

(** ** Timestamps on concrete inputs *)

Example StringToTime_ex1 :
  StringToTime "2021-01-01T00:00:00.5Z" = Ok (Datetime.mkdt 2021 1 1 0 0 0 500000).
Proof. reflexivity. Qed.

Example StringToTime_ex2 :
  StringToTime "2021-01-01T00:00:00.5" = Raise (ValueError "Timestring does not end in Z").
Proof. reflexivity. Qed.

Example TimeToString_ex1 :
  TimeToString (Datetime.ADateTime (Datetime.mkdt 2021 12 31 23 59 58 42)) = "2021-12-31T23:59:58.000042Z".
Proof. reflexivity. Qed.

Example TimeToString_ex2 :
  TimeToString (Datetime.ADateTime (Datetime.mkdt 1 2 3 4 5 6 0)) = "0001-02-03T04:05:06Z".
Proof. reflexivity. Qed.

Example StringToTime_ex3 :
  StringToTime "2021-01-01T00:00:00X" = Ok (Datetime.mkdt 2021 1 1 0 0 0 0).
Proof. reflexivity. Qed.

Example StringToTime_ex4 :
  StringToTime "2021-01-01T00:00:00." = Raise (IndexError "string index out of range").
Proof. reflexivity. Qed.

(** ** Digits and fixed-width decimal fields *)

Section Digits.

Lemma mod10_cases (d : Z) :
  d mod 10 = 0 \/ d mod 10 = 1 \/ d mod 10 = 2 \/ d mod 10 = 3 \/
  d mod 10 = 4 \/ d mod 10 = 5 \/ d mod 10 = 6 \/ d mod 10 = 7 \/
  d mod 10 = 8 \/ d mod 10 = 9.
Proof. pose proof (Z.mod_pos_bound d 10). lia. Qed.

Local Ltac each_digit d :=
  unfold Str.digit_char;
  let H := fresh in
  pose proof (mod10_cases d) as H;
  repeat (destruct H as [H | H]; [rewrite H | ]); [.. | rewrite H].

Lemma digit_of_digit_char (d : Z) :
  Str.digit_of (Str.digit_char d) = Some (d mod 10).
Proof. each_digit d; reflexivity. Qed.

(** A decimal digit is none of the other characters the parser tests. *)
Lemma digit_char_neq (d : Z) (c : ascii) :
  Str.digit_of c = None -> Ascii.eqb (Str.digit_char d) c = false.
Proof.
  intros Hc.
  destruct (Ascii.eqb (Str.digit_char d) c) eqn:E; [| reflexivity].
  apply Ascii.eqb_eq in E. subst c.
  rewrite digit_of_digit_char in Hc. discriminate.
Qed.

Lemma digit_char_not_space (d : Z) : Str.is_space (Str.digit_char d) = false.
Proof. each_digit d; reflexivity. Qed.

Lemma mod10_digit (n : Z) : 0 <= n mod 10 <= 9.
Proof. pose proof (Z.mod_pos_bound n 10). lia. Qed.

End Digits.

(** ** Strings: splitting and the last character *)

Section Strings.

Lemma append_assoc (a b c : string) : (a +:+ b) +:+ c = a +:+ (b +:+ c).
Proof. induction a as [| x a IH]; simpl; [reflexivity | now rewrite IH]. Qed.

Lemma append_empty_r (a : string) : a +:+ EmptyString = a.
Proof. induction a as [| x a IH]; simpl; [reflexivity | now rewrite IH]. Qed.

Lemma has_char_append (c : ascii) (a b : string) :
  Str.has_char c (a +:+ b) = Str.has_char c a || Str.has_char c b.
Proof.
  induction a as [| x a IH]; simpl; [reflexivity |].
  rewrite IH. now rewrite orb_assoc.
Qed.

Lemma split_on_absent (c : ascii) (s : string) :
  Str.has_char c s = false -> Str.split_on c s = [s].
Proof.
  induction s as [| x s IH]; simpl; [reflexivity |].
  intros H. apply orb_false_iff in H as [Hx Hs].
  rewrite Hx, (IH Hs). reflexivity.
Qed.

Lemma split_on_once (c : ascii) (a b : string) :
  Str.has_char c a = false -> Str.has_char c b = false ->
  Str.split_on c (a +:+ String c b) = [a; b].
Proof.
  intros Ha Hb. induction a as [| x a IH]; simpl.
  - rewrite Ascii.eqb_refl, (split_on_absent c b Hb). reflexivity.
  - simpl in Ha. apply orb_false_iff in Ha as [Hx Ha].
    rewrite Hx, (IH Ha). reflexivity.
Qed.

Lemma drop_last_snoc (s : string) (c : ascii) :
  Str.drop_last (s +:+ String c EmptyString) = s.
Proof.
  induction s as [| x s IH]; [reflexivity |].
  simpl. rewrite IH. destruct s; reflexivity.
Qed.

Lemma last_char_snoc (s : string) (c : ascii) :
  Str.last_char (s +:+ String c EmptyString) = Some c.
Proof.
  induction s as [| x s IH]; [reflexivity |].
  simpl. rewrite IH. destruct s; reflexivity.
Qed.

Lemma has_char_zfill (c : ascii) (w : nat) (n : Z) :
  Str.digit_of c = None -> Str.has_char c (Str.zfill w n) = false.
Proof.
  intros Hc. induction w as [| w IH]; cbn [Str.zfill Str.has_char]; [reflexivity |].
  rewrite (digit_char_neq _ c Hc), IH. reflexivity.
Qed.

Lemma length_zfill (w : nat) (n : Z) : String.length (Str.zfill w n) = w.
Proof.
  induction w as [| w IH]; cbn [Str.zfill String.length];
    [reflexivity | now rewrite IH].
Qed.

End Strings.

(** ** Parsing what [isoformat] prints *)

Section Fields.

(** Checking a property on every integer of an interval. *)
Lemma interval_cases (lo : Z) (n : nat) (P : Z -> Prop) :
  Forall P (map (fun k => lo + Z.of_nat k) (seq 0 n)) ->
  forall x, lo <= x < lo + Z.of_nat n -> P x.
Proof.
  intros HF x Hx. rewrite List.Forall_forall in HF. apply HF.
  apply in_map_iff. exists (Z.to_nat (x - lo)). split; [lia |].
  apply in_seq. lia.
Qed.

Ltac by_cases lo n :=
  let H := fresh in
  let Hr := fresh in
  intros H;
  match type of H with
  | _ <= ?x <= _ =>
      assert (lo <= x < lo + Z.of_nat n) as Hr by lia; clear H; revert x Hr
  end;
  match goal with
  | |- forall m, _ -> @?P m => apply (interval_cases lo n P)
  end;
  repeat constructor; intros; reflexivity.

Lemma re_m_zfill (m : Z) :
  1 <= m <= 12 -> forall r, Datetime.re_m (Str.zfill 2 m +:+ r) = Some (m, r).
Proof. by_cases 1 12%nat. Qed.

Lemma re_d_zfill (d : Z) :
  1 <= d <= 31 -> forall r, Datetime.re_d (Str.zfill 2 d +:+ r) = Some (d, r).
Proof. by_cases 1 31%nat. Qed.

Lemma re_H_zfill (x : Z) :
  0 <= x <= 23 -> forall r, Datetime.re_H (Str.zfill 2 x +:+ r) = Some (x, r).
Proof. by_cases 0 24%nat. Qed.

Lemma re_M_zfill (x : Z) :
  0 <= x <= 59 -> forall r, Datetime.re_M (Str.zfill 2 x +:+ r) = Some (x, r).
Proof. by_cases 0 60%nat. Qed.

Lemma re_S_zfill (x : Z) :
  0 <= x <= 59 -> forall r, Datetime.re_S (Str.zfill 2 x +:+ r) = Some (x, r).
Proof. by_cases 0 60%nat. Qed.

Lemma two_digits_digits (P1 P2 : Z -> bool) (a b : Z) (r : string) :
  Datetime.two_digits P1 P2 (String (Str.digit_char a) (String (Str.digit_char b) r))
  = if P1 (a mod 10) && P2 (b mod 10)
    then Some (10 * (a mod 10) + b mod 10, r) else None.
Proof. unfold Datetime.two_digits. now rewrite !digit_of_digit_char. Qed.

Local Ltac powers :=
  change (10 ^ Z.of_nat 5) with 100000; change (10 ^ Z.of_nat 4) with 10000;
  change (10 ^ Z.of_nat 3) with 1000; change (10 ^ Z.of_nat 2) with 100;
  change (10 ^ Z.of_nat 1) with 10; change (10 ^ Z.of_nat 0) with 1.

Lemma re_Y_zfill (y : Z) (r : string) :
  0 <= y <= 9999 -> Datetime.re_Y (Str.zfill 4 y +:+ r) = Some (y, r).
Proof.
  intros Hy. unfold Datetime.re_Y. cbn [Str.zfill String.append].
  rewrite two_digits_digits. cbn [Datetime.any_digit andb].
  rewrite two_digits_digits. cbn [Datetime.any_digit andb].
  do 2 f_equal. powers.
  Z.to_euclidean_division_equations. lia.
Qed.

Lemma read_digits_zfill6 (us : Z) :
  0 <= us <= 999999 -> Str.read_digits (Str.zfill 6 us) 0 0 = (us, 6%nat, EmptyString).
Proof.
  intros Hus. cbn [Str.zfill Str.read_digits].
  rewrite !digit_of_digit_char.
  do 2 f_equal. powers.
  Z.to_euclidean_division_equations. lia.
Qed.

Lemma py_int_zfill6 (us : Z) :
  0 <= us <= 999999 -> Str.py_int (Str.zfill 6 us) = Ok us.
Proof.
  intros Hus. pose proof (read_digits_zfill6 us Hus) as HR.
  unfold Str.py_int. cbn [Str.zfill Str.lstrip] in *.
  rewrite digit_char_not_space.
  rewrite !digit_char_neq by reflexivity.
  cbn [Str.lstrip]. rewrite digit_char_not_space, HR. reflexivity.
Qed.

End Fields.

(** ** Round trip of a timestamp *)

Section RoundTrip.

Variable t : Datetime.datetime.
Hypothesis Hvalid : Datetime.valid_datetime t = true.

Local Ltac split_valid :=
  unfold Datetime.valid_datetime, Datetime.valid_date, Datetime.between in Hvalid;
  repeat (apply andb_true_iff in Hvalid; destruct Hvalid as [Hvalid ?]).

Local Ltac next_field :=
  unfold Datetime.lit_T; cbn [Datetime.obind String.append Datetime.lit];
  rewrite ?Ascii.eqb_refl; cbn [Datetime.obind].

Lemma days_in_month_le (y m : Z) : Datetime.days_in_month y m <= 31.
Proof.
  unfold Datetime.days_in_month.
  repeat match goal with
         | |- context [match ?x with _ => _ end] => destruct x
         end; lia.
Qed.

Lemma valid_ranges :
  1 <= Datetime.year t <= 9999 /\ 1 <= Datetime.month t <= 12 /\
  1 <= Datetime.day t <= 31 /\ 0 <= Datetime.hour t <= 23 /\
  0 <= Datetime.minute t <= 59 /\ 0 <= Datetime.second t <= 59 /\
  0 <= Datetime.microsecond t <= 999999.
Proof.
  split_valid.
  pose proof (days_in_month_le (Datetime.year t) (Datetime.month t)).
  lia.
Qed.

Lemma no_dot_seconds : Str.has_char "." (Datetime.isoformat_seconds t) = false.
Proof.
  unfold Datetime.isoformat_seconds, Datetime.isoformat_date, Datetime.isoformat_time.
  rewrite !has_char_append, !has_char_zfill by reflexivity.
  reflexivity.
Qed.

Lemma re_match_seconds :
  Datetime.re_match (Datetime.isoformat_seconds t)
  = Some ((Datetime.year t, Datetime.month t, Datetime.day t,
           Datetime.hour t, Datetime.minute t, Datetime.second t), EmptyString).
Proof.
  destruct valid_ranges as (Hy & Hm & Hd & Hh & Hmi & Hs & _).
  unfold Datetime.isoformat_seconds, Datetime.isoformat_date, Datetime.isoformat_time.
  rewrite <- (append_empty_r (Str.zfill 2 (Datetime.second t))).
  rewrite !append_assoc.
  unfold Datetime.re_match.
  rewrite re_Y_zfill by lia. next_field.
  rewrite re_m_zfill by lia. next_field.
  rewrite re_d_zfill by lia. next_field.
  rewrite re_H_zfill by lia. next_field.
  rewrite re_M_zfill by lia. next_field.
  rewrite re_S_zfill by lia. reflexivity.
Qed.

Lemma strptime_seconds :
  Datetime.strptime (Datetime.isoformat_seconds t)
  = Ok (Datetime.year t, Datetime.month t, Datetime.day t,
        Datetime.hour t, Datetime.minute t, Datetime.second t).
Proof.
  unfold Datetime.strptime. rewrite re_match_seconds.
  split_valid.
  unfold Datetime.valid_date, Datetime.between.
  repeat match goal with H : _ = true |- _ => rewrite H; clear H end.
  reflexivity.
Qed.

Lemma datetime_new_fields :
  Datetime.datetime_new (Datetime.year t) (Datetime.month t) (Datetime.day t)
                    (Datetime.hour t) (Datetime.minute t) (Datetime.second t)
  = Ok (Datetime.mkdt (Datetime.year t) (Datetime.month t) (Datetime.day t)
                  (Datetime.hour t) (Datetime.minute t) (Datetime.second t) 0).
Proof.
  unfold Datetime.datetime_new. split_valid. unfold Datetime.between.
  repeat match goal with H : _ = true |- _ => rewrite H; clear H end.
  reflexivity.
Qed.

Lemma parse_formatted : StringToTime (TimeToString (Datetime.ADateTime t)) = Ok t.
Proof.
  destruct valid_ranges as (_ & _ & _ & _ & _ & _ & Hus).
  unfold TimeToString, Datetime.isoformat.
  destruct (Z.eqb_spec (Datetime.microsecond t) 0) as [H0 | Hn0].
  - rewrite append_empty_r. unfold StringToTime.
    rewrite split_on_absent.
    2:{ rewrite has_char_append, no_dot_seconds. reflexivity. }
    rewrite drop_last_snoc, strptime_seconds. cbn [rbind].
    rewrite datetime_new_fields. cbn [rbind].
    destruct t as [y m d hh mm ss us]. simpl in H0. subst us. reflexivity.
  - rewrite append_assoc. cbn [String.append]. unfold StringToTime.
    rewrite split_on_once.
    2:{ apply no_dot_seconds. }
    2:{ rewrite has_char_append, has_char_zfill by reflexivity. reflexivity. }
    rewrite strptime_seconds. cbn [rbind].
    rewrite datetime_new_fields. cbn [rbind].
    unfold Str.index_last. rewrite last_char_snoc, drop_last_snoc. cbn [rbind].
    rewrite Ascii.eqb_refl. cbn [negb].
    assert (pad_usec 6 (Str.zfill 6 (Datetime.microsecond t))
            = Str.zfill 6 (Datetime.microsecond t)) as ->.
    { unfold pad_usec, Str.len. now rewrite length_zfill. }
    rewrite py_int_zfill6 by exact Hus. cbn [rbind].
    unfold Datetime.replace_microsecond, Datetime.between.
    replace (0 <=? Datetime.microsecond t) with true by (symmetry; apply Z.leb_le; lia).
    replace (Datetime.microsecond t <=? 999999) with true by (symmetry; apply Z.leb_le; lia).
    destruct t; reflexivity.
Qed.

End RoundTrip.

(** C3: parsing the output of the formatter gives back the time value,
    for every timezone-unaware [datetime] (one that satisfies the
    invariant of the class), whether or not its microsecond is zero. *)
Theorem StringToTime_TimeToString (t : Datetime.datetime) :
  Datetime.valid_datetime t = true ->
  StringToTime (TimeToString (Datetime.ADateTime t)) = Ok t.
Proof. apply parse_formatted. Qed.

Lemma StringToTime_TimeToString_witness :
  Datetime.valid_datetime (Datetime.mkdt 2021 2 28 23 59 59 0) = true /\
  StringToTime (TimeToString (Datetime.ADateTime (Datetime.mkdt 2021 2 28 23 59 59 0)))
  = Ok (Datetime.mkdt 2021 2 28 23 59 59 0).
Proof.
  split; [reflexivity |].
  apply (StringToTime_TimeToString (Datetime.mkdt 2021 2 28 23 59 59 0)).
  reflexivity.
Defined.

(** ** The fraction of a second *)

Lemma length_append (a b : string) :
  String.length (a +:+ b) = (String.length a + String.length b)%nat.
Proof. induction a as [| x a IH]; simpl; [reflexivity | now rewrite IH]. Qed.

Lemma pad_usec_zero_padded (fuel : nat) (s : string) :
  (6 - String.length s <= fuel)%nat -> pad_usec fuel s = zero_padded s.
Proof.
  revert s. induction fuel as [| fuel IH]; intros s Hf; unfold zero_padded.
  - replace (6 - String.length s)%nat with 0%nat by lia.
    simpl. now rewrite append_empty_r.
  - cbn [pad_usec]. unfold Str.len.
    destruct (Z.ltb_spec (Z.of_nat (String.length s)) 6) as [Hlt | Hge].
    + rewrite IH by (rewrite length_append; simpl; lia).
      unfold zero_padded. rewrite length_append, append_assoc. simpl String.length.
      replace (6 - String.length s)%nat with (S (6 - (String.length s + 1)))%nat by lia.
      reflexivity.
    + replace (6 - String.length s)%nat with 0%nat by lia.
      simpl. now rewrite append_empty_r.
Qed.

(** The loop has run to its end: six steps are enough. *)
Lemma pad_usec_done (s : string) : 6 <= Str.len (pad_usec 6 s).
Proof.
  rewrite pad_usec_zero_padded by lia. unfold zero_padded, Str.len.
  rewrite length_append.
  assert (forall n, String.length (zeros n) = n) as Hz.
  { induction n as [| n IH]; simpl; [reflexivity | now rewrite IH]. }
  rewrite Hz. lia.
Qed.

Lemma replace_microsecond_ok (dt dt' : Datetime.datetime) (usec : Z) :
  Datetime.replace_microsecond dt usec = Ok dt' -> Datetime.microsecond dt' = usec.
Proof.
  unfold Datetime.replace_microsecond.
  destruct (Datetime.between 0 usec 999999); [| discriminate].
  intros [= <-]. reflexivity.
Qed.

Lemma StringToTime_microsecond (thestr : string) (dt : Datetime.datetime) :
  StringToTime thestr = Ok dt ->
  Str.py_int (zero_padded (fraction_digits thestr)) = Ok (Datetime.microsecond dt).
Proof.
  unfold StringToTime, fraction_digits.
  set (parts := Str.split_on "." thestr).
  assert (forall strtime extra,
    (f <-! Datetime.strptime strtime;
     let '(y, m, d, hh, mm, ss) := f in
     dt0 <-! Datetime.datetime_new y m d hh mm ss;
     c <-! Str.index_last extra;
     if negb (Ascii.eqb c "Z")
     then Raise (ValueError "Timestring does not end in Z")
     else
       usec <-! Str.py_int (pad_usec 6 (Str.drop_last extra));
       Datetime.replace_microsecond dt0 usec) = Ok dt ->
    Str.py_int (zero_padded (Str.drop_last extra)) = Ok (Datetime.microsecond dt)) as Hbody.
  { intros strtime extra.
    destruct (Datetime.strptime strtime) as [[[[[[y m] d] hh] mm] ss] | e];
      [| discriminate].
    cbn [rbind].
    destruct (Datetime.datetime_new y m d hh mm ss) as [dt0 | e]; [| discriminate].
    cbn [rbind].
    destruct (Str.index_last extra) as [c | e]; [| discriminate].
    cbn [rbind].
    destruct (negb (Ascii.eqb c "Z")); [discriminate |].
    rewrite pad_usec_zero_padded by lia.
    destruct (Str.py_int (zero_padded (Str.drop_last extra))) as [usec | e];
      [| discriminate].
    cbn [rbind]. intros Hr. now rewrite (replace_microsecond_ok _ _ _ Hr). }
  destruct parts as [| a [| b [| c rest]]]; try exact (Hbody _ "Z").
  exact (Hbody a b).
Qed.

(** C5: the example of the specification gives 500000 microseconds, and
    on every accepted input the microsecond of the result is the integer
    read from the fractional digits right-padded with zeros to six. *)
Theorem StringToTime_fraction :
  StringToTime "2021-01-01T00:00:00.5Z" = Ok (Datetime.mkdt 2021 1 1 0 0 0 500000) /\
  forall (thestr : string) (dt : Datetime.datetime),
    StringToTime thestr = Ok dt ->
    Str.py_int (zero_padded (fraction_digits thestr)) = Ok (Datetime.microsecond dt)
    /\ pad_usec 6 (fraction_digits thestr) = zero_padded (fraction_digits thestr).
Proof.
  split; [reflexivity |].
  intros thestr dt Hdt. split.
  - now apply StringToTime_microsecond.
  - apply pad_usec_zero_padded. lia.
Qed.

Lemma StringToTime_fraction_witness :
  StringToTime "2021-01-01T00:00:00.25Z" = Ok (Datetime.mkdt 2021 1 1 0 0 0 250000) /\
  Str.py_int (zero_padded (fraction_digits "2021-01-01T00:00:00.25Z")) = Ok 250000.
Proof.
  split; [reflexivity |].
  exact (proj1 (proj2 StringToTime_fraction "2021-01-01T00:00:00.25Z"
                  (Datetime.mkdt 2021 1 1 0 0 0 250000) eq_refl)).
Defined.

(** ** The final character *)

(** A string without a point loses its last character unexamined: any
    character in the place of the [Z] gives the same result. *)
Lemma last_character_ignored (s : string) (c : ascii) :
  Str.has_char "." s = false -> Ascii.eqb c "." = false ->
  StringToTime (s +:+ String c EmptyString) = StringToTime (s +:+ "Z").
Proof.
  intros Hs Hc. unfold StringToTime.
  rewrite !split_on_absent, !drop_last_snoc; [reflexivity | |].
  - rewrite has_char_append, Hs. reflexivity.
  - rewrite has_char_append, Hs. cbn [Str.has_char]. now rewrite Hc.
Qed.

(** With a point, a whole-second part that parses and a fraction that
    does not end in [Z], the error of the source is raised. *)
Lemma fraction_without_Z (thestr strtime extra : string) (c : ascii)
    (y m d hh mm ss : Z) (dt : Datetime.datetime) :
  Str.split_on "." thestr = [strtime; extra] ->
  Datetime.strptime strtime = Ok (y, m, d, hh, mm, ss) ->
  Datetime.datetime_new y m d hh mm ss = Ok dt ->
  Str.last_char extra = Some c ->
  Ascii.eqb c "Z" = false ->
  StringToTime thestr = Raise (ValueError "Timestring does not end in Z").
Proof.
  intros Hsplit Hparse Hnew Hlast Hc. unfold StringToTime, Str.index_last.
  rewrite Hsplit, Hparse. cbn [rbind]. rewrite Hnew. cbn [rbind].
  rewrite Hlast. cbn [rbind]. now rewrite Hc.
Qed.

(** C4: the example without a final [Z] is rejected with the message of
    the source; but a string without a point loses its last character
    unchecked, so that a string which does not end in [Z] is accepted,
    and a string that ends in the point fails on an index instead. *)
Theorem StringToTime_trailing_marker :
  StringToTime "2021-01-01T00:00:00.5"
    = Raise (ValueError "Timestring does not end in Z") /\
  (forall (s : string) (c : ascii),
     Str.has_char "." s = false -> Ascii.eqb c "." = false ->
     StringToTime (s +:+ String c EmptyString) = StringToTime (s +:+ "Z")) /\
  StringToTime "2021-01-01T00:00:00X" = Ok (Datetime.mkdt 2021 1 1 0 0 0 0) /\
  StringToTime "2021-01-01T00:00:00."
    = Raise (IndexError "string index out of range").
Proof.
  split; [reflexivity |]. split; [exact last_character_ignored |].
  split; reflexivity.
Qed.

Lemma StringToTime_trailing_marker_witness :
  StringToTime "2021-01-01T00:00:05X" = StringToTime "2021-01-01T00:00:05Z" /\
  StringToTime "2021-01-01T00:00:05X" = Ok (Datetime.mkdt 2021 1 1 0 0 5 0).
Proof.
  split; [| reflexivity].
  exact (proj1 (proj2 StringToTime_trailing_marker)
           "2021-01-01T00:00:05" "X"%char eq_refl eq_refl).
Defined.

(** ** [ConvertToDict] only reads the heap *)

Section ReadOnly.

Variable classes : string -> option pyclass.

Lemma read_only_ret {A} (a : A) : read_only (ret a).
Proof. intros h. reflexivity. Qed.

Lemma read_only_raise {A} (e : exn) : read_only (@raise heap A e).
Proof. intros h. reflexivity. Qed.

Lemma read_only_lift {A} (r : result A) : read_only (lift_result r).
Proof. intros h. reflexivity. Qed.

Lemma read_only_bind {A B} (c : M A) (k : A -> M B) :
  read_only c -> (forall a, read_only (k a)) -> read_only (bind c k).
Proof.
  intros Hc Hk h. unfold bind. specialize (Hc h).
  destruct (c h) as [[a | e] h']; simpl in Hc; subst h'.
  - apply Hk.
  - reflexivity.
Qed.

Lemma read_only_get_obj (l : loc) : read_only (get_obj l).
Proof. intros h. unfold get_obj. destruct (h !! l); reflexivity. Qed.

Lemma read_only_getattr (x : value) (name : string) :
  read_only (py_getattr classes x name).
Proof.
  destruct x; try apply read_only_raise.
  apply read_only_bind; [apply read_only_get_obj |].
  intros o. destruct (lookup_attr classes o name);
    [apply read_only_ret | apply read_only_raise].
Qed.

Lemma read_only_getattr_value (x : value) (key : string) :
  read_only (getattr_value classes x key).
Proof.
  apply read_only_bind; [apply read_only_getattr |].
  intros [v | m]; apply read_only_ret.
Qed.

Lemma read_only_is_model (x : value) : read_only (is_model classes x).
Proof.
  destruct x; try apply read_only_ret.
  intros h. unfold is_model. destruct (h !! l); reflexivity.
Qed.

Lemma read_only_properties (x : value) : read_only (py_properties classes x).
Proof.
  destruct x; try apply read_only_raise.
  apply read_only_bind; [apply read_only_get_obj |].
  intros o. destruct (Dict.get "properties" (obj_attrs o));
    [apply read_only_raise |].
  destruct (cls_is_model (class_of classes o));
    [apply read_only_ret | apply read_only_raise].
Qed.

Lemma read_only_loop (rec : value -> value -> value -> M dict)
    (model inc exc : value) (props : list (string * property)) :
  (forall m i e, read_only (rec m i e)) ->
  forall output, read_only (ConvertToDict_loop classes rec model inc exc props output).
Proof.
  intros Hrec. induction props as [| [key prop] rest IH]; intros output.
  - apply read_only_ret.
  - cbn [ConvertToDict_loop].
    apply read_only_bind.
    { destruct inc; (apply read_only_ret || apply read_only_lift). }
    intros [|]; [apply IH |].
    apply read_only_bind.
    { destruct exc; (apply read_only_ret || apply read_only_lift). }
    intros [|]; [apply IH |].
    apply read_only_bind; [apply read_only_getattr_value |].
    intros v.
    destruct (is_simple v); [apply IH |].
    destruct v; try apply IH;
      (apply read_only_bind; [apply read_only_is_model |]);
      intros [|];
      try (apply read_only_bind; [apply Hrec | intros ?; apply IH]);
      try apply read_only_raise.
    match goal with
    | |- context [if ?b then _ else _] => destruct b
    end; apply read_only_raise.
Qed.

Lemma read_only_ConvertToDict (depth : nat) (model inc exc : value) :
  read_only (ConvertToDict classes depth model inc exc).
Proof.
  revert model inc exc. induction depth as [| depth IH]; intros model inc exc.
  - apply read_only_raise.
  - cbn [ConvertToDict].
    apply read_only_bind; [apply read_only_properties |].
    intros props. apply read_only_loop. exact IH.
Qed.

End ReadOnly.

(** C10: converting a model to a dictionary leaves the heap unchanged:
    every object, the model and the models nested in it included, has
    the attributes it had, whether the conversion returns or raises. *)
Theorem ConvertToDict_read_only (classes : string -> option pyclass)
    (depth : nat) (model include_fields exclude_fields : value) (h : heap) :
  snd (ConvertToDict classes depth model include_fields exclude_fields h) = h /\
  forall l : loc,
    snd (ConvertToDict classes depth model include_fields exclude_fields h) !! l
    = h !! l.
Proof.
  pose proof (read_only_ConvertToDict classes depth model include_fields
                exclude_fields h) as Hh.
  split; [exact Hh |]. intros l. now rewrite Hh.
Qed.

(** ** [ConvertToJson] and the user field of [ConvertToDict] *)

Lemma py_properties_fields (classes : string -> option pyclass)
    (fields : option (list string)) (h : heap) :
  py_properties classes (fields_value fields) h
  = (Raise (AttributeError "properties"), h).
Proof. destruct fields; reflexivity. Qed.

(** C7: [ConvertToJson] hands the allow-list to [ConvertToDict] where the
    model belongs, so its outcome does not depend on the model, and with
    field lists (or none) it raises instead of encoding the object. *)
Theorem ConvertToJson_ignores_model (classes : string -> option pyclass)
    (depth : nat) (model model' : value)
    (include_fields exclude_fields : option (list string)) (h : heap) :
  let inc := fields_value include_fields in
  let exc := fields_value exclude_fields in
  ConvertToJson classes depth model inc exc h
    = ConvertToJson classes depth model' inc exc h /\
  ConvertToJson classes depth model inc exc h
    = bind (ConvertToDict classes depth inc exc VNone)
           (fun d => lift_result (json_dumps (VDict d))) h /\
  ConvertToJson classes (S depth) model inc exc h
    = (Raise (AttributeError "properties"), h) /\
  exists e, ConvertToJson classes depth model inc exc h = (Raise e, h).
Proof.
  cbv zeta. repeat split.
  - unfold ConvertToJson. cbn [ConvertToDict]. unfold bind at 1 2.
    now rewrite py_properties_fields.
  - destruct depth as [| depth].
    + eexists. reflexivity.
    + eexists. unfold ConvertToJson. cbn [ConvertToDict]. unfold bind at 1 2.
      now rewrite py_properties_fields.
Qed.

(** C8: a field whose value is a [users.User] is not an instance of the
    descriptor class [db.UserProperty] that the source tests for, so the
    conversion raises the "cannot encode" error instead of giving the
    e-mail address. *)
Theorem ConvertToDict_user_value (classes : string -> option pyclass)
    (depth : nat) (l : loc) (o : pyobj) (c : pyclass)
    (key : string) (prop : property) (rest : list (string * property))
    (email : string) (h : heap) :
  h !! l = Some o ->
  classes (obj_class o) = Some c ->
  cls_is_model c = true ->
  cls_properties c = (key, prop) :: rest ->
  Dict.get "properties" (obj_attrs o) = None ->
  Dict.get key (obj_attrs o) = Some (VUser email) ->
  ConvertToDict classes (S depth) (VRef l) VNone VNone h
    = (Raise (ValueError ("cannot encode " +:+ prop)), h).
Proof.
  intros Hl Hc Hm Hp Hnp Hk.
  cbn [ConvertToDict]. unfold bind at 1, py_properties, bind, get_obj.
  rewrite Hl, Hnp. unfold class_of. rewrite Hc, Hm, Hp.
  cbn [ret ConvertToDict_loop]. unfold bind at 1. cbn [ret].
  unfold bind at 1. cbn [ret].
  unfold bind at 1, getattr_value, bind, py_getattr, bind, get_obj, lookup_attr.
  rewrite Hl, Hk. reflexivity.
Qed.

Lemma ConvertToDict_user_value_witness :
  ConvertToDict Example.classes 1 (VRef 0%nat) VNone VNone [Example.thing]
    = (Raise (ValueError "cannot encode <UserProperty owner>"), [Example.thing]).
Proof.
  apply (ConvertToDict_user_value Example.classes 0 0%nat Example.thing
           Example.Thing
           "owner" "<UserProperty owner>" [] "a@example.com");
    reflexivity.
Defined.

(** An instance of [db.UserProperty] itself has no [email] method. *)
Lemma ConvertToDict_descriptor_value :
  ConvertToDict Example.classes 1 (VRef 0%nat) VNone VNone
    [mkobj "Thing" None [("owner", VOpaque UserProperty)]]
  = (Raise (AttributeError "email"),
     [mkobj "Thing" None [("owner", VOpaque UserProperty)]]).
Proof. reflexivity. Qed.

(** ** Decode hooks in [ConvertFromDict] *)

Section Hooks.

Variable classes : string -> option pyclass.



Lemma step_without_hook (l : loc) (o : pyobj) (exclude : value)
    (k : string) (v : value) (h : heap) :
  h !! l = Some o ->
  py_in k exclude = Ok false ->
  lookup_attr classes o (hook_name k) = None ->
  ConvertFromDict_step classes (VRef l) exclude k v h
  = py_setattr classes (VRef l) k v h.
Proof.
  intros Hl Hx Hm. unfold ConvertFromDict_step.
  unfold bind at 1, lift_result. rewrite Hx.
  unfold bind at 1, py_hasattr, bind at 1, get_obj. rewrite Hl, Hm.
  reflexivity.
Qed.

(** The three outcomes of [setattr]. *)
Lemma store_attr_ok (l : loc) (o : pyobj) (k : string) (v : value) (h : heap) :
  h !! l = Some o -> store_attr l k v h = (Ok tt, <[l := with_attr o k v]> h).
Proof. intros Hl. unfold store_attr, bind, get_obj. now rewrite Hl. Qed.

Lemma setattr_plain (l : loc) (o : pyobj) (k : string) (v : value) (h : heap) :
  h !! l = Some o ->
  declared (class_of classes o) k = false ->
  py_setattr classes (VRef l) k v h = (Ok tt, <[l := with_attr o k v]> h).
Proof.
  intros Hl Hd. unfold py_setattr. unfold bind at 1, get_obj. rewrite Hl, Hd.
  now apply store_attr_ok.
Qed.

Lemma setattr_accepted (l : loc) (o : pyobj) (k : string) (v : value) (h : heap) :
  h !! l = Some o ->
  declared (class_of classes o) k = true ->
  cls_validate (class_of classes o) k h v = Ok tt ->
  py_setattr classes (VRef l) k v h = (Ok tt, <[l := with_attr o k v]> h).
Proof.
  intros Hl Hd Hv. unfold py_setattr. unfold bind at 1, get_obj. rewrite Hl, Hd.
  unfold property_set. unfold bind at 1. rewrite Hv.
  now apply store_attr_ok.
Qed.

Lemma setattr_refused (l : loc) (o : pyobj) (k : string) (v : value) (h : heap)
    (e : exn) :
  h !! l = Some o ->
  declared (class_of classes o) k = true ->
  cls_validate (class_of classes o) k h v = Raise e ->
  py_setattr classes (VRef l) k v h = (Raise e, h).
Proof.
  intros Hl Hd Hv. unfold py_setattr. unfold bind at 1, get_obj. rewrite Hl, Hd.
  unfold property_set. unfold bind at 1. now rewrite Hv.
Qed.

(** Whatever it does, [setattr] on [l] either leaves the heap or stores
    the value at [l]. *)
Lemma setattr_cases (l : loc) (k : string) (v : value) (h : heap) :
  snd (py_setattr classes (VRef l) k v h) = h \/
  exists o, h !! l = Some o /\
    py_setattr classes (VRef l) k v h = (Ok tt, <[l := with_attr o k v]> h).
Proof.
  destruct (h !! l) as [o |] eqn:Hl.
  - destruct (declared (class_of classes o) k) eqn:Hd.
    + destruct (cls_validate (class_of classes o) k h v) as [[] | e] eqn:Hv.
      * right. exists o. split; [reflexivity |]. now apply setattr_accepted.
      * left. now rewrite (setattr_refused l o k v h e).
    + right. exists o. split; [reflexivity |]. now apply setattr_plain.
  - left. unfold py_setattr, bind, get_obj. now rewrite Hl.
Qed.

Lemma setattr_inv (l : loc) (k : string) (v : value) (h h' : heap) :
  py_setattr classes (VRef l) k v h = (Ok tt, h') ->
  exists o, h !! l = Some o /\ h' = <[l := with_attr o k v]> h.
Proof.
  intros Hset. destruct (setattr_cases l k v h) as [Hsame | (o & Hl & Hrun)].
  - destruct (h !! l) as [o |] eqn:Hl.
    + destruct (declared (class_of classes o) k) eqn:Hd.
      * destruct (cls_validate (class_of classes o) k h v) as [[] | e] eqn:Hv.
        -- rewrite (setattr_accepted l o k v h Hl Hd Hv) in Hset.
           injection Hset as <-. now exists o.
        -- rewrite (setattr_refused l o k v h e Hl Hd Hv) in Hset. discriminate.
      * rewrite (setattr_plain l o k v h Hl Hd) in Hset.
        injection Hset as <-. now exists o.
    + unfold py_setattr, bind, get_obj in Hset. rewrite Hl in Hset. discriminate.
  - rewrite Hrun in Hset. injection Hset as <-. now exists o.
Qed.

(** A key in the deny-list is passed over. *)
Lemma step_excluded (model exclude : value) (k : string) (v : value) (h : heap) :
  py_in k exclude = Ok true ->
  ConvertFromDict_step classes model exclude k v h = (Ok tt, h).
Proof.
  intros Hx. unfold ConvertFromDict_step, bind, lift_result.
  rewrite Hx. reflexivity.
Qed.

(** An attribute of that name that is not a method is called all the
    same, which raises. *)
Lemma step_with_data (l : loc) (o : pyobj) (exclude : value)
    (k : string) (v d : value) (h : heap) :
  h !! l = Some o ->
  py_in k exclude = Ok false ->
  lookup_attr classes o (hook_name k) = Some (Data d) ->
  ConvertFromDict_step classes (VRef l) exclude k v h
  = (Raise (TypeError ("'" +:+ type_name d +:+ "' object is not callable")), h).
Proof.
  intros Hl Hx Hm. unfold ConvertFromDict_step.
  unfold bind at 1, lift_result. rewrite Hx.
  unfold bind at 1, py_hasattr, bind at 1, get_obj. rewrite Hl, Hm.
  cbn [ret]. unfold bind at 1, py_getattr, bind at 1, get_obj.
  rewrite Hl, Hm. reflexivity.
Qed.

End Hooks.


(** ** The state monad *)

Section Monad.

Context {S A B : Type}.

Lemma bind_ok (c : ST S A) (k : A -> ST S B) (s s' : S) (b : B) :
  bind c k s = (Ok b, s') ->
  exists a s1, c s = (Ok a, s1) /\ k a s1 = (Ok b, s').
Proof.
  unfold bind. destruct (c s) as [[a | e] s1]; [| discriminate].
  intros Hk. exists a, s1. split; [reflexivity | exact Hk].
Qed.

Lemma bind_step (c : ST S A) (k : A -> ST S B) (s s1 : S) (a : A) :
  c s = (Ok a, s1) -> bind c k s = k a s1.
Proof. intros Hc. unfold bind. now rewrite Hc. Qed.

Lemma bind_raise (c : ST S A) (k : A -> ST S B) (s s1 : S) (e : exn) :
  c s = (Raise e, s1) -> bind c k s = (Raise e, s1).
Proof. intros Hc. unfold bind. now rewrite Hc. Qed.

Lemma lift_result_ok (r : result A) (s s' : S) (a : A) :
  lift_result r s = (Ok a, s') -> r = Ok a /\ s' = s.
Proof. unfold lift_result. intros [= -> ->]. split; reflexivity. Qed.

End Monad.

Lemma on_heap_inv {A} (c : M A) (w w' : world) (r : result A) :
  on_heap c w = (r, w') ->
  exists h', c (w_heap w) = (r, h') /\ w' = set_heap w h'.
Proof.
  unfold on_heap. destruct (c (w_heap w)) as [r0 h'].
  intros [= -> <-]. exists h'. split; reflexivity.
Qed.

(** ** Dictionaries *)

Lemma get_set_ne (name k : string) (v : value) (d : dict) :
  name <> k -> Dict.get name (Dict.set k v d) = Dict.get name d.
Proof.
  intros Hne. apply String.eqb_neq in Hne.
  induction d as [| [k' v'] d IH]; simpl.
  - now rewrite Hne.
  - destruct (String.eqb_spec k k') as [<- | Hk]; simpl.
    + now rewrite Hne.
    + now rewrite IH.
Qed.

Lemma get_del (name : string) (d : dict) : Dict.get name (Dict.del name d) = None.
Proof.
  induction d as [| [k v] d IH]; [reflexivity |].
  unfold Dict.del in *. cbn [List.filter fst].
  destruct (String.eqb_spec name k) as [-> | Hk]; cbn [negb].
  - exact IH.
  - cbn [Dict.get]. now rewrite (proj2 (String.eqb_neq name k) Hk).
Qed.

Lemma in_del_ne (name k : string) (v : value) (d : dict) :
  In (k, v) (Dict.del name d) -> name <> k.
Proof.
  unfold Dict.del. intros Hin.
  apply filter_In in Hin as [_ Hk].
  cbn [fst] in Hk. intros ->. now rewrite String.eqb_refl in Hk.
Qed.

Lemma stored_attrs_absent (h : heap) (name : string) (d r : dict) :
  stored_attrs h d = Ok r -> Dict.get name d = None -> Dict.get name r = None.
Proof.
  revert r. induction d as [| [k v] d IH]; intros r; cbn [stored_attrs].
  - intros [= <-]. reflexivity.
  - destruct (stored_value h v) as [v' | e]; [| discriminate]. cbn [rbind].
    destruct (stored_attrs h d) as [r0 | e]; [| discriminate]. cbn [rbind].
    intros [= <-]. cbn [Dict.get].
    destruct (String.eqb name k); [discriminate |].
    now apply IH.
Qed.

(** ** The datastore *)

Lemma dskey_eqb_refl (k : dskey) : dskey_eqb k k = true.
Proof.
  destruct k; simpl; now rewrite ?String.eqb_refl, ?Z.eqb_refl.
Qed.

Lemma find_upsert (e : entity) (s : list entity) :
  find_entity (ent_key e) (upsert e s) = Some e.
Proof.
  induction s as [| e' s IH]; cbn [upsert find_entity].
  - now rewrite dskey_eqb_refl.
  - destruct (dskey_eqb (ent_key e) (ent_key e')) eqn:Hk; cbn [find_entity].
    + now rewrite dskey_eqb_refl.
    + now rewrite Hk.
Qed.

(** ** Attributes that the conversion from a dictionary leaves absent *)

Section Absent.

Variable classes : string -> option pyclass.
Variable name : string.
Hypothesis Hhooks : hooks_preserve_absent classes name.

Lemma bound_method_preserves (o : pyobj) (hook : string) (m : method) :
  lookup_attr classes o hook = Some (Bound m) -> preserves_absent name m.
Proof.
  unfold lookup_attr, class_of.
  destruct (Dict.get hook (obj_attrs o)); [discriminate |].
  destruct (classes (obj_class o)) as [c |] eqn:Hc.
  - destruct (find_method hook (cls_methods c)) as [m0 |] eqn:Hm; [| discriminate].
    intros [= <-]. exact (Hhooks _ _ _ _ Hc Hm).
  - cbn [cls_methods find_method]. discriminate.
Qed.

Lemma store_absent (l : loc) (k : string) (v : value) (h : heap) :
  name <> k -> absent name l h ->
  absent name l (snd (store_attr l k v h)).
Proof.
  intros Hne Habs. unfold store_attr, bind, get_obj.
  destruct (h !! l) as [o |] eqn:Hl; [| exact Habs].
  cbn [put_obj snd]. intros o' Ho'.
  rewrite list_lookup_insert_eq in Ho' by (eapply lookup_lt_Some; exact Hl).
  injection Ho' as <-. cbn [obj_attrs].
  rewrite get_set_ne by exact Hne. now apply Habs.
Qed.

Lemma property_set_absent (validate : validator) (l : loc) (k : string)
    (v : value) (h : heap) :
  name <> k -> absent name l h ->
  absent name l (snd (property_set validate l k v h)).
Proof.
  intros Hne Habs. unfold property_set. unfold bind at 1.
  destruct (validate h v) as [[] | e]; [| exact Habs].
  now apply store_absent.
Qed.

Lemma setattr_absent (l : loc) (k : string) (v : value) (h : heap) :
  name <> k -> absent name l h ->
  absent name l (snd (py_setattr classes (VRef l) k v h)).
Proof.
  intros Hne Habs. unfold py_setattr. unfold bind at 1, get_obj.
  destruct (h !! l) as [o |] eqn:Hl; [| exact Habs].
  destruct (declared (class_of classes o) k).
  - now apply property_set_absent.
  - now apply store_absent.
Qed.

Lemma step_absent (l : loc) (k : string) (v : value) (h : heap) :
  name <> k -> absent name l h ->
  absent name l (snd (ConvertFromDict_step classes (VRef l) no_fields k v h)).
Proof.
  intros Hne Habs. unfold ConvertFromDict_step.
  unfold bind at 1. cbn [lift_result py_in no_fields existsb].
  unfold bind at 1, py_hasattr, bind at 1, get_obj.
  destruct (h !! l) as [o |] eqn:Hl; [| exact Habs].
  cbn [ret].
  destruct (lookup_attr classes o (hook_name k)) as [[d | m] |] eqn:Ha.
  - unfold bind, py_getattr, bind, get_obj. rewrite Hl, Ha. exact Habs.
  - unfold bind at 1, py_getattr, bind at 1, get_obj. rewrite Hl, Ha.
    cbn [ret py_call]. now apply (bound_method_preserves o (hook_name k) m).
  - now apply setattr_absent.
Qed.

Lemma loop_absent (l : loc) (items : list (string * value)) :
  (forall k v, In (k, v) items -> name <> k) ->
  forall h, absent name l h ->
  absent name l (snd (ConvertFromDict_loop classes (VRef l) no_fields items h)).
Proof.
  induction items as [| [k v] items IH]; intros Hkeys h Habs.
  - exact Habs.
  - cbn [ConvertFromDict_loop]. unfold bind.
    pose proof (step_absent l k v h (Hkeys k v (or_introl eq_refl)) Habs) as Hs.
    destruct (ConvertFromDict_step classes (VRef l) no_fields k v h) as [[[] | e] h1];
      cbn [snd] in Hs |- *.
    + apply IH; [| exact Hs]. intros k' v' Hin. apply (Hkeys k' v'). now right.
    + exact Hs.
Qed.

(** Mapping an entry that has no key [name] leaves [name] absent. *)
Lemma ConvertFromDict_absent (l : loc) (d : dict) (h : heap) :
  absent name l h ->
  absent name l
    (snd (ConvertFromDict classes (VRef l) (VDict (Dict.del name d)) no_fields h)).
Proof.
  intros Habs. unfold ConvertFromDict, bind. cbn [py_items ret].
  apply loop_absent; [| exact Habs].
  intros k v Hin. exact (in_del_ne name k v d Hin).
Qed.

End Absent.

(** ** Saving objects *)

Lemma db_put_inv (l : loc) (w w' : world) :
  db_put (VRef l) w = (Ok tt, w') ->
  exists o attrs k,
    w_heap w !! l = Some o /\
    stored_attrs (w_heap w) (obj_attrs o) = Ok attrs /\
    w_heap w' = <[l := mkobj (obj_class o) (Some k) (obj_attrs o)]> (w_heap w) /\
    w_store w' = upsert (mkent k attrs) (w_store w) /\
    w_log w' = w_log w.
Proof.
  unfold db_put.
  destruct (w_heap w !! l) as [o |] eqn:Hl; [| discriminate].
  destruct (stored_attrs (w_heap w) (obj_attrs o)) as [attrs | e] eqn:Ha;
    [| discriminate].
  destruct (obj_key o) as [k |]; intros [= <-].
  - exists o, attrs, k. repeat split; try reflexivity; assumption.
  - exists o, attrs, (KId (obj_class o) (w_next_id w)).
    repeat split; try reflexivity; assumption.
Qed.

Lemma new_instance_inv (classes : string -> option pyclass) (kind : string)
    (w w' : world) (r : result value) :
  new_instance classes kind w = (r, w') ->
  let defaults := match classes kind with
                  | Some c => cls_defaults c
                  | None => []
                  end in
  r = Ok (VRef (List.length (w_heap w))) /\
  w' = set_heap w (w_heap w ++ [mkobj kind None defaults])%list.
Proof.
  unfold new_instance, bind, on_heap, alloc. cbn [ret].
  intros [= <- <-]. split; reflexivity.
Qed.

Lemma absent_new (name : string) (h : heap) (o : pyobj) :
  Dict.get name (obj_attrs o) = None ->
  absent name (List.length h) (h ++ [o])%list.
Proof.
  intros Ho o' Hl.
  rewrite lookup_app_r in Hl by reflexivity.
  rewrite Nat.sub_diag in Hl. injection Hl as <-. exact Ho.
Qed.

(** C6: when an entry with a [properties] key is processed, the snapshot
    is populated from the sub-object, then the key is deleted, and the
    measurement is mapped from the entry without it; the measurement
    that is stored, and the entity written for it, have no attribute
    [properties], provided no method of the model classes creates one
    and a new [Measurement] has none. *)
Theorem PostMeasurement_strips_properties (classes : string -> option pyclass)
    (globals : list string) (d : dict) (w w' : world) :
  Dict.has "properties" d = true ->
  hooks_preserve_absent classes "properties" ->
  (forall c, classes "Measurement" = Some c ->
             Dict.get "properties" (cls_defaults c) = None) ->
  PostMeasurement_entry classes globals (VDict d) w = (Ok tt, w') ->
  exists device_info device_properties properties_dict w2 w3 w4,
    Dict.get "properties" d = Some properties_dict /\
    on_heap (ConvertFromDict classes device_properties properties_dict no_fields) w3
      = (Ok tt, w4) /\
    PostMeasurement_properties classes globals device_info (VDict d) w2
      = (Ok (device_properties, VDict (Dict.del "properties" d)), w4) /\
    Dict.get "properties" (Dict.del "properties" d) = None /\
    PostMeasurement_store classes device_properties
      (VDict (Dict.del "properties" d)) w4 = (Ok tt, w') /\
    exists lm o k e log shown,
      w_log w' = (log ++ [("Stored measurement: ", VRef lm); ("Device: ", shown)])%list /\
      w_heap w' !! lm = Some o /\
      obj_key o = Some k /\
      find_entity k (w_store w') = Some e /\
      Dict.get "properties" (obj_attrs o) = None /\
      Dict.get "properties" (ent_attrs e) = None.
Proof.
  intros Hhas Hhooks Hdef Hrun.
  unfold PostMeasurement_entry in Hrun.
  apply bind_ok in Hrun as (device_id & w0 & _ & Hrun).
  apply bind_ok in Hrun as (text & w0' & _ & Hrun).
  apply bind_ok in Hrun as ([] & w1 & _ & Hrun).
  apply bind_ok in Hrun as (device_info & w2 & _ & Hrun).
  apply bind_ok in Hrun as ([dp md] & w4 & Hprops & Hstore).
  cbn [fst snd] in Hstore.
  (* the snapshot and the deletion *)
  pose proof Hprops as Hp. unfold PostMeasurement_properties in Hp.
  apply bind_ok in Hp as (has & wp0 & Hin & Hp).
  apply lift_result_ok in Hin as [Hin ->]. cbn [py_in] in Hin.
  rewrite Hhas in Hin. injection Hin as <-.
  apply bind_ok in Hp as (dp' & wp1 & Hnew & Hp).
  apply bind_ok in Hp as ([] & wp2 & _ & Hp).
  apply bind_ok in Hp as (pd & wp3 & Hpd & Hp).
  apply lift_result_ok in Hpd as [Hpd ->].
  apply bind_ok in Hp as ([] & wp4 & Hconv & Hp).
  apply bind_ok in Hp as (md' & wp5 & Hdel & Hp).
  apply lift_result_ok in Hdel as [Hdel ->].
  cbn [py_delitem] in Hdel. rewrite Hhas in Hdel. injection Hdel as <-.
  cbn [ret] in Hp. injection Hp as <- <- <-.
  cbn [py_getitem] in Hpd. unfold Dict.getitem in Hpd.
  destruct (Dict.get "properties" d) as [pd0 |] eqn:Hget; [| discriminate].
  injection Hpd as ->.
  exists device_info, dp', pd, w2, wp2, wp4.
  split; [reflexivity |]. split; [exact Hconv |]. split; [exact Hprops |].
  split; [apply get_del |]. split; [exact Hstore |].
  (* the stored measurement *)
  unfold PostMeasurement_store in Hstore.
  apply bind_ok in Hstore as ([] & wa & _ & Hstore).
  apply bind_ok in Hstore as (measurement & wb & Hm & Hstore).
  apply new_instance_inv in Hm as [Hm ->]. injection Hm as ->.
  set (lm := List.length (w_heap wa)) in *.
  apply bind_ok in Hstore as ([] & wc & Hmap & Hstore).
  apply on_heap_inv in Hmap as (hc & Hmap & ->).
  apply bind_ok in Hstore as ([] & wd & Hset & Hstore).
  apply on_heap_inv in Hset as (hd & Hset & ->).
  apply bind_ok in Hstore as ([] & we & Hput & Hstore).
  apply bind_ok in Hstore as ([] & wf & Hlog1 & Hstore).
  apply bind_ok in Hstore as (shown & wg & Hshown & Hlog2).
  apply on_heap_inv in Hshown as (hg & Hshown & ->).
  pose proof (read_only_getattr_value classes (VRef lm) "device_properties"
                (w_heap wf)) as Hro.
  rewrite Hshown in Hro. cbn [snd] in Hro. subst hg.
  unfold logging_info in Hlog1, Hlog2.
  injection Hlog1 as <-. injection Hlog2 as <-.
  apply db_put_inv in Hput as (o & attrs & k & Hl & Hattrs & Hheap & Hst & Hlg).
  cbn [w_heap set_heap] in Hl, Hattrs, Hheap, Hmap, Hset.
  assert (absent "properties" lm hd) as Habs.
  { replace hd with (snd (py_setattr classes (VRef lm) "device_properties" dp' hc))
      by now rewrite Hset.
    apply setattr_absent; [discriminate |].
    replace hc with
      (snd (ConvertFromDict classes (VRef lm) (VDict (Dict.del "properties" d))
              no_fields (w_heap wa ++ [mkobj "Measurement" None
                 match classes "Measurement" with
                 | Some c => cls_defaults c
                 | None => []
                 end])%list))
      by now rewrite Hmap.
    apply (ConvertFromDict_absent classes "properties" Hhooks).
    apply absent_new. cbn [obj_attrs].
    destruct (classes "Measurement") as [c |] eqn:Hc; [| reflexivity].
    now apply Hdef. }
  exists lm, (mkobj (obj_class o) (Some k) (obj_attrs o)), k, (mkent k attrs),
    (w_log we), shown.
  cbn [w_log w_heap w_store set_heap obj_key obj_attrs ent_attrs].
  repeat split.
  - now rewrite <- app_assoc.
  - rewrite Hheap. apply list_lookup_insert_eq. eapply lookup_lt_Some. exact Hl.
  - rewrite Hst. apply (find_upsert (mkent k attrs)).
  - exact (Habs o Hl).
  - exact (stored_attrs_absent _ _ _ _ Hattrs (Habs o Hl)).
Qed.

(** The methods of the example create no attribute [properties]. *)
Lemma Example_hooks : hooks_preserve_absent Example.classes "properties".
Proof.
  intros cls c hook m Hc Hm. unfold Example.classes in Hc.
  repeat match type of Hc with
         | (if ?b then _ else _) = _ => destruct b
         end; try discriminate; injection Hc as <-;
    cbn [cls_methods Example.Thing Example.MeasurementClass find_method] in Hm;
    try discriminate.
  - destruct (String.eqb hook "JSON_DECODE_x"); [| discriminate].
    injection Hm as <-. intros l v h Habs.
    now apply store_absent.
  - destruct (String.eqb hook "JSON_DECODE_timestamp"); [| discriminate].
    injection Hm as <-. intros l v h Habs.
    unfold Example.decode_timestamp.
    destruct v; try exact Habs.
    unfold bind, lift_result.
    destruct (StringToTime s); [| exact Habs].
    now apply property_set_absent.
Qed.

Lemma Example_defaults (c : pyclass) :
  Example.classes "Measurement" = Some c ->
  Dict.get "properties" (cls_defaults c) = None.
Proof. intros [= <-]. reflexivity. Qed.

Lemma PostMeasurement_strips_properties_witness :
  exists w' lm o k e,
    PostMeasurement_entry Example.classes module_globals (VDict Example.entry1)
      empty_world = (Ok tt, w') /\
    w_heap w' !! lm = Some o /\
    obj_key o = Some k /\
    find_entity k (w_store w') = Some e /\
    Dict.get "properties" (obj_attrs o) = None /\
    Dict.get "properties" (ent_attrs e) = None.
Proof.
  set (w' := snd (PostMeasurement_entry Example.classes module_globals
                    (VDict Example.entry1) empty_world)).
  assert (PostMeasurement_entry Example.classes module_globals
            (VDict Example.entry1) empty_world = (Ok tt, w')) as Hrun
    by (vm_compute; reflexivity).
  destruct (PostMeasurement_strips_properties Example.classes module_globals
              Example.entry1 empty_world w' eq_refl Example_hooks
              Example_defaults Hrun)
    as (_ & _ & _ & _ & _ & _ & _ & _ & _ & _ & _ &
        lm & o & k & e & _ & _ & _ & Hl & Hk & He & Ho & Hne).
  exists w', lm, o, k, e.
  exact (conj Hrun (conj Hl (conj Hk (conj He (conj Ho Hne))))).
Defined.

(** ** Nothing is written before the loop of [PostMeasurement] ends *)

Section Silent.

Variable classes : string -> option pyclass.

Lemma silent_ret {A} (a : A) : silent (ret a).
Proof. intros w. reflexivity. Qed.

Lemma silent_raise {A} (e : exn) : silent (@raise world A e).
Proof. intros w. reflexivity. Qed.

Lemma silent_lift {A} (r : result A) : silent (lift_result r).
Proof. intros w. reflexivity. Qed.

Lemma silent_bind {A B} (c : Handler A) (k : A -> Handler B) :
  silent c -> (forall a, silent (k a)) -> silent (bind c k).
Proof.
  intros Hc Hk w. unfold bind. specialize (Hc w).
  destruct (c w) as [[a | e] w1]; cbn [snd] in *.
  - now rewrite Hk.
  - exact Hc.
Qed.

Lemma silent_on_heap {A} (c : M A) : silent (on_heap c).
Proof. intros w. unfold on_heap. destruct (c (w_heap w)); reflexivity. Qed.

Lemma silent_logging (text : string) (shown : value) :
  silent (logging_info text shown).
Proof. intros w. reflexivity. Qed.

Lemma silent_db_put (x : value) : silent (db_put x).
Proof.
  intros w. destruct x; try reflexivity. unfold db_put.
  destruct (w_heap w !! l) as [o |]; [| reflexivity].
  destruct (stored_attrs (w_heap w) (obj_attrs o)); [| reflexivity].
  destruct (obj_key o); reflexivity.
Qed.

Lemma silent_new_instance (kind : string) : silent (new_instance classes kind).
Proof.
  apply silent_bind; [apply silent_on_heap | intros l; apply silent_ret].
Qed.

Lemma silent_get_or_insert (kind key_name : string) :
  silent (get_or_insert classes kind key_name).
Proof.
  intros w. unfold get_or_insert.
  destruct (find_entity (KName kind key_name) (w_store w)); reflexivity.
Qed.

Lemma silent_key_of (x : value) : silent (key_of x).
Proof.
  intros w. destruct x; try reflexivity. unfold key_of.
  destruct (w_heap w !! l) as [o |]; [| reflexivity].
  destruct (obj_key o); reflexivity.
Qed.

Lemma silent_GetLatestDeviceProperties (device_info : value) (create : bool) :
  silent (GetLatestDeviceProperties classes device_info create).
Proof.
  apply silent_bind; [apply silent_key_of |].
  intros k w. cbv beta.
  destruct (last (List.filter (snapshot_of k) (w_store w))) as [e |].
  - apply (silent_bind (on_heap (alloc (instance_of e))) (fun l => ret (VRef l)));
      [apply silent_on_heap | intros l; apply silent_ret].
  - destruct create; [| reflexivity].
    apply (silent_bind (new_instance classes "DeviceProperties"));
      [apply silent_new_instance |].
    intros dp. apply silent_bind; [apply silent_on_heap |].
    intros _. apply silent_bind; [apply silent_db_put |].
    intros _. apply silent_ret.
Qed.

Lemma silent_entry (globals : list string) (measurement_dict : value) :
  silent (PostMeasurement_entry classes globals measurement_dict).
Proof.
  unfold PostMeasurement_entry.
  apply silent_bind; [apply silent_lift |]. intros device_id.
  apply silent_bind; [apply silent_lift |]. intros text.
  apply silent_bind; [apply silent_logging |]. intros _.
  apply silent_bind.
  { destruct device_id; try apply silent_raise. apply silent_get_or_insert. }
  intros device_info.
  apply silent_bind.
  - unfold PostMeasurement_properties.
    apply silent_bind; [apply silent_lift |]. intros [|].
    + apply silent_bind; [apply silent_new_instance |]. intros dp.
      apply silent_bind; [apply silent_on_heap |]. intros _.
      apply silent_bind; [apply silent_lift |]. intros pd.
      apply silent_bind; [apply silent_on_heap |]. intros _.
      apply silent_bind; [apply silent_lift |]. intros md.
      apply silent_ret.
    + apply silent_bind.
      { unfold load_global. destruct (existsb _ _);
          [apply silent_ret | apply silent_raise]. }
      intros _. apply silent_bind; [apply silent_GetLatestDeviceProperties |].
      intros dp. apply silent_ret.
  - intros st. unfold PostMeasurement_store.
    apply silent_bind; [apply silent_db_put |]. intros _.
    apply silent_bind; [apply silent_new_instance |]. intros m.
    apply silent_bind; [apply silent_on_heap |]. intros _.
    apply silent_bind; [apply silent_on_heap |]. intros _.
    apply silent_bind; [apply silent_db_put |]. intros _.
    apply silent_bind; [apply silent_logging |]. intros _.
    apply silent_bind; [apply silent_on_heap |]. intros shown.
    apply silent_logging.
Qed.

(** An entry without [properties] reaches the unbound name [device]. *)
Lemma entry_without_properties (d : dict) (name : string) (w : world) :
  Dict.get "device_id" d = Some (VStr name) ->
  Dict.has "properties" d = false ->
  fst (PostMeasurement_entry classes module_globals (VDict d) w)
  = Raise (NameError "device").
Proof.
  intros Hid Hno. unfold PostMeasurement_entry.
  unfold bind at 1. cbn [lift_result py_getitem]. unfold Dict.getitem. rewrite Hid.
  unfold bind at 1. cbn [lift_result str_concat].
  unfold bind at 1. cbn [logging_info].
  unfold bind at 1.
  destruct (get_or_insert classes "DeviceInfo" name _) as [[di | e] w1] eqn:Hg.
  - unfold bind at 1, PostMeasurement_properties.
    unfold bind at 1. cbn [lift_result py_in]. rewrite Hno. reflexivity.
  - exfalso. unfold get_or_insert in Hg.
    destruct (find_entity _ _) in Hg; discriminate.
Qed.

End Silent.

(** ** The batch of two entries *)

(** C1: on a batch whose second entry has no [properties], the handler
    evaluates the name [device], which the module does not bind: the
    request ends in an exception and no response body is written.  When
    the first entry is processed without error the exception is the
    [NameError], raised after the first measurement was stored. *)
Theorem PostMeasurement_batch_raises (classes : string -> option pyclass)
    (env : platform) (req : request) (e1 e2 : dict) (w : world) :
  lower (req_method req) = "post" ->
  json_loads env (req_body req) = Ok (VList [VDict e1; VDict e2]) ->
  Dict.get "device_id" e1 = Some (VStr "d1") ->
  Dict.has "properties" e1 = true ->
  Dict.get "device_id" e2 = Some (VStr "d1") ->
  Dict.has "properties" e2 = false ->
  (exists e, fst (PostMeasurement classes env req w) = Raise e) /\
  w_out (snd (PostMeasurement classes env req w)) = w_out w /\
  (forall w1,
     PostMeasurement_entry classes module_globals (VDict e1) (logged req w)
       = (Ok tt, w1) ->
     PostMeasurement classes env req w
       = (Raise (NameError "device"),
          snd (PostMeasurement_entry classes module_globals (VDict e2) w1))).
Proof.
  intros Hpost Hbody _ _ Hid2 Hno2.
  assert (PostMeasurement classes env req w
          = bind (PostMeasurement_loop classes module_globals [VDict e1; VDict e2])
                 (fun _ =>
                    set_header "Content-Type" "application/json" ;;;
                    body <~ lift_result (json_dumps (VDict [("success", VBool true)])) ;;
                    out_write (Text body)) (logged req w)) as Hrun.
  { unfold PostMeasurement, PostMeasurement_in. rewrite Hpost. cbn [String.eqb negb].
    unfold bind at 1. cbn [logging_info].
    unfold bind at 1. cbn [logging_info].
    unfold bind at 1. cbn [lift_result]. rewrite Hbody.
    unfold bind at 1. cbn [lift_result py_iter]. reflexivity. }
  rewrite Hrun. clear Hrun.
  pose proof (silent_entry classes module_globals (VDict e1) (logged req w)) as Hout1.
  destruct (PostMeasurement_entry classes module_globals (VDict e1) (logged req w))
    as [[[] | e] w1] eqn:Hfirst; cbn [snd] in Hout1.
  - pose proof (entry_without_properties classes e2 "d1" w1 Hid2 Hno2) as Hsecond.
    pose proof (silent_entry classes module_globals (VDict e2) w1) as Hout2.
    destruct (PostMeasurement_entry classes module_globals (VDict e2) w1)
      as [r2 w2] eqn:Hsnd; cbn [fst snd] in Hsecond, Hout2. subst r2.
    assert (PostMeasurement_loop classes module_globals [VDict e1; VDict e2]
              (logged req w) = (Raise (NameError "device"), w2)) as Hloop.
    { cbn [PostMeasurement_loop].
      rewrite (bind_step _ _ _ _ _ Hfirst).
      now rewrite (bind_raise _ _ _ _ _ Hsnd). }
    rewrite (bind_raise _ _ _ _ _ Hloop). cbn [fst snd].
    split; [eexists; reflexivity |]. split.
    + now rewrite Hout2, Hout1.
    + intros w1' [= <-]. now rewrite Hsnd.
  - assert (PostMeasurement_loop classes module_globals [VDict e1; VDict e2]
              (logged req w) = (Raise e, w1)) as Hloop.
    { cbn [PostMeasurement_loop]. now rewrite (bind_raise _ _ _ _ _ Hfirst). }
    rewrite (bind_raise _ _ _ _ _ Hloop). cbn [fst snd].
    split; [eexists; reflexivity |]. split.
    + exact Hout1.
    + intros w1' [=].
Qed.

Lemma PostMeasurement_batch_raises_witness :
  let r := PostMeasurement Example.classes Example.env Example.post empty_world in
  fst r = Raise (NameError "device") /\
  w_out (snd r) = [] /\
  map ent_key (w_store (snd r))
  = [KName "DeviceInfo" "d1"; KId "DeviceProperties" 1; KId "Measurement" 2].
Proof.
  destruct (PostMeasurement_batch_raises Example.classes Example.env Example.post
              Example.entry1 Example.entry2 empty_world
              eq_refl eq_refl eq_refl eq_refl eq_refl eq_refl)
    as (_ & Hout & Hname).
  cbv zeta. split; [| split].
  - rewrite (Hname (snd (PostMeasurement_entry Example.classes module_globals
                           (VDict Example.entry1)
                           (logged Example.post empty_world))));
      [reflexivity | vm_compute; reflexivity].
  - exact Hout.
  - vm_compute. reflexivity.
Defined.

(** With the name [device] bound to the helper the specification
    describes, the same batch is stored as the specification says: one
    DeviceInfo, one snapshot that both measurements are linked to, and
    the success body. *)
Lemma PostMeasurement_with_device_bound :
  let r := PostMeasurement_in Example.classes Example.env
             ("device" :: module_globals) Example.post empty_world in
  fst r = Ok tt /\
  map ent_key (w_store (snd r))
  = [KName "DeviceInfo" "d1"; KId "DeviceProperties" 1;
     KId "Measurement" 2; KId "Measurement" 3] /\
  linked_snapshots (w_store (snd r))
  = [Some (VKey (KId "DeviceProperties" 1)); Some (VKey (KId "DeviceProperties" 1))] /\
  w_status (snd r) = 200 /\
  w_headers (snd r)
  = [("Cache-Control", "no-cache"); ("Content-Type", "application/json")] /\
  w_out (snd r) = [Text success_body].
Proof. vm_compute. repeat split; reflexivity. Qed.

(** A request that is not a POST is refused before anything else. *)
Lemma PostMeasurement_not_post (classes : string -> option pyclass)
    (env : platform) (req : request) (w : world) :
  lower (req_method req) <> "post" ->
  PostMeasurement classes env req w = (Raise (BadRequest "Not a POST request."), w).
Proof.
  intros Hm. unfold PostMeasurement, PostMeasurement_in.
  now rewrite (proj2 (String.eqb_neq _ _) Hm).
Qed.

(** ** The detail page *)

(** [get_by_id] on an id that can be looked up. *)
Lemma get_by_id_checked (kind : string) (id : Z) (w : world) :
  check_id id = Ok tt ->
  get_by_id kind id w
  = match find_entity (KId kind id) (w_store w) with
    | Some e =>
        (Ok (VRef (List.length (w_heap w))),
         set_heap w (w_heap w ++ [instance_of e])%list)
    | None => (Ok VNone, w)
    end.
Proof.
  intros Hc. unfold get_by_id. unfold bind at 1, lift_result. rewrite Hc.
  now destruct (find_entity _ _).
Qed.

Lemma get_by_id_refused (kind : string) (id : Z) (w : world) (e : exn) :
  check_id id = Raise e -> get_by_id kind id w = (Raise e, w).
Proof.
  intros Hc. unfold get_by_id. unfold bind at 1, lift_result. now rewrite Hc.
Qed.

(** C2, as amended: when the id is an integer that can be looked up and
    a user is signed in, the handler renders the detail template with
    the id, the measurement, the e-mail address and the logout link,
    whether the measurement was found or not; when it was not found the
    [try] block has computed the error variables and returned, and the
    [finally] block renders all the same, with [None] for the
    measurement and no error message. *)
Theorem MeasurementDetail_always_renders (env : platform) (req : request)
    (w : world) (id : Z) (email : string) :
  let measid := request_get (req_params req) "id" in
  let template_args (measurement : value) :=
    [("id", VStr measid); ("measurement", measurement); ("user", VStr email);
     ("logout_link", VStr (create_logout_url env "/"))] in
  unicode_int measid = Ok id ->
  check_id id = Ok tt ->
  current_user env = Some email ->
  exists measurement w1,
    get_by_id "Measurement" id w = (Ok measurement, w1) /\
    (measurement = VNone <-> find_entity (KId "Measurement" id) (w_store w) = None) /\
    MeasurementDetail env req w
      = (Ok tt, snd (out_write (Rendered detail_template (template_args measurement)) w1)) /\
    Dict.get "error" (template_args measurement) = None /\
    (measurement = VNone ->
     MeasurementDetail_try env req w
     = (Returned,
        mklocals (Some measid) (Some VNone)
          (Some [("error", VStr ("Cannot get measurement " +:+ measid));
                 ("user", VStr email);
                 ("logout_link", VStr (create_logout_url env "/"))]),
        w1)).
Proof.
  intros measid template_args Hid Hcheck Huser.
  unfold MeasurementDetail, MeasurementDetail_try, MeasurementDetail_finally,
    current_user_email.
  fold measid. rewrite Hid, Huser, (get_by_id_checked "Measurement" id w Hcheck).
  destruct (find_entity (KId "Measurement" id) (w_store w)) as [e |].
  - exists (VRef (List.length (w_heap w))),
      (set_heap w (w_heap w ++ [instance_of e])%list).
    cbn [py_not]. repeat split; try discriminate; reflexivity.
  - exists VNone, w. cbn [py_not]. repeat split; reflexivity.
Qed.

Lemma MeasurementDetail_always_renders_witness :
  MeasurementDetail Example.env (mkreq "GET" EmptyString [("id", "8")]) empty_world
  = (Ok tt,
     mkworld [] [] 1 [] 200 default_headers
       [Rendered detail_template
          [("id", VStr "8"); ("measurement", VNone);
           ("user", VStr "user@example.com");
           ("logout_link", VStr "/logout?continue=/")]]).
Proof.
  destruct (MeasurementDetail_always_renders Example.env
              (mkreq "GET" EmptyString [("id", "8")]) empty_world 8
              "user@example.com" eq_refl eq_refl eq_refl)
    as (measurement & w1 & Hget & _ & Hrun & _).
  injection Hget as <- <-. exact Hrun.
Defined.

(** The claim as it is written fails on two requests: with the id 0 a
    signed-in user gets no page, because the lookup raises and the
    [finally] block then reads the unbound [measurement]; and with no
    user signed in the [finally] block raises on [email()] although the
    lookup has returned. *)
Lemma MeasurementDetail_not_always_renders :
  (let r := MeasurementDetail Example.env (mkreq "GET" EmptyString [("id", "0")])
              empty_world in
   fst r = Raise (UnboundLocalError "measurement") /\ w_out (snd r) = []) /\
  (let r := MeasurementDetail empty_platform (mkreq "GET" EmptyString [("id", "8")])
              empty_world in
   fst r = Raise (AttributeError "email") /\ w_out (snd r) = []).
Proof. vm_compute. repeat split; reflexivity. Qed.

(** An id that is not an integer leaves [measurement] unbound, and the
    [finally] block fails on it. *)
Lemma MeasurementDetail_bad_id :
  MeasurementDetail Example.env (mkreq "GET" EmptyString [("id", "abc")]) empty_world
  = (Raise (UnboundLocalError "measurement"), empty_world).
Proof. reflexivity. Qed.

(** * Further properties of the timestamp functions *)

(** ** What [time.strptime] consumes *)

Section Shape.

Lemma obind_some {A B} (o : option A) (k : A -> option B) (b : B) :
  Datetime.obind o k = Some b -> exists a, o = Some a /\ k a = Some b.
Proof. destruct o as [a |]; [| discriminate]. intros Hk. now exists a. Qed.

Lemma lit_some (c : ascii) (s r : string) :
  Datetime.lit c s = Some r -> s = String c r.
Proof.
  destruct s as [| a s]; [discriminate |]. cbn [Datetime.lit].
  destruct (Ascii.eqb a c) eqn:E; [| discriminate].
  apply Ascii.eqb_eq in E. now intros [= ->]; subst.
Qed.

Lemma lit_T_some (s r : string) :
  Datetime.lit_T s = Some r -> s = String "T" r \/ s = String "t" r.
Proof.
  unfold Datetime.lit_T.
  destruct (Datetime.lit "T" s) as [r0 |] eqn:E.
  - intros [= <-]. left. now apply lit_some.
  - intros E'. right. now apply lit_some.
Qed.

Lemma digit_field_char (a : ascii) (x : Z) :
  Str.digit_of a = Some x -> field_char a = true.
Proof. unfold field_char. now intros ->. Qed.

Lemma consumes_two_digits (P1 P2 : Z -> bool) :
  consumes_field (Datetime.two_digits P1 P2).
Proof.
  intros s v r. unfold Datetime.two_digits.
  destruct s as [| a [| b s]]; try discriminate.
  destruct (Str.digit_of a) as [x |] eqn:Ha; [| discriminate].
  destruct (Str.digit_of b) as [y |] eqn:Hb; [| discriminate].
  destruct (P1 x && P2 y); [| discriminate]. intros [= _ <-].
  exists (String a (String b EmptyString)). split; [reflexivity |].
  cbn [all_chars]. now rewrite (digit_field_char a x Ha), (digit_field_char b y Hb).
Qed.

Lemma consumes_one_digit (P : Z -> bool) : consumes_field (Datetime.one_digit P).
Proof.
  intros s v r. unfold Datetime.one_digit.
  destruct s as [| a s]; try discriminate.
  destruct (Str.digit_of a) as [x |] eqn:Ha; [| discriminate].
  destruct (P x); [| discriminate]. intros [= _ <-].
  exists (String a EmptyString). split; [reflexivity |].
  cbn [all_chars]. now rewrite (digit_field_char a x Ha).
Qed.

Lemma consumes_blank_digit (P : Z -> bool) : consumes_field (Datetime.blank_digit P).
Proof.
  intros s v r. unfold Datetime.blank_digit.
  destruct s as [| a s]; try discriminate.
  destruct (Ascii.eqb a " ") eqn:Ha.
  - apply Ascii.eqb_eq in Ha. subst a. intros Hd.
    destruct (consumes_one_digit P s v r Hd) as (pre & -> & Hpre).
    exists (String " " pre). split; [reflexivity |].
    cbn [all_chars]. now rewrite Hpre.
  - destruct a as [[] [] [] [] [] [] [] []]; try discriminate.
Qed.

Lemma consumes_alt (p q : Datetime.matcher) :
  consumes_field p -> consumes_field q -> consumes_field (Datetime.alt p q).
Proof.
  intros Hp Hq s v r. unfold Datetime.alt.
  destruct (p s) as [[v0 r0] |] eqn:E.
  - intros [= <- <-]. exact (Hp s v0 r0 E).
  - apply Hq.
Qed.

Lemma all_chars_append (P : ascii -> bool) (a b : string) :
  all_chars P (a +:+ b) = all_chars P a && all_chars P b.
Proof.
  induction a as [| x a IH]; cbn [String.append all_chars]; [reflexivity |].
  now rewrite IH, andb_assoc.
Qed.

Lemma consumes_re_Y : consumes_field Datetime.re_Y.
Proof.
  intros s v r. unfold Datetime.re_Y.
  destruct (Datetime.two_digits _ _ s) as [[hi r1] |] eqn:E1; [| discriminate].
  destruct (Datetime.two_digits _ _ r1) as [[lo r2] |] eqn:E2; [| discriminate].
  intros [= _ <-].
  destruct (consumes_two_digits _ _ _ _ _ E1) as (p1 & -> & H1).
  destruct (consumes_two_digits _ _ _ _ _ E2) as (p2 & -> & H2).
  exists (p1 +:+ p2). split; [now rewrite append_assoc |].
  now rewrite all_chars_append, H1, H2.
Qed.

Local Ltac consumes :=
  repeat first [ apply consumes_alt | apply consumes_two_digits
               | apply consumes_one_digit | apply consumes_blank_digit ].

Lemma consumes_re_m : consumes_field Datetime.re_m.
Proof. unfold Datetime.re_m. consumes. Qed.

Lemma consumes_re_d : consumes_field Datetime.re_d.
Proof. unfold Datetime.re_d. consumes. Qed.

Lemma consumes_re_H : consumes_field Datetime.re_H.
Proof. unfold Datetime.re_H. consumes. Qed.

Lemma consumes_re_M : consumes_field Datetime.re_M.
Proof. unfold Datetime.re_M. consumes. Qed.

Lemma consumes_re_S : consumes_field Datetime.re_S.
Proof. unfold Datetime.re_S. consumes. Qed.

(** The shape of a string the regular expression matches. *)
Lemma re_match_shape (s r : string) (f : Datetime.fields) :
  Datetime.re_match s = Some (f, r) ->
  exists pY pm pd pH pM pS cT,
    s = pY +:+ String "-" (pm +:+ String "-" (pd +:+ String cT
          (pH +:+ String ":" (pM +:+ String ":" (pS +:+ r))))) /\
    (cT = "T" \/ cT = "t")%char /\
    all_chars field_char pY = true /\ all_chars field_char pm = true /\
    all_chars field_char pd = true /\ all_chars field_char pH = true /\
    all_chars field_char pM = true /\ all_chars field_char pS = true.
Proof.
  unfold Datetime.re_match. intros H.
  apply obind_some in H as ([y s1] & HY & H).
  apply obind_some in H as (s2 & L1 & H).
  apply obind_some in H as ([m s3] & Hm & H).
  apply obind_some in H as (s4 & L2 & H).
  apply obind_some in H as ([d s5] & Hd & H).
  apply obind_some in H as (s6 & LT & H).
  apply obind_some in H as ([hh s7] & HH & H).
  apply obind_some in H as (s8 & L3 & H).
  apply obind_some in H as ([mm s9] & HM & H).
  apply obind_some in H as (s10 & L4 & H).
  apply obind_some in H as ([ss s11] & HS & H).
  injection H as _ <-.
  destruct (consumes_re_Y _ _ _ HY) as (pY & -> & HpY).
  destruct (consumes_re_m _ _ _ Hm) as (pm & -> & Hpm).
  destruct (consumes_re_d _ _ _ Hd) as (pd & -> & Hpd).
  destruct (consumes_re_H _ _ _ HH) as (pH & -> & HpH).
  destruct (consumes_re_M _ _ _ HM) as (pM & -> & HpM).
  destruct (consumes_re_S _ _ _ HS) as (pS & -> & HpS).
  apply lit_some in L1, L2, L3, L4. subst s1 s3 s7 s9.
  exists pY, pm, pd, pH, pM, pS.
  destruct (lit_T_some _ _ LT) as [-> | ->]; eexists; repeat split; eauto.
Qed.

Lemma field_chars_without (c : ascii) (p : string) :
  field_char c = false -> all_chars field_char p = true -> Str.has_char c p = false.
Proof.
  intros Hc. induction p as [| a p IH]; cbn [all_chars Str.has_char]; [reflexivity |].
  intros H. apply andb_true_iff in H as [Ha Hp].
  rewrite (IH Hp), orb_false_r.
  destruct (Ascii.eqb a c) eqn:E; [| reflexivity].
  apply Ascii.eqb_eq in E. subst a. congruence.
Qed.

(** [strptime] accepts no string with a point in it. *)
Lemma strptime_no_point (s : string) (f : Datetime.fields) :
  Datetime.strptime s = Ok f -> Str.has_char "." s = false.
Proof.
  unfold Datetime.strptime.
  destruct (Datetime.re_match s) as [[f0 r] |] eqn:E; [| discriminate].
  destruct r; [| discriminate]. intros _.
  destruct (re_match_shape _ _ _ E)
    as (pY & pm & pd & pH & pM & pS & cT & -> & HT & HY & Hm & Hd & HH & HM & HS).
  repeat (progress (rewrite ?has_char_append; cbn [Str.has_char])).
  rewrite !(field_chars_without "." _ eq_refl) by assumption.
  destruct HT as [-> | ->]; reflexivity.
Qed.

(** The regular expression matches only strings with a [T] or a [t]. *)
Lemma re_match_has_T (s r : string) (f : Datetime.fields) :
  Datetime.re_match s = Some (f, r) ->
  Str.has_char "T" s || Str.has_char "t" s = true.
Proof.
  intros E.
  destruct (re_match_shape _ _ _ E)
    as (pY & pm & pd & pH & pM & pS & cT & -> & HT & _).
  repeat (progress (rewrite ?has_char_append; cbn [Str.has_char])).
  destruct HT as [-> | ->];
    change (Ascii.eqb "T" "T") with true; change (Ascii.eqb "t" "t") with true;
    rewrite ?orb_true_r; reflexivity.
Qed.

Lemma strptime_raises (s : string) :
  (forall f, Datetime.strptime s <> Ok f) ->
  exists msg, Datetime.strptime s = Raise (ValueError msg).
Proof.
  unfold Datetime.strptime. intros Hno.
  destruct (Datetime.re_match s) as [[f0 r] |]; [| eexists; reflexivity].
  destruct r; [| eexists; reflexivity].
  destruct f0 as [[[[[y m] d] hh] mm] ss].
  destruct (Datetime.valid_date y m d) eqn:E; [| eexists; reflexivity].
  exfalso. eapply Hno. reflexivity.
Qed.

End Shape.

(** ** What [StringToTime] accepts and returns *)

Lemma strptime_valid (s : string) (y m d hh mm ss : Z) :
  Datetime.strptime s = Ok (y, m, d, hh, mm, ss) -> Datetime.valid_date y m d = true.
Proof.
  unfold Datetime.strptime.
  destruct (Datetime.re_match s) as [[f0 r] |]; [| discriminate].
  destruct r; [| discriminate].
  destruct f0 as [[[[[y0 m0] d0] hh0] mm0] ss0].
  destruct (Datetime.valid_date y0 m0 d0) eqn:E; [| discriminate].
  now intros [= <- <- <- _ _ _].
Qed.

Lemma datetime_new_ok (y m d hh mm ss : Z) (dt : Datetime.datetime) :
  Datetime.datetime_new y m d hh mm ss = Ok dt ->
  dt = Datetime.mkdt y m d hh mm ss 0 /\
  Datetime.between 0 hh 23 = true /\ Datetime.between 0 mm 59 = true /\
  Datetime.between 0 ss 59 = true.
Proof.
  unfold Datetime.datetime_new.
  repeat match goal with
         | |- context [if negb ?b then _ else _] => destruct b; cbn [negb]
         end; try discriminate.
  intros [= <-]. repeat split.
Qed.

(** X1: a time value that [StringToTime] returns satisfies the invariant
    of [datetime]: the date exists, the time of day is in range and the
    microsecond is below one million. *)
Theorem StringToTime_valid (thestr : string) (dt : Datetime.datetime) :
  StringToTime thestr = Ok dt -> Datetime.valid_datetime dt = true.
Proof.
  unfold StringToTime.
  set (parts := match Str.split_on "." thestr with
                | [a; b] => (a, b)
                | _ => (Str.drop_last thestr, "Z")
                end).
  destruct parts as [strtime extra].
  destruct (Datetime.strptime strtime) as [[[[[[y m] d] hh] mm] ss] | e] eqn:Hp;
    [| discriminate].
  cbn [rbind].
  destruct (Datetime.datetime_new y m d hh mm ss) as [dt0 | e] eqn:Hn;
    [| discriminate].
  cbn [rbind].
  destruct (Str.index_last extra) as [c | e]; [| discriminate]. cbn [rbind].
  destruct (negb (Ascii.eqb c "Z")); [discriminate |].
  destruct (Str.py_int _) as [usec | e]; [| discriminate]. cbn [rbind].
  unfold Datetime.replace_microsecond.
  destruct (Datetime.between 0 usec 999999) eqn:Hu; [| discriminate].
  intros [= <-].
  apply strptime_valid in Hp.
  apply datetime_new_ok in Hn as (-> & Hh & Hm & Hs).
  unfold Datetime.valid_datetime. cbn.
  now rewrite Hp, Hh, Hm, Hs, Hu.
Qed.

Lemma StringToTime_valid_witness :
  Datetime.valid_datetime (Datetime.mkdt 2020 2 29 23 59 59 120000) = true.
Proof.
  exact (StringToTime_valid "2020-02-29T23:59:59.12Z"
           (Datetime.mkdt 2020 2 29 23 59 59 120000) eq_refl).
Defined.

Lemma length_split_on (c : ascii) (s : string) :
  List.length (Str.split_on c s) = S (count_char c s).
Proof.
  induction s as [| a s IH]; [reflexivity |].
  cbn [Str.split_on count_char].
  destruct (Ascii.eqb a c); cbn [List.length].
  - now rewrite IH.
  - destruct (Str.split_on c s) as [| x xs]; [discriminate |].
    cbn [List.length] in *. lia.
Qed.

Lemma count_drop_last (c : ascii) (s : string) :
  (count_char c s <= S (count_char c (Str.drop_last s)))%nat.
Proof.
  induction s as [| a s IH]; [cbn; lia |].
  destruct s as [| b s].
  - cbn [Str.drop_last count_char]. destruct (Ascii.eqb a c); lia.
  - change (Str.drop_last (String a (String b s)))
      with (String a (Str.drop_last (String b s))).
    cbn [count_char] in *. lia.
Qed.

Lemma has_char_count (c : ascii) (s : string) :
  (1 <= count_char c s)%nat -> Str.has_char c s = true.
Proof.
  induction s as [| a s IH]; cbn [count_char Str.has_char]; [lia |].
  destruct (Ascii.eqb a c); [reflexivity |]. intros H. apply IH. lia.
Qed.

(** X2: a string with two or more points is always rejected, with a
    [ValueError] of [time.strptime]: the failed unpacking leaves the
    points in the part that is parsed. *)
Theorem StringToTime_two_points (thestr : string) :
  (2 <=? count_char "." thestr)%nat = true ->
  exists msg, StringToTime thestr = Raise (ValueError msg).
Proof.
  intros Hc. apply Nat.leb_le in Hc.
  pose proof (length_split_on "." thestr) as Hlen.
  pose proof (count_drop_last "." thestr) as Hdrop.
  assert (forall f, Datetime.strptime (Str.drop_last thestr) <> Ok f) as Hno.
  { intros f Hf. apply strptime_no_point in Hf.
    rewrite has_char_count in Hf by lia. discriminate. }
  destruct (strptime_raises _ Hno) as (msg & Hmsg).
  exists msg. unfold StringToTime.
  destruct (Str.split_on "." thestr) as [| a [| b [| c rest]]];
    cbn [List.length] in Hlen; try lia; now rewrite Hmsg.
Qed.

Lemma StringToTime_two_points_witness :
  exists msg, StringToTime "2021-01-01T00:00:00.5.5Z" = Raise (ValueError msg).
Proof. exact (StringToTime_two_points "2021-01-01T00:00:00.5.5Z" eq_refl). Defined.

Lemma zero_padded_snoc (f : string) :
  (String.length f < 6)%nat -> zero_padded (f +:+ "0") = zero_padded f.
Proof.
  intros Hl. unfold zero_padded. rewrite length_append, append_assoc.
  cbn [String.length String.append].
  replace (6 - String.length f)%nat with (S (6 - (String.length f + 1)))%nat by lia.
  reflexivity.
Qed.

(** X3: a zero appended to a fraction of fewer than six characters does
    not change the result: the fraction is padded on the right. *)
Theorem StringToTime_trailing_zero (s f : string) :
  Str.has_char "." s = false ->
  Str.has_char "." f = false ->
  (String.length f <? 6)%nat = true ->
  StringToTime (s +:+ "." +:+ f +:+ "0Z") = StringToTime (s +:+ "." +:+ f +:+ "Z").
Proof.
  intros Hs Hf Hl. apply Nat.ltb_lt in Hl. unfold StringToTime.
  assert (forall x, Str.has_char "." (f +:+ x) = Str.has_char "." x) as Hfx
    by (intros x; now rewrite has_char_append, Hf).
  cbn [String.append].
  rewrite !split_on_once by (assumption || (rewrite Hfx; reflexivity)).
  change "0Z" with ("0" +:+ "Z"). rewrite <- append_assoc.
  unfold Str.index_last. rewrite !last_char_snoc, !drop_last_snoc.
  rewrite !pad_usec_zero_padded by lia.
  now rewrite zero_padded_snoc.
Qed.

Lemma StringToTime_trailing_zero_witness :
  StringToTime "2021-01-01T00:00:00.50Z" = StringToTime "2021-01-01T00:00:00.5Z".
Proof.
  exact (StringToTime_trailing_zero "2021-01-01T00:00:00" "5" eq_refl eq_refl eq_refl).
Defined.

Lemma no_T_date (c : ascii) (y m d : Z) :
  Str.digit_of c = None -> Ascii.eqb "-" c = false ->
  Str.has_char c (Datetime.isoformat_date y m d) = false.
Proof.
  intros Hc Hm. unfold Datetime.isoformat_date.
  repeat (progress (rewrite ?has_char_append; cbn [Str.has_char])).
  now rewrite !has_char_zfill, Hm by assumption.
Qed.

(** X4: the string [TimeToString] gives for a plain date (as
    [ConvertToDict] does for a field that holds a [datetime.date]) is
    never accepted by [StringToTime]: it has no time of day. *)
Theorem StringToTime_date_rejected (y m d : Z) :
  StringToTime (TimeToString (Datetime.ADate y m d))
  = Raise (ValueError "time data does not match format").
Proof.
  unfold TimeToString, Datetime.isoformat, StringToTime.
  rewrite split_on_absent.
  2:{ rewrite has_char_append, no_T_date by reflexivity. reflexivity. }
  rewrite drop_last_snoc. unfold Datetime.strptime.
  destruct (Datetime.re_match (Datetime.isoformat_date y m d)) as [[f r] |] eqn:E;
    [| reflexivity].
  apply re_match_has_T in E.
  rewrite !no_T_date in E by reflexivity. discriminate.
Qed.

(** X5: two time values with the same string are the same value. *)
Theorem TimeToString_injective (t1 t2 : Datetime.datetime) :
  Datetime.valid_datetime t1 = true ->
  Datetime.valid_datetime t2 = true ->
  TimeToString (Datetime.ADateTime t1) = TimeToString (Datetime.ADateTime t2) ->
  t1 = t2.
Proof.
  intros H1 H2 Heq.
  pose proof (parse_formatted t1 H1) as P1.
  pose proof (parse_formatted t2 H2) as P2.
  rewrite Heq, P2 in P1. now injection P1.
Qed.

Lemma TimeToString_injective_witness :
  Datetime.mkdt 2021 1 1 0 0 0 5 = Datetime.mkdt 2021 1 1 0 0 0 5.
Proof.
  exact (TimeToString_injective (Datetime.mkdt 2021 1 1 0 0 0 5)
           (Datetime.mkdt 2021 1 1 0 0 0 5) eq_refl eq_refl eq_refl).
Defined.

(** * Further properties of [ConvertToDict] *)

Section ToDict.

Variable classes : string -> option pyclass.

Lemma py_in_fields (key : string) (l : list string) :
  py_in key (VList (map VStr l)) = Ok (existsb (String.eqb key) l).
Proof.
  cbn [py_in]. f_equal. induction l as [| x l IH]; [reflexivity |].
  cbn [map existsb]. now rewrite IH.
Qed.

Lemma get_set_eq (k : string) (v : value) (d : dict) :
  Dict.get k (Dict.set k v d) = Some v.
Proof.
  induction d as [| [k' v'] d IH]; cbn [Dict.set Dict.get].
  - now rewrite String.eqb_refl.
  - destruct (String.eqb k k') eqn:E; cbn [Dict.get]; rewrite E; [reflexivity | exact IH].
Qed.

(** The two tests at the head of the loop body. *)
Lemma skip_include (inc : option (list string)) (key : string) (h : heap) :
  match fields_value inc with
  | VNone => ret false
  | _ => lift_result (b <-! py_in key (fields_value inc); Ok (negb b))
  end h
  = (Ok (negb match inc with
              | None => true
              | Some l => existsb (String.eqb key) l
              end), h).
Proof.
  destruct inc as [l |]; [| reflexivity].
  cbn [fields_value]. unfold lift_result. now rewrite py_in_fields.
Qed.

Lemma skip_exclude (exc : option (list string)) (key : string) (h : heap) :
  match fields_value exc with
  | VNone => ret false
  | _ => lift_result (py_in key (fields_value exc))
  end h
  = (Ok (negb match exc with
              | None => true
              | Some l => negb (existsb (String.eqb key) l)
              end), h).
Proof.
  destruct exc as [l |]; [| reflexivity].
  cbn [fields_value]. unfold lift_result. rewrite py_in_fields.
  now rewrite negb_involutive.
Qed.

Lemma getattr_value_data (l : loc) (o : pyobj) (key : string) (v : value) (h : heap) :
  h !! l = Some o -> Dict.get key (obj_attrs o) = Some v ->
  getattr_value classes (VRef l) key h = (Ok v, h).
Proof.
  intros Hl Hk. unfold getattr_value, bind, py_getattr, bind, get_obj, lookup_attr.
  now rewrite Hl, Hk.
Qed.

Lemma py_properties_model (l : loc) (o : pyobj) (c : pyclass) (h : heap) :
  h !! l = Some o -> classes (obj_class o) = Some c -> cls_is_model c = true ->
  Dict.get "properties" (obj_attrs o) = None ->
  py_properties classes (VRef l) h = (Ok (cls_properties c), h).
Proof.
  intros Hl Hc Hm Hp. unfold py_properties, bind, get_obj, class_of.
  now rewrite Hl, Hp, Hc, Hm.
Qed.

(** One pass of the loop on a field that the filters reject, and on a
    field they let through. *)
Lemma loop_skip (rec : value -> value -> value -> M dict) (model : value)
    (inc exc : option (list string)) (key : string) (prop : property)
    (rest : list (string * property)) (output : dict) (h : heap) :
  selected inc exc key = false ->
  ConvertToDict_loop classes rec model (fields_value inc) (fields_value exc)
    ((key, prop) :: rest) output h
  = ConvertToDict_loop classes rec model (fields_value inc) (fields_value exc)
      rest output h.
Proof.
  intros Hsel. cbn [ConvertToDict_loop].
  unfold bind at 1. rewrite skip_include.
  unfold selected in Hsel.
  destruct (match inc with None => true | Some l => existsb (String.eqb key) l end);
    cbn [negb andb] in *; [| reflexivity].
  unfold bind at 1. rewrite skip_exclude. rewrite Hsel. reflexivity.
Qed.

Lemma loop_take (rec : value -> value -> value -> M dict) (model : value)
    (inc exc : option (list string)) (key : string) (prop : property)
    (rest : list (string * property)) (output : dict) (h : heap) :
  selected inc exc key = true ->
  ConvertToDict_loop classes rec model (fields_value inc) (fields_value exc)
    ((key, prop) :: rest) output h
  = bind (getattr_value classes model key)
      (fun value =>
         let continue := ConvertToDict_loop classes rec model (fields_value inc)
                           (fields_value exc) rest in
         if is_simple value then continue (Dict.set key value output)
         else match value with
         | VTime t => continue (Dict.set key (VStr (TimeToString t)) output)
         | VGeoPt lat lon =>
             continue (Dict.set key
               (VDict [("latitude", VFloat lat); ("longitude", VFloat lon)]) output)
         | _ =>
             m <~ is_model classes value ;;
             if (m : bool) then
               d <~ rec value (fields_value inc) (fields_value exc) ;;
               continue (Dict.set key (VDict d) output)
             else match value with
             | VOpaque cls =>
                 if String.eqb cls UserProperty
                 then raise (AttributeError "email")
                 else raise (ValueError ("cannot encode " +:+ prop))
             | _ => raise (ValueError ("cannot encode " +:+ prop))
             end
         end) h.
Proof.
  intros Hsel. cbn [ConvertToDict_loop].
  unfold bind at 1. rewrite skip_include.
  unfold selected in Hsel. apply andb_true_iff in Hsel as [Hi He].
  rewrite Hi. cbn [negb].
  unfold bind at 1. rewrite skip_exclude. rewrite He. reflexivity.
Qed.

Section SimpleFields.

Variables (l : loc) (o : pyobj) (h : heap).
Variables (inc exc : option (list string)).
Hypothesis Hl : h !! l = Some o.

Lemma loop_simple (rec : value -> value -> value -> M dict)
    (props : list (string * property)) :
  (forall key prop, In (key, prop) props ->
     exists v, Dict.get key (obj_attrs o) = Some v /\ is_simple v = true) ->
  forall output, exists output',
    ConvertToDict_loop classes rec (VRef l) (fields_value inc) (fields_value exc)
      props output h = (Ok output', h) /\
    forall key,
      Dict.get key output'
      = if selected inc exc key && existsb (String.eqb key) (map fst props)
        then Dict.get key (obj_attrs o) else Dict.get key output.
Proof.
  induction props as [| [key prop] rest IH]; intros Hsimple output.
  - exists output. split; [reflexivity |]. intros key. now rewrite andb_false_r.
  - assert (forall key prop, In (key, prop) rest ->
              exists v, Dict.get key (obj_attrs o) = Some v /\ is_simple v = true)
      as Hrest by (intros k p Hin; apply (Hsimple k p); now right).
    destruct (selected inc exc key) eqn:Hsel.
    + destruct (Hsimple key prop (or_introl eq_refl)) as (v & Hv & Hs).
      destruct (IH Hrest (Dict.set key v output)) as (output' & Hrun & Hget).
      exists output'. split.
      * rewrite loop_take by exact Hsel.
        rewrite (bind_step _ _ _ _ _ (getattr_value_data l o key v h Hl Hv)).
        cbv zeta. rewrite Hs. exact Hrun.
      * intros k. rewrite Hget. cbn [map fst existsb].
        destruct (String.eqb_spec k key) as [-> | Hne].
        -- rewrite Hsel. cbn [andb orb].
           destruct (existsb _ _); [reflexivity |]. now rewrite get_set_eq.
        -- cbn [orb]. now rewrite get_set_ne by exact Hne.
    + destruct (IH Hrest output) as (output' & Hrun & Hget).
      exists output'. split.
      * now rewrite loop_skip by exact Hsel.
      * intros k. rewrite Hget. cbn [map fst existsb].
        destruct (String.eqb_spec k key) as [-> | Hne]; [| reflexivity].
        rewrite Hsel. reflexivity.
Qed.

End SimpleFields.

End ToDict.

Section FlatFields.

Variable classes : string -> option pyclass.
Variables (l : loc) (o : pyobj) (h : heap).
Variables (inc exc : option (list string)).
Hypothesis Hl : h !! l = Some o.

Lemma loop_flat (rec : value -> value -> value -> M dict)
    (props : list (string * property)) :
  (forall key prop, In (key, prop) props ->
     exists v, Dict.get key (obj_attrs o) = Some v /\ is_flat v = true) ->
  forall output, exists output',
    ConvertToDict_loop classes rec (VRef l) (fields_value inc) (fields_value exc)
      props output h = (Ok output', h) /\
    forall key,
      Dict.get key output'
      = if selected inc exc key && existsb (String.eqb key) (map fst props)
        then encoded (Dict.get key (obj_attrs o)) else Dict.get key output.
Proof.
  induction props as [| [key prop] rest IH]; intros Hflat output.
  - exists output. split; [reflexivity |]. intros key. now rewrite andb_false_r.
  - assert (forall key prop, In (key, prop) rest ->
              exists v, Dict.get key (obj_attrs o) = Some v /\ is_flat v = true)
      as Hrest by (intros k p Hin; apply (Hflat k p); now right).
    destruct (selected inc exc key) eqn:Hsel.
    + destruct (Hflat key prop (or_introl eq_refl)) as (v & Hv & Hf).
      destruct (IH Hrest (Dict.set key (encode_flat v) output))
        as (output' & Hrun & Hget).
      exists output'. split.
      * rewrite loop_take by exact Hsel.
        rewrite (bind_step _ _ _ _ _ (getattr_value_data classes l o key v h Hl Hv)).
        cbv zeta. unfold is_flat in Hf.
        destruct (is_simple v) eqn:Hs.
        -- destruct v; try discriminate; exact Hrun.
        -- destruct v; try discriminate; exact Hrun.
      * intros k. rewrite Hget. cbn [map fst existsb].
        destruct (String.eqb_spec k key) as [-> | Hne].
        -- rewrite Hsel, Hv. cbn [andb orb encoded].
           destruct (existsb _ _); [reflexivity |]. now rewrite get_set_eq.
        -- cbn [orb]. now rewrite get_set_ne by exact Hne.
    + destruct (IH Hrest output) as (output' & Hrun & Hget).
      exists output'. split.
      * now rewrite loop_skip by exact Hsel.
      * intros k. rewrite Hget. cbn [map fst existsb].
        destruct (String.eqb_spec k key) as [-> | Hne]; [| reflexivity].
        rewrite Hsel. reflexivity.
Qed.

End FlatFields.

(** X6: for a model whose fields hold simple values, times or
    geographic points, [ConvertToDict] returns a dictionary that has
    exactly the declared fields which are in the allow-list (when one is
    given) and not in the deny-list (when one is given): a simple value
    as it is, a time as its string, a point as its two coordinates. *)
Theorem ConvertToDict_filters (classes : string -> option pyclass) (depth : nat)
    (l : loc) (o : pyobj) (c : pyclass) (inc exc : option (list string))
    (h : heap) :
  h !! l = Some o ->
  classes (obj_class o) = Some c ->
  cls_is_model c = true ->
  Dict.get "properties" (obj_attrs o) = None ->
  (forall key prop, In (key, prop) (cls_properties c) ->
     exists v, Dict.get key (obj_attrs o) = Some v /\ is_flat v = true) ->
  exists output,
    ConvertToDict classes (S depth) (VRef l) (fields_value inc) (fields_value exc) h
      = (Ok output, h) /\
    forall key,
      Dict.get key output
      = if selected inc exc key
           && existsb (String.eqb key) (map fst (cls_properties c))
        then encoded (Dict.get key (obj_attrs o)) else None.
Proof.
  intros Hl Hc Hm Hp Hflat.
  destruct (loop_flat classes l o h inc exc Hl (ConvertToDict classes depth)
              (cls_properties c) Hflat []) as (output & Hrun & Hget).
  exists output. split; [| exact Hget].
  cbn [ConvertToDict].
  now rewrite (bind_step _ _ _ _ _ (py_properties_model classes l o c h Hl Hc Hm Hp)).
Qed.

Lemma Sample2_reading_flat (key : string) (prop : property) :
  In (key, prop) (cls_properties Sample2.Reading) ->
  exists v, Dict.get key (obj_attrs Sample2.reading) = Some v /\ is_flat v = true.
Proof.
  intros [[= <- _] | [[= <- _] | [[= <- _] | [[= <- _] | []]]]];
    eexists; split; reflexivity.
Qed.

Lemma ConvertToDict_filters_witness :
  exists output,
    ConvertToDict Sample2.classes 1 (VRef 0%nat)
      (fields_value (Some ["count"; "at"; "where"])) (fields_value (Some ["count"]))
      [Sample2.reading]
      = (Ok output, [Sample2.reading]) /\
    Dict.get "count" output = None /\
    Dict.get "at" output = Some (VStr "2021-01-01T12:00:00.250000Z") /\
    Dict.get "where" output
      = Some (VDict [("latitude", VFloat "47.6"); ("longitude", VFloat "-122.3")]) /\
    Dict.get "day" output = None.
Proof.
  destruct (ConvertToDict_filters Sample2.classes 0 0%nat Sample2.reading
              Sample2.Reading (Some ["count"; "at"; "where"]) (Some ["count"])
              [Sample2.reading] eq_refl eq_refl eq_refl eq_refl Sample2_reading_flat)
    as (output & Hrun & Hget).
  exists output. split; [exact Hrun |]. split; [| split; [| split]].
  - exact (Hget "count").
  - exact (Hget "at").
  - exact (Hget "where").
  - exact (Hget "day").
Defined.

(** X7: a model that refers to itself through a declared field is never
    converted: the conversion follows the reference again and again and
    ends with the recursion error, however deep the interpreter lets it
    go. *)
Theorem ConvertToDict_self_reference (classes : string -> option pyclass)
    (depth : nat) (l : loc) (o : pyobj) (c : pyclass) (key : string)
    (prop : property) (rest : list (string * property)) (h : heap) :
  h !! l = Some o ->
  classes (obj_class o) = Some c ->
  cls_is_model c = true ->
  cls_properties c = (key, prop) :: rest ->
  Dict.get "properties" (obj_attrs o) = None ->
  Dict.get key (obj_attrs o) = Some (VRef l) ->
  ConvertToDict classes depth (VRef l) VNone VNone h
  = (Raise (RuntimeError "maximum recursion depth exceeded"), h).
Proof.
  intros Hl Hc Hm Hp Hnp Hk.
  induction depth as [| depth IH]; [reflexivity |].
  cbn [ConvertToDict].
  rewrite (bind_step _ _ _ _ _ (py_properties_model classes l o c h Hl Hc Hm Hnp)).
  rewrite Hp.
  rewrite (loop_take classes _ _ None None) by reflexivity.
  rewrite (bind_step _ _ _ _ _ (getattr_value_data classes l o key _ h Hl Hk)).
  cbv zeta. cbn [is_simple].
  assert (is_model classes (VRef l) h = (Ok true, h)) as Hmodel.
  { unfold is_model, class_of. now rewrite Hl, Hc, Hm. }
  rewrite (bind_step _ _ _ _ _ Hmodel).
  now rewrite (bind_raise _ _ _ _ _ IH).
Qed.

Lemma ConvertToDict_self_reference_witness :
  ConvertToDict Sample.classes 1000 (VRef 0%nat) VNone VNone [Sample.knot]
  = (Raise (RuntimeError "maximum recursion depth exceeded"), [Sample.knot]).
Proof.
  exact (ConvertToDict_self_reference Sample.classes 1000 0%nat Sample.knot
           Sample.Node "next" "<ReferenceProperty next>" [] [Sample.knot]
           eq_refl eq_refl eq_refl eq_refl eq_refl eq_refl).
Defined.

Lemma loop_all_skipped (classes : string -> option pyclass)
    (rec : value -> value -> value -> M dict) (model : value)
    (inc exc : option (list string)) (props : list (string * property))
    (output : dict) (h : heap) :
  (forall key prop, In (key, prop) props -> selected inc exc key = false) ->
  ConvertToDict_loop classes rec model (fields_value inc) (fields_value exc)
    props output h = (Ok output, h).
Proof.
  induction props as [| [key prop] rest IH]; intros Hskip; [reflexivity |].
  rewrite loop_skip by (apply (Hskip key prop); now left).
  apply IH. intros k p Hin. apply (Hskip k p). now right.
Qed.

(** X8: the allow-list is applied again inside a nested model: when the
    list names the reference field but none of the fields of the model
    it refers to, the nested dictionary is empty. *)
Theorem ConvertToDict_nested_filter (classes : string -> option pyclass)
    (depth : nat) (l n : loc) (o child : pyobj) (c cn : pyclass)
    (key : string) (prop : property) (inc exc : option (list string))
    (h : heap) :
  h !! l = Some o ->
  classes (obj_class o) = Some c ->
  cls_is_model c = true ->
  cls_properties c = [(key, prop)] ->
  Dict.get "properties" (obj_attrs o) = None ->
  Dict.get key (obj_attrs o) = Some (VRef n) ->
  h !! n = Some child ->
  classes (obj_class child) = Some cn ->
  cls_is_model cn = true ->
  Dict.get "properties" (obj_attrs child) = None ->
  selected inc exc key = true ->
  (forall k p, In (k, p) (cls_properties cn) -> selected inc exc k = false) ->
  ConvertToDict classes (S (S depth)) (VRef l) (fields_value inc) (fields_value exc) h
  = (Ok [(key, VDict [])], h).
Proof.
  intros Hl Hc Hm Hp Hnp Hk Hn Hcn Hmn Hnpn Hsel Hskip.
  cbn [ConvertToDict].
  rewrite (bind_step _ _ _ _ _ (py_properties_model classes l o c h Hl Hc Hm Hnp)).
  rewrite Hp. rewrite loop_take by exact Hsel.
  rewrite (bind_step _ _ _ _ _ (getattr_value_data classes l o key _ h Hl Hk)).
  cbv zeta. cbn [is_simple].
  assert (is_model classes (VRef n) h = (Ok true, h)) as Hmodel.
  { unfold is_model, class_of. now rewrite Hn, Hcn, Hmn. }
  rewrite (bind_step _ _ _ _ _ Hmodel).
  assert (bind (py_properties classes (VRef n))
            (fun props =>
               ConvertToDict_loop classes (ConvertToDict classes depth) (VRef n)
                 (fields_value inc) (fields_value exc) props []) h
          = (Ok [], h)) as Hnested.
  { rewrite (bind_step _ _ _ _ _
               (py_properties_model classes n child cn h Hn Hcn Hmn Hnpn)).
    now apply loop_all_skipped. }
  rewrite (bind_step _ _ _ _ _ Hnested). reflexivity.
Qed.

Lemma ConvertToDict_nested_filter_witness :
  ConvertToDict Sample.classes 2 (VRef 0%nat)
    (fields_value (Some ["child"])) (fields_value None)
    [Sample.holder; Sample.pair]
  = (Ok [("child", VDict [])], [Sample.holder; Sample.pair]).
Proof.
  apply (ConvertToDict_nested_filter Sample.classes 0 0%nat 1%nat Sample.holder
           Sample.pair Sample.Holder Sample.Pair "child" "<ReferenceProperty child>"
           (Some ["child"]) None); try reflexivity.
  intros k p [[= <- _] | [[= <- _] | []]]; reflexivity.
Defined.

(** ** The depth the interpreter allows *)

Section Depth.

Variable classes : string -> option pyclass.

Lemma loop_extends (rec rec' : value -> value -> value -> M dict)
    (model inc exc : value) (props : list (string * property)) :
  extends_call rec rec' ->
  forall output h d h',
    ConvertToDict_loop classes rec model inc exc props output h = (Ok d, h') ->
    ConvertToDict_loop classes rec' model inc exc props output h = (Ok d, h').
Proof.
  intros Hrec. induction props as [| [key prop] rest IH]; intros output h d h' H.
  - exact H.
  - cbn [ConvertToDict_loop] in H |- *.
    apply bind_ok in H as (skip1 & h1 & Hs1 & H).
    rewrite (bind_step _ _ _ _ _ Hs1).
    destruct skip1; [now apply IH |].
    apply bind_ok in H as (skip2 & h2 & Hs2 & H).
    rewrite (bind_step _ _ _ _ _ Hs2).
    destruct skip2; [now apply IH |].
    apply bind_ok in H as (v & h3 & Hv & H).
    rewrite (bind_step _ _ _ _ _ Hv).
    destruct (is_simple v); [now apply IH |].
    destruct v; try (now apply IH);
      apply bind_ok in H as (m & ? & Hm & H);
      rewrite (bind_step _ _ _ _ _ Hm);
      (destruct m;
       [ apply bind_ok in H as (? & ? & Hd & H);
         rewrite (bind_step _ _ _ _ _ (Hrec _ _ _ _ _ _ Hd)); now apply IH
       | exact H ]).
Qed.

Lemma ConvertToDict_step_depth (depth : nat) :
  extends_call (ConvertToDict classes depth) (ConvertToDict classes (S depth)).
Proof.
  induction depth as [| depth IH]; intros m i e h d h' H; [discriminate |].
  cbn [ConvertToDict] in H. apply bind_ok in H as (props & h1 & Hp & H).
  change (ConvertToDict classes (S (S depth)) m i e h)
    with (bind (py_properties classes m)
            (fun props => ConvertToDict_loop classes (ConvertToDict classes (S depth))
                            m i e props []) h).
  rewrite (bind_step _ _ _ _ _ Hp).
  now apply (loop_extends (ConvertToDict classes depth)).
Qed.

End Depth.

(** X9: the depth is only a bound: when the conversion returns a
    dictionary with some depth left, it returns the same dictionary with
    any greater depth. *)
Theorem ConvertToDict_deeper (classes : string -> option pyclass)
    (depth more : nat) (model include_fields exclude_fields : value)
    (h h' : heap) (d : dict) :
  ConvertToDict classes depth model include_fields exclude_fields h = (Ok d, h') ->
  ConvertToDict classes (depth + more) model include_fields exclude_fields h
  = (Ok d, h').
Proof.
  intros H. induction more as [| more IH].
  - now rewrite Nat.add_0_r.
  - rewrite Nat.add_succ_r. now apply ConvertToDict_step_depth.
Qed.

Lemma ConvertToDict_deeper_witness :
  ConvertToDict Sample.classes (2 + 998) (VRef 0%nat) VNone VNone
    [Sample.holder; Sample.pair]
  = (Ok [("child", VDict [("a", VInt 1); ("b", VStr "x")])],
     [Sample.holder; Sample.pair]).
Proof.
  exact (ConvertToDict_deeper Sample.classes 2 998 (VRef 0%nat) VNone VNone
           [Sample.holder; Sample.pair] [Sample.holder; Sample.pair]
           [("child", VDict [("a", VInt 1); ("b", VStr "x")])] eq_refl).
Defined.

(** * Further properties of [ConvertFromDict] *)

Section FromDict.

Variable classes : string -> option pyclass.

Lemma get_assign (exclude : list string) (items attrs : dict) (k : string) :
  List.NoDup (map fst items) ->
  Dict.get k (assign exclude items attrs)
  = if existsb (String.eqb k) exclude then Dict.get k attrs
    else match Dict.get k items with
         | Some v => Some v
         | None => Dict.get k attrs
         end.
Proof.
  revert attrs. induction items as [| [k0 v0] rest IH]; intros attrs Hnd.
  - cbn [assign Dict.get]. now destruct (existsb _ _).
  - cbn [map fst] in Hnd. apply NoDup_cons_iff in Hnd as [Hnotin Hnd].
    cbn [assign Dict.get]. rewrite (IH _ Hnd).
    destruct (String.eqb_spec k k0) as [-> | Hne].
    + assert (Dict.get k0 rest = None) as Hnone.
      { clear -Hnotin. induction rest as [| [k1 v1] rest IH]; [reflexivity |].
        cbn [Dict.get]. destruct (String.eqb_spec k0 k1) as [-> | Hne].
        - exfalso. apply Hnotin. now left.
        - apply IH. intros Hin. apply Hnotin. now right. }
      rewrite Hnone.
      destruct (existsb (String.eqb k0) exclude); [reflexivity |].
      apply get_set_eq.
    + destruct (existsb (String.eqb k0) exclude).
      * reflexivity.
      * now rewrite get_set_ne by exact Hne.
Qed.

Lemma no_hooks_lookup (o : pyobj) (k : string) :
  no_hooks classes o -> lookup_attr classes o (hook_name k) = None.
Proof. intros [Hm Ha]. unfold lookup_attr. now rewrite Ha, Hm. Qed.

Lemma no_hooks_set (o : pyobj) (k : string) (v : value) :
  (forall k', k <> hook_name k') ->
  no_hooks classes o ->
  no_hooks classes (mkobj (obj_class o) (obj_key o) (Dict.set k v (obj_attrs o))).
Proof.
  intros Hk [Hm Ha]. split.
  - exact Hm.
  - intros k'. cbn [obj_attrs]. rewrite get_set_ne; [apply Ha |].
    intros Heq. now apply (Hk k').
Qed.

Lemma setattr_admitted (l : loc) (o : pyobj) (k : string) (v : value)
    (h : heap) :
  h !! l = Some o ->
  admits classes o k v ->
  py_setattr classes (VRef l) k v h = (Ok tt, <[l := with_attr o k v]> h).
Proof.
  intros Hl Hadm. destruct (declared (class_of classes o) k) eqn:Hd.
  - apply setattr_accepted; [exact Hl | exact Hd | now apply Hadm].
  - now apply setattr_plain.
Qed.

Lemma loop_assigns (l : loc) (exclude : list string) (items : dict) :
  (forall k v, In (k, v) items -> forall k', k <> hook_name k') ->
  forall (o : pyobj) (h : heap),
    h !! l = Some o -> no_hooks classes o ->
    (forall k v, In (k, v) items -> existsb (String.eqb k) exclude = false ->
       admits classes o k v) ->
    ConvertFromDict_loop classes (VRef l) (VList (map VStr exclude)) items h
    = (Ok tt, <[l := mkobj (obj_class o) (obj_key o)
                           (assign exclude items (obj_attrs o))]> h).
Proof.
  induction items as [| [k v] rest IH]; intros Hkeys o h Hl Hno Hadm.
  - cbn [ConvertFromDict_loop assign ret]. f_equal.
    symmetry. apply list_insert_id. now destruct o.
  - assert (forall k v, In (k, v) rest -> forall k', k <> hook_name k') as Hrest
      by (intros k1 v1 Hin; apply (Hkeys k1 v1); now right).
    assert (forall k v, In (k, v) rest -> existsb (String.eqb k) exclude = false ->
              admits classes o k v) as Hadmrest
      by (intros k1 v1 Hin; apply (Hadm k1 v1); now right).
    cbn [ConvertFromDict_loop assign].
    destruct (existsb (String.eqb k) exclude) eqn:Hex.
    + rewrite (bind_step _ _ _ _ tt
                 (step_excluded classes (VRef l) _ k v h
                    (eq_trans (py_in_fields k exclude) (f_equal Ok Hex)))).
      now apply IH.
    + rewrite (bind_step _ _ _ _ tt
                 (eq_trans
                    (step_without_hook classes l o _ k v h Hl
                       (eq_trans (py_in_fields k exclude) (f_equal Ok Hex))
                       (no_hooks_lookup o k Hno))
                    (setattr_admitted l o k v h Hl
                       (Hadm k v (or_introl eq_refl) Hex)))).
      cbv beta.
      rewrite (IH Hrest (with_attr o k v)).
      * cbn [with_attr obj_class obj_key obj_attrs]. now rewrite list_insert_insert_eq.
      * apply list_lookup_insert_eq. eapply lookup_lt_Some. exact Hl.
      * exact (no_hooks_set o k v (Hkeys k v (or_introl eq_refl)) Hno).
      * exact Hadmrest.
Qed.

End FromDict.




(** ** Copying a model through a dictionary *)

Lemma nodup_set (k : string) (v : value) (d : dict) :
  List.NoDup (map fst d) -> List.NoDup (map fst (Dict.set k v d)).
Proof.
  assert (forall d, map fst (Dict.set k v d)
                    = if existsb (String.eqb k) (map fst d) then map fst d
                      else (map fst d ++ [k])%list) as Hkeys.
  { clear d. induction d as [| [k' v'] d IH]; [reflexivity |].
    cbn [Dict.set map fst existsb].
    destruct (String.eqb k k'); cbn [orb map fst]; [reflexivity |].
    rewrite IH. now destruct (existsb _ _). }
  intros Hnd. rewrite Hkeys.
  destruct (existsb (String.eqb k) (map fst d)) eqn:E; [exact Hnd |].
  assert (~ In k (map fst d)) as Hnotin.
  { intros Hin.
    assert (existsb (String.eqb k) (map fst d) = true) as Ht.
    { apply existsb_exists. exists k. split; [exact Hin | apply String.eqb_refl]. }
    congruence. }
  clear E Hkeys. induction (map fst d) as [| x xs IH]; cbn [app].
  - constructor; [intros [] | constructor].
  - apply NoDup_cons_iff in Hnd as [Hx Hxs]. constructor.
    + rewrite in_app_iff. intros [Hin | [<- | []]]; [now apply Hx |].
      apply Hnotin. now left.
    + apply IH; [exact Hxs |]. intros Hin. apply Hnotin. now right.
Qed.

Section Copy.

Variable classes : string -> option pyclass.

Lemma in_get (k : string) (v : value) (d : dict) :
  List.NoDup (map fst d) -> In (k, v) d -> Dict.get k d = Some v.
Proof.
  induction d as [| [k' v'] d IH]; [intros _ [] |].
  cbn [map fst Dict.get]. intros Hnd Hin.
  apply NoDup_cons_iff in Hnd as [Hnotin Hnd].
  destruct Hin as [[= -> ->] | Hin].
  - now rewrite String.eqb_refl.
  - destruct (String.eqb_spec k k') as [-> | Hne]; [| now apply IH].
    exfalso. apply Hnotin. apply in_map_iff. now exists (k', v).
Qed.

(** The loop only sets keys: a dictionary without repeated keys stays
    one. *)
Lemma loop_nodup (rec : value -> value -> value -> M dict)
    (model inc exc : value) (props : list (string * property)) :
  forall output h d h',
    ConvertToDict_loop classes rec model inc exc props output h = (Ok d, h') ->
    List.NoDup (map fst output) -> List.NoDup (map fst d).
Proof.
  induction props as [| [key prop] rest IH]; intros output h d h' H Hnd.
  - cbn in H. now injection H as <- _.
  - cbn [ConvertToDict_loop] in H.
    apply bind_ok in H as (skip1 & h1 & _ & H).
    destruct skip1; [now apply (IH _ _ _ _ H) |].
    apply bind_ok in H as (skip2 & h2 & _ & H).
    destruct skip2; [now apply (IH _ _ _ _ H) |].
    apply bind_ok in H as (v & h3 & _ & H).
    destruct (is_simple v); [apply (IH _ _ _ _ H); now apply nodup_set |].
    destruct v; try (apply (IH _ _ _ _ H); now apply nodup_set);
      apply bind_ok in H as (m & ? & _ & H);
      (destruct m;
       [ apply bind_ok in H as (? & ? & _ & H);
         apply (IH _ _ _ _ H); now apply nodup_set
       | try discriminate ]).
    destruct (String.eqb cls UserProperty); discriminate.
Qed.

Lemma convert_simple (depth : nat) (l : loc) (o : pyobj) (c : pyclass)
    (inc exc : option (list string)) (h : heap) :
  h !! l = Some o ->
  classes (obj_class o) = Some c ->
  cls_is_model c = true ->
  Dict.get "properties" (obj_attrs o) = None ->
  (forall key prop, In (key, prop) (cls_properties c) ->
     exists v, Dict.get key (obj_attrs o) = Some v /\ is_simple v = true) ->
  exists output,
    ConvertToDict classes (S depth) (VRef l) (fields_value inc) (fields_value exc) h
      = (Ok output, h) /\
    List.NoDup (map fst output) /\
    forall key,
      Dict.get key output
      = if selected inc exc key
           && existsb (String.eqb key) (map fst (cls_properties c))
        then Dict.get key (obj_attrs o) else None.
Proof.
  intros Hl Hc Hm Hp Hsimple.
  destruct (loop_simple classes l o h inc exc Hl (ConvertToDict classes depth)
              (cls_properties c) Hsimple []) as (output & Hrun & Hget).
  exists output. split; [| split; [| exact Hget]].
  - cbn [ConvertToDict].
    now rewrite (bind_step _ _ _ _ _ (py_properties_model classes l o c h Hl Hc Hm Hp)).
  - apply (loop_nodup _ _ _ _ _ _ _ _ _ Hrun). constructor.
Qed.

End Copy.

(** X11: converting a model with simple fields to a dictionary and that
    dictionary into an object without decode hooks, whose class accepts
    the values of the fields, gives the object the value of every
    declared field of the model. *)
Theorem ConvertFromDict_ConvertToDict (classes : string -> option pyclass)
    (depth : nat) (l l' : loc) (o o' : pyobj) (c : pyclass) (h : heap) :
  h !! l = Some o ->
  classes (obj_class o) = Some c ->
  cls_is_model c = true ->
  Dict.get "properties" (obj_attrs o) = None ->
  (forall key prop, In (key, prop) (cls_properties c) ->
     exists v, Dict.get key (obj_attrs o) = Some v /\ is_simple v = true) ->
  h !! l' = Some o' ->
  no_hooks classes o' ->
  (forall key prop, In (key, prop) (cls_properties c) ->
     forall k', key <> hook_name k') ->
  (forall key prop v, In (key, prop) (cls_properties c) ->
     Dict.get key (obj_attrs o) = Some v -> admits classes o' key v) ->
  exists output h' o'',
    ConvertToDict classes (S depth) (VRef l) VNone VNone h = (Ok output, h) /\
    ConvertFromDict classes (VRef l') (VDict output) no_fields h = (Ok tt, h') /\
    h' !! l' = Some o'' /\
    forall key prop, In (key, prop) (cls_properties c) ->
      Dict.get key (obj_attrs o'') = Dict.get key (obj_attrs o).
Proof.
  intros Hl Hc Hm Hp Hsimple Hl' Hno Hnames Hadm.
  destruct (convert_simple classes depth l o c None None h Hl Hc Hm Hp Hsimple)
    as (output & Hrun & Hnd & Hget).
  assert (forall k v, In (k, v) output ->
            existsb (String.eqb k) (map fst (cls_properties c)) = true) as Hdeclared.
  { intros k v Hin. apply (in_get k v output Hnd) in Hin.
    rewrite Hget in Hin. cbn [selected andb] in Hin.
    destruct (existsb _ _); [reflexivity | discriminate]. }
  assert (forall k v, In (k, v) output -> forall k', k <> hook_name k') as Hkeys.
  { intros k v Hin k'. apply Hdeclared in Hin.
    apply existsb_exists in Hin as (x & Hx & Heq).
    apply String.eqb_eq in Heq. subst x.
    apply in_map_iff in Hx as ([key prop] & <- & Hx). now apply (Hnames key prop). }
  assert (forall k v, In (k, v) output -> existsb (String.eqb k) [] = false ->
            admits classes o' k v) as Hadmits.
  { intros k v Hin _. pose proof (Hdeclared k v Hin) as Hd.
    apply (in_get k v output Hnd) in Hin.
    rewrite Hget, Hd in Hin. cbn [selected andb] in Hin.
    apply existsb_exists in Hd as (x & Hx & Heq).
    apply String.eqb_eq in Heq. subst x.
    apply in_map_iff in Hx as ([key prop] & <- & Hx).
    now apply (Hadm key prop v Hx). }
  exists output,
    (<[l' := mkobj (obj_class o') (obj_key o') (assign [] output (obj_attrs o'))]> h),
    (mkobj (obj_class o') (obj_key o') (assign [] output (obj_attrs o'))).
  split; [exact Hrun |]. split; [| split].
  - unfold ConvertFromDict. cbn [py_items].
    rewrite (bind_step (ret output) _ h h output eq_refl).
    exact (loop_assigns classes l' [] output Hkeys o' h Hl' Hno Hadmits).
  - apply list_lookup_insert_eq. eapply lookup_lt_Some. exact Hl'.
  - intros key prop Hin. cbn [obj_attrs].
    rewrite (get_assign [] output _ key Hnd). cbn [existsb].
    rewrite Hget. cbn [selected andb].
    assert (existsb (String.eqb key) (map fst (cls_properties c)) = true) as ->.
    { apply existsb_exists. exists key. split; [| apply String.eqb_refl].
      apply in_map_iff. now exists (key, prop). }
    destruct (Hsimple key prop Hin) as (v & -> & _). reflexivity.
Qed.

Lemma ConvertFromDict_ConvertToDict_witness :
  exists output h' o'',
    ConvertToDict Sample.classes 1 (VRef 0%nat) VNone VNone
      [Sample.pair; mkobj "Pair" None [("a", VNone); ("b", VNone)]]
      = (Ok output, [Sample.pair; mkobj "Pair" None [("a", VNone); ("b", VNone)]]) /\
    ConvertFromDict Sample.classes (VRef 1%nat) (VDict output) no_fields
      [Sample.pair; mkobj "Pair" None [("a", VNone); ("b", VNone)]] = (Ok tt, h') /\
    h' !! 1%nat = Some o'' /\
    Dict.get "a" (obj_attrs o'') = Some (VInt 1) /\
    Dict.get "b" (obj_attrs o'') = Some (VStr "x").
Proof.
  assert (forall key prop, In (key, prop) (cls_properties Sample.Pair) ->
            exists v, Dict.get key (obj_attrs Sample.pair) = Some v /\
                      is_simple v = true) as Hsimple.
  { intros key prop [[= <- _] | [[= <- _] | []]]; eexists; split; reflexivity. }
  assert (forall key prop, In (key, prop) (cls_properties Sample.Pair) ->
            forall k', key <> hook_name k') as Hnames.
  { intros key prop [[= <- _] | [[= <- _] | []]] k'; discriminate. }
  assert (no_hooks Sample.classes (mkobj "Pair" None [("a", VNone); ("b", VNone)]))
    as Hno by (split; intros k; reflexivity).
  assert (forall key prop v, In (key, prop) (cls_properties Sample.Pair) ->
            Dict.get key (obj_attrs Sample.pair) = Some v ->
            admits Sample.classes (mkobj "Pair" None [("a", VNone); ("b", VNone)])
              key v) as Hadm.
  { intros key prop v [[= <- _] | [[= <- _] | []]] [= <-] _ h; reflexivity. }
  destruct (ConvertFromDict_ConvertToDict Sample.classes 0 0%nat 1%nat Sample.pair
              (mkobj "Pair" None [("a", VNone); ("b", VNone)]) Sample.Pair
              [Sample.pair; mkobj "Pair" None [("a", VNone); ("b", VNone)]]
              eq_refl eq_refl eq_refl eq_refl Hsimple eq_refl Hno Hnames Hadm)
    as (output & h' & o'' & Hto & Hfrom & Hl & Hget).
  exists output, h', o''. split; [exact Hto |]. split; [exact Hfrom |].
  split; [exact Hl |]. split.
  - exact (Hget "a" "<IntegerProperty a>" (or_introl eq_refl)).
  - exact (Hget "b" "<StringProperty b>" (or_intror (or_introl eq_refl))).
Defined.

(** ** A failure in the middle of a dictionary *)

Lemma ConvertFromDict_loop_app (classes : string -> option pyclass)
    (model exclude : value) (a b : dict) (h : heap) :
  ConvertFromDict_loop classes model exclude (a ++ b) h
  = bind (ConvertFromDict_loop classes model exclude a)
         (fun _ => ConvertFromDict_loop classes model exclude b) h.
Proof.
  revert h. induction a as [| [k v] a IH]; intros h; [reflexivity |].
  cbn [app ConvertFromDict_loop].
  destruct (ConvertFromDict_step classes model exclude k v h) as [[[] | e] h1] eqn:E.
  - rewrite (bind_step _ _ _ _ _ E), IH.
    unfold bind at 2. unfold bind at 2. now rewrite E.
  - rewrite (bind_raise _ _ _ _ _ E).
    unfold bind at 1. unfold bind at 1. now rewrite E.
Qed.

(** X12: when the conversion fails at a key, the keys before it stay
    applied and the keys after it are not visited: the result is the
    exception and the heap the failing step left. *)
Theorem ConvertFromDict_no_rollback (classes : string -> option pyclass)
    (model exclude : value) (a b : dict) (k : string) (v : value)
    (h h1 h2 : heap) (e : exn) :
  ConvertFromDict classes model (VDict a) exclude h = (Ok tt, h1) ->
  ConvertFromDict_step classes model exclude k v h1 = (Raise e, h2) ->
  ConvertFromDict classes model (VDict (a ++ (k, v) :: b)) exclude h = (Raise e, h2).
Proof.
  unfold ConvertFromDict. cbn [py_items]. intros Ha Hstep.
  rewrite (bind_step (ret a) _ h h a eq_refl) in Ha.
  rewrite (bind_step (ret (a ++ (k, v) :: b)%list) _ h h _ eq_refl).
  rewrite ConvertFromDict_loop_app.
  rewrite (bind_step _ _ _ _ _ Ha). cbn [ConvertFromDict_loop].
  now rewrite (bind_raise _ _ _ _ _ Hstep).
Qed.

Lemma ConvertFromDict_no_rollback_witness :
  ConvertFromDict Example.classes (VRef 0%nat)
    (VDict [("type", VStr "ping"); ("timestamp", VStr "yesterday");
            ("success", VBool true)])
    no_fields [mkobj "Measurement" None [("type", VNone); ("timestamp", VNone)]]
  = (Raise (ValueError "time data does not match format"),
     [mkobj "Measurement" None [("type", VStr "ping"); ("timestamp", VNone)]]).
Proof.
  exact (ConvertFromDict_no_rollback Example.classes (VRef 0%nat) no_fields
           [("type", VStr "ping")] [("success", VBool true)]
           "timestamp" (VStr "yesterday")
           [mkobj "Measurement" None [("type", VNone); ("timestamp", VNone)]]
           [mkobj "Measurement" None [("type", VStr "ping"); ("timestamp", VNone)]]
           [mkobj "Measurement" None [("type", VStr "ping"); ("timestamp", VNone)]]
           (ValueError "time data does not match format") eq_refl eq_refl).
Defined.

(** ** Every key of the dictionary *)






(** * Further properties of the controller *)

(** ** Keys of the datastore *)

Lemma dskey_eqb_eq (a b : dskey) : dskey_eqb a b = true -> a = b.
Proof.
  destruct a, b; cbn [dskey_eqb]; try discriminate;
    intros H; apply andb_true_iff in H as [H1 H2];
    apply String.eqb_eq in H1; subst.
  - apply String.eqb_eq in H2. now subst.
  - apply Z.eqb_eq in H2. now subst.
Qed.

Lemma nodup_snoc {A} (l : list A) (k : A) :
  List.NoDup l -> ~ In k l -> List.NoDup (l ++ [k]).
Proof.
  induction l as [| x xs IH]; cbn [app]; intros Hnd Hnotin.
  - constructor; [intros [] | constructor].
  - apply NoDup_cons_iff in Hnd as [Hx Hxs]. constructor.
    + rewrite in_app_iff. intros [Hin | [<- | []]]; [now apply Hx |].
      apply Hnotin. now left.
    + apply IH; [exact Hxs |]. intros Hin. apply Hnotin. now right.
Qed.

Lemma find_none_notin (k : dskey) (s : list entity) :
  find_entity k s = None -> ~ In k (keys s).
Proof.
  induction s as [| e s IH]; [intros _ [] |].
  cbn [find_entity keys map]. destruct (dskey_eqb k (ent_key e)) eqn:E; [discriminate |].
  intros Hf [Heq | Hin].
  - rewrite Heq, dskey_eqb_refl in E. discriminate.
  - now apply IH.
Qed.

Lemma find_some_key (k : dskey) (s : list entity) (e : entity) :
  find_entity k s = Some e -> ent_key e = k /\ In e s.
Proof.
  induction s as [| e' s IH]; [discriminate |].
  cbn [find_entity]. destruct (dskey_eqb k (ent_key e')) eqn:E.
  - intros [= <-]. split; [symmetry; now apply dskey_eqb_eq | now left].
  - intros Hf. destruct (IH Hf) as [Hk Hin]. split; [exact Hk | now right].
Qed.

Lemma store_grows_refl (s : list entity) : store_grows s s.
Proof. split; auto. Qed.

Lemma store_grows_trans (s1 s2 s3 : list entity) :
  store_grows s1 s2 -> store_grows s2 s3 -> store_grows s1 s3.
Proof. intros [H1 N1] [H2 N2]. split; auto. Qed.

Lemma store_grows_snoc (s : list entity) (e : entity) :
  ~ In (ent_key e) (keys s) -> store_grows s (s ++ [e]).
Proof.
  intros Hnotin. unfold store_grows, keys. rewrite map_app. cbn [map]. split.
  - intros k Hin. apply in_app_iff. now left.
  - intros Hnd. now apply nodup_snoc.
Qed.

Lemma store_grows_upsert (s : list entity) (e : entity) :
  store_grows s (upsert e s).
Proof.
  assert (keys (upsert e s) = keys s \/
          (keys (upsert e s) = (keys s ++ [ent_key e])%list /\
           ~ In (ent_key e) (keys s))) as [Hk | [Hk Hnotin]].
  { induction s as [| e' s IH]; cbn [upsert keys map].
    - right. split; [reflexivity | intros []].
    - destruct (dskey_eqb (ent_key e) (ent_key e')) eqn:E; cbn [map].
      + left. apply dskey_eqb_eq in E. now rewrite E.
      + destruct IH as [IH | [IH Hn]]; unfold keys in *.
        * left. now rewrite IH.
        * right. split; [now rewrite IH |].
          intros [Heq | Hin]; [| now apply Hn].
          rewrite Heq, dskey_eqb_refl in E. discriminate. }
  - unfold store_grows. rewrite Hk. split; auto.
  - unfold store_grows. rewrite Hk. split.
    + intros k Hin. apply in_app_iff. now left.
    + intros Hnd. now apply nodup_snoc.
Qed.

Section Grows.

Variable classes : string -> option pyclass.

Lemma grows_ret {A} (a : A) : grows (ret a).
Proof. intros w. apply store_grows_refl. Qed.

Lemma grows_raise {A} (e : exn) : grows (@raise world A e).
Proof. intros w. apply store_grows_refl. Qed.

Lemma grows_lift {A} (r : result A) : grows (lift_result r).
Proof. intros w. apply store_grows_refl. Qed.

Lemma grows_bind {A B} (c : Handler A) (k : A -> Handler B) :
  grows c -> (forall a, grows (k a)) -> grows (bind c k).
Proof.
  intros Hc Hk w. unfold bind. specialize (Hc w).
  destruct (c w) as [[a | e] w1]; cbn [snd] in *.
  - eapply store_grows_trans; [exact Hc | apply Hk].
  - exact Hc.
Qed.

Lemma grows_on_heap {A} (c : M A) : grows (on_heap c).
Proof.
  intros w. unfold on_heap. destruct (c (w_heap w)). apply store_grows_refl.
Qed.

Lemma grows_logging (text : string) (shown : value) : grows (logging_info text shown).
Proof. intros w. apply store_grows_refl. Qed.

Lemma grows_set_header (name v : string) : grows (set_header name v).
Proof. intros w. apply store_grows_refl. Qed.

Lemma grows_out_write (c : chunk) : grows (out_write c).
Proof. intros w. apply store_grows_refl. Qed.

Lemma grows_db_put (x : value) : grows (db_put x).
Proof.
  intros w. destruct x; try apply store_grows_refl. unfold db_put.
  destruct (w_heap w !! l) as [o |]; [| apply store_grows_refl].
  destruct (stored_attrs (w_heap w) (obj_attrs o)); [| apply store_grows_refl].
  destruct (obj_key o); cbn [snd set_heap set_store w_store];
    apply store_grows_upsert.
Qed.

Lemma grows_new_instance (kind : string) : grows (new_instance classes kind).
Proof.
  apply grows_bind; [apply grows_on_heap | intros l; apply grows_ret].
Qed.

Lemma grows_get_or_insert (kind key_name : string) :
  grows (get_or_insert classes kind key_name).
Proof.
  intros w. unfold get_or_insert.
  destruct (find_entity (KName kind key_name) (w_store w)) eqn:E;
    cbn [alloc snd set_heap set_store w_store w_heap].
  - apply store_grows_refl.
  - apply store_grows_snoc. now apply find_none_notin.
Qed.

Lemma grows_key_of (x : value) : grows (key_of x).
Proof.
  intros w. destruct x; try apply store_grows_refl. unfold key_of.
  destruct (w_heap w !! l) as [o |]; [| apply store_grows_refl].
  destruct (obj_key o); apply store_grows_refl.
Qed.

Lemma grows_GetLatestDeviceProperties (device_info : value) (create : bool) :
  grows (GetLatestDeviceProperties classes device_info create).
Proof.
  apply grows_bind; [apply grows_key_of |].
  intros k w. cbv beta.
  destruct (last (List.filter (snapshot_of k) (w_store w))) as [e |].
  - apply (grows_bind (on_heap (alloc (instance_of e))) (fun l => ret (VRef l)));
      [apply grows_on_heap | intros l; apply grows_ret].
  - destruct create; [| apply store_grows_refl].
    apply (grows_bind (new_instance classes "DeviceProperties"));
      [apply grows_new_instance |].
    intros dp. apply grows_bind; [apply grows_on_heap |].
    intros _. apply grows_bind; [apply grows_db_put |].
    intros _. apply grows_ret.
Qed.

Lemma grows_entry (globals : list string) (measurement_dict : value) :
  grows (PostMeasurement_entry classes globals measurement_dict).
Proof.
  unfold PostMeasurement_entry.
  apply grows_bind; [apply grows_lift |]. intros device_id.
  apply grows_bind; [apply grows_lift |]. intros text.
  apply grows_bind; [apply grows_logging |]. intros _.
  apply grows_bind.
  { destruct device_id; try apply grows_raise. apply grows_get_or_insert. }
  intros device_info.
  apply grows_bind.
  - unfold PostMeasurement_properties.
    apply grows_bind; [apply grows_lift |]. intros [|].
    + apply grows_bind; [apply grows_new_instance |]. intros dp.
      apply grows_bind; [apply grows_on_heap |]. intros _.
      apply grows_bind; [apply grows_lift |]. intros pd.
      apply grows_bind; [apply grows_on_heap |]. intros _.
      apply grows_bind; [apply grows_lift |]. intros md.
      apply grows_ret.
    + apply grows_bind.
      { unfold load_global. destruct (existsb _ _);
          [apply grows_ret | apply grows_raise]. }
      intros _. apply grows_bind; [apply grows_GetLatestDeviceProperties |].
      intros dp. apply grows_ret.
  - intros st. unfold PostMeasurement_store.
    apply grows_bind; [apply grows_db_put |]. intros _.
    apply grows_bind; [apply grows_new_instance |]. intros m.
    apply grows_bind; [apply grows_on_heap |]. intros _.
    apply grows_bind; [apply grows_on_heap |]. intros _.
    apply grows_bind; [apply grows_db_put |]. intros _.
    apply grows_bind; [apply grows_logging |]. intros _.
    apply grows_bind; [apply grows_on_heap |]. intros shown.
    apply grows_logging.
Qed.

Lemma grows_loop (globals : list string) (entries : list value) :
  grows (PostMeasurement_loop classes globals entries).
Proof.
  induction entries as [| e rest IH]; [apply grows_ret |].
  cbn [PostMeasurement_loop].
  apply grows_bind; [apply grows_entry | intros _; exact IH].
Qed.

Lemma grows_PostMeasurement (env : platform) (globals : list string) (req : request) :
  grows (PostMeasurement_in classes env globals req).
Proof.
  unfold PostMeasurement_in.
  destruct (negb _); [apply grows_raise |].
  apply grows_bind; [apply grows_logging |]. intros _.
  apply grows_bind; [apply grows_logging |]. intros _.
  apply grows_bind; [apply grows_lift |]. intros measurement_list.
  apply grows_bind; [apply grows_lift |]. intros entries.
  apply grows_bind; [apply grows_loop |]. intros _.
  apply grows_bind; [apply grows_set_header |]. intros _.
  apply grows_bind; [apply grows_lift |]. intros body.
  apply grows_out_write.
Qed.

End Grows.

(** X13: the submission handler never removes an entity: a key that is
    stored before the request is stored after it, whether the request
    succeeds or fails. *)
Theorem PostMeasurement_keeps_keys (classes : string -> option pyclass)
    (env : platform) (req : request) (w : world) (k : dskey) :
  In k (keys (w_store w)) ->
  In k (keys (w_store (snd (PostMeasurement classes env req w)))).
Proof.
  intros Hin.
  exact (proj1 (grows_PostMeasurement classes env module_globals req w) k Hin).
Qed.

Lemma PostMeasurement_keeps_keys_witness :
  In (KName "DeviceInfo" "d0")
     (keys (w_store (snd (PostMeasurement Example.classes Example.env Example.post
                            known_device)))).
Proof.
  exact (PostMeasurement_keeps_keys Example.classes Example.env Example.post
           known_device (KName "DeviceInfo" "d0") (or_introl eq_refl)).
Defined.

(** X14: the submission handler never stores a key twice: when the keys
    of the datastore are distinct before the request they are distinct
    after it, so that a device id has at most one DeviceInfo. *)
Theorem PostMeasurement_distinct_keys (classes : string -> option pyclass)
    (env : platform) (req : request) (w : world) :
  List.NoDup (keys (w_store w)) ->
  List.NoDup (keys (w_store (snd (PostMeasurement classes env req w)))).
Proof.
  intros Hnd.
  exact (proj2 (grows_PostMeasurement classes env module_globals req w) Hnd).
Qed.

Lemma PostMeasurement_distinct_keys_witness :
  List.NoDup (keys (w_store (snd (PostMeasurement Example.classes Example.env
                                    Example.post known_device)))).
Proof.
  apply (PostMeasurement_distinct_keys Example.classes Example.env Example.post
           known_device).
  constructor; [intros [] | constructor].
Defined.

Section GetOrInsert.

Variable classes : string -> option pyclass.

Lemma get_or_insert_found (kind key_name : string) (w : world) (e : entity) :
  find_entity (KName kind key_name) (w_store w) = Some e ->
  get_or_insert classes kind key_name w
  = (Ok (VRef (List.length (w_heap w))),
     set_heap w (w_heap w ++ [instance_of e])%list).
Proof.
  intros E. unfold get_or_insert. rewrite E. cbn [alloc].
  now destruct w.
Qed.

Lemma get_or_insert_new (kind key_name : string) (w : world) :
  find_entity (KName kind key_name) (w_store w) = None ->
  let e := mkent (KName kind key_name)
             match classes kind with
             | Some c => cls_defaults c
             | None => []
             end in
  get_or_insert classes kind key_name w
  = (Ok (VRef (List.length (w_heap w))),
     set_heap (set_store w (w_store w ++ [e])%list (w_next_id w))
              (w_heap w ++ [instance_of e])%list).
Proof. intros E. unfold get_or_insert. rewrite E. reflexivity. Qed.

Lemma find_snoc (s : list entity) (e : entity) :
  find_entity (ent_key e) s = None -> find_entity (ent_key e) (s ++ [e]) = Some e.
Proof.
  induction s as [| e' s IH]; cbn [find_entity app].
  - now rewrite dskey_eqb_refl.
  - destruct (dskey_eqb (ent_key e) (ent_key e')); [discriminate | exact IH].
Qed.

End GetOrInsert.

(** [get_or_insert] is idempotent: it returns an instance with the
    key asked for, after it the key is stored, and a second call with
    the same key name leaves the datastore as the first call left it. *)
Theorem get_or_insert_idempotent (classes : string -> option pyclass)
    (kind key_name : string) (w : world) :
  let k := KName kind key_name in
  let w1 := snd (get_or_insert classes kind key_name w) in
  (exists l o, fst (get_or_insert classes kind key_name w) = Ok (VRef l) /\
               w_heap w1 !! l = Some o /\ obj_key o = Some k) /\
  (exists e, find_entity k (w_store w1) = Some e) /\
  w_store (snd (get_or_insert classes kind key_name w1)) = w_store w1.
Proof.
  cbv zeta.
  destruct (find_entity (KName kind key_name) (w_store w)) as [e |] eqn:E.
  - rewrite (get_or_insert_found classes kind key_name w e E).
    cbn [fst snd]. split; [| split].
    + exists (List.length (w_heap w)), (instance_of e). split; [reflexivity |].
      split; [cbn [w_heap set_heap];
              now rewrite lookup_app_r, Nat.sub_diag by reflexivity |].
      cbn [instance_of obj_key]. f_equal. apply (find_some_key _ _ _ E).
    + now exists e.
    + now rewrite (get_or_insert_found classes kind key_name
                     (set_heap w (w_heap w ++ [instance_of e])%list) e E).
  - rewrite (get_or_insert_new classes kind key_name w E).
    cbv zeta. cbn [fst snd].
    set (e := mkent (KName kind key_name)
                match classes kind with
                | Some c => cls_defaults c
                | None => []
                end).
    pose proof (find_snoc (w_store w) e E) as Hfound.
    split; [| split].
    + exists (List.length (w_heap w)), (instance_of e). split; [reflexivity |].
      split; [cbn [w_heap set_heap];
              now rewrite lookup_app_r, Nat.sub_diag by reflexivity
             | reflexivity].
    + now exists e.
    + now rewrite (get_or_insert_found classes kind key_name
                     (set_heap (set_store w (w_store w ++ [e])%list (w_next_id w))
                               (w_heap w ++ [instance_of e])%list) e Hfound).
Qed.

(** X15: a batch is not undone: what an entry has stored stays stored
    when a later entry of the same batch fails. *)
Theorem PostMeasurement_loop_no_rollback (classes : string -> option pyclass)
    (globals : list string) (entry : value) (rest : list value)
    (w w1 : world) (k : dskey) :
  PostMeasurement_entry classes globals entry w = (Ok tt, w1) ->
  In k (keys (w_store w1)) ->
  In k (keys (w_store (snd (PostMeasurement_loop classes globals (entry :: rest) w)))).
Proof.
  intros Hentry Hin. cbn [PostMeasurement_loop].
  rewrite (bind_step _ _ _ _ _ Hentry).
  exact (proj1 (grows_loop classes globals rest w1) k Hin).
Qed.

Lemma PostMeasurement_loop_no_rollback_witness :
  In (KId "Measurement" 2)
     (keys (w_store (snd (PostMeasurement_loop Example.classes module_globals
                            [VDict Example.entry1; VDict Example.entry2]
                            empty_world)))) /\
  fst (PostMeasurement_loop Example.classes module_globals
         [VDict Example.entry1; VDict Example.entry2] empty_world)
  = Raise (NameError "device").
Proof.
  split; [| vm_compute; reflexivity].
  apply (PostMeasurement_loop_no_rollback Example.classes module_globals
           (VDict Example.entry1) [VDict Example.entry2] empty_world
           (snd (PostMeasurement_entry Example.classes module_globals
                   (VDict Example.entry1) empty_world))).
  - vm_compute. reflexivity.
  - vm_compute. right. right. left. reflexivity.
Defined.

(** ** The response of the submission handler *)

Section Quiet.

Variable classes : string -> option pyclass.

Lemma quiet_ret {A} (a : A) : quiet (ret a).
Proof. intros w. reflexivity. Qed.

Lemma quiet_raise {A} (e : exn) : quiet (@raise world A e).
Proof. intros w. reflexivity. Qed.

Lemma quiet_lift {A} (r : result A) : quiet (lift_result r).
Proof. intros w. reflexivity. Qed.

Lemma quiet_bind {A B} (c : Handler A) (k : A -> Handler B) :
  quiet c -> (forall a, quiet (k a)) -> quiet (bind c k).
Proof.
  intros Hc Hk w. unfold bind. specialize (Hc w).
  destruct (c w) as [[a | e] w1]; cbn [snd] in *.
  - now rewrite Hk.
  - exact Hc.
Qed.

Lemma quiet_on_heap {A} (c : M A) : quiet (on_heap c).
Proof. intros w. unfold on_heap. destruct (c (w_heap w)); reflexivity. Qed.

Lemma quiet_logging (text : string) (shown : value) : quiet (logging_info text shown).
Proof. intros w. reflexivity. Qed.

Lemma quiet_db_put (x : value) : quiet (db_put x).
Proof.
  intros w. destruct x; try reflexivity. unfold db_put.
  destruct (w_heap w !! l) as [o |]; [| reflexivity].
  destruct (stored_attrs (w_heap w) (obj_attrs o)); [| reflexivity].
  destruct (obj_key o); reflexivity.
Qed.

Lemma quiet_new_instance (kind : string) : quiet (new_instance classes kind).
Proof. apply quiet_bind; [apply quiet_on_heap | intros l; apply quiet_ret]. Qed.

Lemma quiet_get_or_insert (kind key_name : string) :
  quiet (get_or_insert classes kind key_name).
Proof.
  intros w. unfold get_or_insert.
  destruct (find_entity (KName kind key_name) (w_store w)); reflexivity.
Qed.

Lemma quiet_key_of (x : value) : quiet (key_of x).
Proof.
  intros w. destruct x; try reflexivity. unfold key_of.
  destruct (w_heap w !! l) as [o |]; [| reflexivity].
  destruct (obj_key o); reflexivity.
Qed.

Lemma quiet_GetLatestDeviceProperties (device_info : value) (create : bool) :
  quiet (GetLatestDeviceProperties classes device_info create).
Proof.
  apply quiet_bind; [apply quiet_key_of |].
  intros k w. cbv beta.
  destruct (last (List.filter (snapshot_of k) (w_store w))) as [e |].
  - apply (quiet_bind (on_heap (alloc (instance_of e))) (fun l => ret (VRef l)));
      [apply quiet_on_heap | intros l; apply quiet_ret].
  - destruct create; [| reflexivity].
    apply (quiet_bind (new_instance classes "DeviceProperties"));
      [apply quiet_new_instance |].
    intros dp. apply quiet_bind; [apply quiet_on_heap |].
    intros _. apply quiet_bind; [apply quiet_db_put |].
    intros _. apply quiet_ret.
Qed.

Lemma quiet_entry (globals : list string) (measurement_dict : value) :
  quiet (PostMeasurement_entry classes globals measurement_dict).
Proof.
  unfold PostMeasurement_entry.
  apply quiet_bind; [apply quiet_lift |]. intros device_id.
  apply quiet_bind; [apply quiet_lift |]. intros text.
  apply quiet_bind; [apply quiet_logging |]. intros _.
  apply quiet_bind.
  { destruct device_id; try apply quiet_raise. apply quiet_get_or_insert. }
  intros device_info.
  apply quiet_bind.
  - unfold PostMeasurement_properties.
    apply quiet_bind; [apply quiet_lift |]. intros [|].
    + apply quiet_bind; [apply quiet_new_instance |]. intros dp.
      apply quiet_bind; [apply quiet_on_heap |]. intros _.
      apply quiet_bind; [apply quiet_lift |]. intros pd.
      apply quiet_bind; [apply quiet_on_heap |]. intros _.
      apply quiet_bind; [apply quiet_lift |]. intros md.
      apply quiet_ret.
    + apply quiet_bind.
      { unfold load_global. destruct (existsb _ _);
          [apply quiet_ret | apply quiet_raise]. }
      intros _. apply quiet_bind; [apply quiet_GetLatestDeviceProperties |].
      intros dp. apply quiet_ret.
  - intros st. unfold PostMeasurement_store.
    apply quiet_bind; [apply quiet_db_put |]. intros _.
    apply quiet_bind; [apply quiet_new_instance |]. intros m.
    apply quiet_bind; [apply quiet_on_heap |]. intros _.
    apply quiet_bind; [apply quiet_on_heap |]. intros _.
    apply quiet_bind; [apply quiet_db_put |]. intros _.
    apply quiet_bind; [apply quiet_logging |]. intros _.
    apply quiet_bind; [apply quiet_on_heap |]. intros shown.
    apply quiet_logging.
Qed.

Lemma quiet_loop (globals : list string) (entries : list value) :
  quiet (PostMeasurement_loop classes globals entries).
Proof.
  induction entries as [| e rest IH]; [apply quiet_ret |].
  cbn [PostMeasurement_loop].
  apply quiet_bind; [apply quiet_entry | intros _; exact IH].
Qed.

Lemma answers_bind {A} (c : Handler A) (k : A -> Handler unit) :
  quiet c -> (forall a, answers (k a)) -> answers (bind c k).
Proof.
  intros Hc Hk w. unfold bind. specialize (Hc w).
  destruct (c w) as [[a | e] w1]; cbn [fst snd] in *.
  - destruct (Hk a w1) as [Hok Hraise]. split.
    + intros H. rewrite (Hok H). unfold success_response, response_of in *.
      now injection Hc as -> -> ->.
    + intros e H. now rewrite (Hraise e H).
  - split; [discriminate | intros _ _; exact Hc].
Qed.

Lemma answers_raise (e : exn) : answers (raise e).
Proof. intros w. split; [discriminate | reflexivity]. Qed.

Lemma answers_tail :
  answers (set_header "Content-Type" "application/json" ;;;
           body <~ lift_result (json_dumps (VDict [("success", VBool true)])) ;;
           out_write (Text body)).
Proof. intros w. split; [reflexivity | discriminate]. Qed.

End Quiet.

(** X16: the submission handler writes its response at the end and in
    one piece: when it returns, the status is untouched, the content
    type has been replaced by [application/json] and the success text
    has been added to the body; when it raises, the response is as it
    was before the request. *)
Theorem PostMeasurement_response (classes : string -> option pyclass)
    (env : platform) (req : request) (w : world) :
  let r := PostMeasurement classes env req w in
  (fst r = Ok tt -> response_of (snd r) = success_response w) /\
  (forall e, fst r = Raise e -> response_of (snd r) = response_of w).
Proof.
  cbv zeta. revert w. change (answers (PostMeasurement classes env req)).
  unfold PostMeasurement, PostMeasurement_in.
  destruct (negb _); [apply answers_raise |].
  apply answers_bind; [apply quiet_logging |]. intros _.
  apply answers_bind; [apply quiet_logging |]. intros _.
  apply answers_bind; [apply quiet_lift |]. intros measurement_list.
  apply answers_bind; [apply quiet_lift |]. intros entries.
  apply answers_bind; [apply quiet_loop |]. intros _.
  apply answers_tail.
Qed.

(** The empty batch returns and replaces the content type of the
    untouched response; the batch of the example raises and leaves it. *)
Lemma PostMeasurement_response_witness :
  response_of (snd (PostMeasurement Example.classes empty_platform
                      (mkreq "POST" "[]" []) empty_world))
  = (200, [("Cache-Control", "no-cache"); ("Content-Type", "application/json")],
     [Text success_body]) /\
  response_of (snd (PostMeasurement Example.classes Example.env Example.post
                      empty_world))
  = response_of empty_world.
Proof.
  split.
  - exact (proj1 (PostMeasurement_response Example.classes empty_platform
                    (mkreq "POST" "[]" []) empty_world) eq_refl).
  - apply (proj2 (PostMeasurement_response Example.classes Example.env Example.post
                    empty_world) (NameError "device")).
    vm_compute. reflexivity.
Defined.

(** X17: an empty batch is a success: both log lines are written, the
    content type of the response is replaced, whatever its case was, and
    the success body is written; the datastore and the heap are not
    touched. *)
Theorem PostMeasurement_empty_batch (classes : string -> option pyclass)
    (env : platform) (req : request) (w : world) :
  lower (req_method req) = "post" ->
  json_loads env (req_body req) = Ok (VList []) ->
  PostMeasurement classes env req w
  = (Ok tt,
     mkworld (w_heap w) (w_store w) (w_next_id w)
       ((w_log w ++ [("PostMeasurement: request is ", VNone)])
          ++ [("PostMeasurement: body is " +:+ req_body req, VNone)])%list
       (w_status w)
       (List.filter (fun kv => negb (String.eqb (lower (fst kv)) "content-type"))
                    (w_headers w)
        ++ [("Content-Type", "application/json")])%list
       (w_out w ++ [Text success_body])%list).
Proof.
  intros Hpost Hbody. unfold PostMeasurement, PostMeasurement_in.
  rewrite Hpost. cbn [String.eqb negb].
  unfold bind at 1. cbn [logging_info].
  unfold bind at 1. cbn [logging_info].
  unfold bind at 1. cbn [lift_result]. rewrite Hbody.
  reflexivity.
Qed.

Lemma PostMeasurement_empty_batch_witness :
  PostMeasurement Example.classes empty_platform (mkreq "Post" "[]" []) empty_world
  = (Ok tt,
     mkworld [] [] 1
       [("PostMeasurement: request is ", VNone);
        ("PostMeasurement: body is []", VNone)]
       200 [("Cache-Control", "no-cache"); ("Content-Type", "application/json")]
       [Text success_body]).
Proof.
  exact (PostMeasurement_empty_batch Example.classes empty_platform
           (mkreq "Post" "[]" []) empty_world eq_refl eq_refl).
Defined.

(** X18: an entry without [device_id], or with one that is not a string,
    fails before anything is logged or stored for it. *)
Theorem PostMeasurement_entry_device_id (classes : string -> option pyclass)
    (globals : list string) (d : dict) (w : world) :
  (Dict.get "device_id" d = None ->
   PostMeasurement_entry classes globals (VDict d) w
   = (Raise (KeyError "device_id"), w)) /\
  (forall v, Dict.get "device_id" d = Some v ->
     (forall s, v <> VStr s) ->
     exists msg,
       PostMeasurement_entry classes globals (VDict d) w = (Raise (TypeError msg), w)).
Proof.
  split.
  - intros Hnone. unfold PostMeasurement_entry, bind, lift_result.
    cbn [py_getitem]. unfold Dict.getitem. now rewrite Hnone.
  - intros v Hv Hns. unfold PostMeasurement_entry.
    unfold bind at 1. cbn [lift_result py_getitem]. unfold Dict.getitem. rewrite Hv.
    unfold bind at 1. cbn [lift_result].
    destruct v; try (eexists; reflexivity).
    exfalso. now apply (Hns s).
Qed.

Lemma PostMeasurement_entry_device_id_witness :
  PostMeasurement_entry Example.classes module_globals
    (VDict [("type", VStr "ping")]) empty_world
  = (Raise (KeyError "device_id"), empty_world).
Proof.
  exact (proj1 (PostMeasurement_entry_device_id Example.classes module_globals
                  [("type", VStr "ping")] empty_world) eq_refl).
Defined.

(** ** Failures of the detail page *)

(** X19: when the id is not an integer, or is one that cannot be looked
    up, the [finally] block fails on the unbound [measurement]: the
    handler raises [UnboundLocalError] in the place of the exception of
    the [try] block, and nothing is rendered.  When the lookup returns
    and nobody is signed in, it raises on [email()] and nothing is
    rendered either. *)
Theorem MeasurementDetail_failures (env : platform) (req : request) (w : world) :
  let measid := request_get (req_params req) "id" in
  (forall e, unicode_int measid = Raise e ->
     MeasurementDetail env req w = (Raise (UnboundLocalError "measurement"), w)) /\
  (forall id e, unicode_int measid = Ok id -> check_id id = Raise e ->
     MeasurementDetail env req w = (Raise (UnboundLocalError "measurement"), w)) /\
  (forall id, unicode_int measid = Ok id -> check_id id = Ok tt ->
     current_user env = None ->
     fst (MeasurementDetail env req w) = Raise (AttributeError "email") /\
     response_of (snd (MeasurementDetail env req w)) = response_of w).
Proof.
  cbv zeta. split; [| split].
  - intros e He. unfold MeasurementDetail, MeasurementDetail_try. now rewrite He.
  - intros id e Hid Hcheck. unfold MeasurementDetail, MeasurementDetail_try.
    now rewrite Hid, (get_by_id_refused "Measurement" id w e Hcheck).
  - intros id Hid Hcheck Huser.
    unfold MeasurementDetail, MeasurementDetail_try, MeasurementDetail_finally,
      current_user_email.
    rewrite Hid, Huser, (get_by_id_checked "Measurement" id w Hcheck).
    destruct (find_entity (KId "Measurement" id) (w_store w)); split; reflexivity.
Qed.

Lemma MeasurementDetail_failures_witness :
  MeasurementDetail Example.env (mkreq "GET" EmptyString [("id", "0")]) empty_world
  = (Raise (UnboundLocalError "measurement"), empty_world).
Proof.
  exact (proj1 (proj2 (MeasurementDetail_failures Example.env
                         (mkreq "GET" EmptyString [("id", "0")]) empty_world))
           0 (BadKeyError "Key is not complete.") eq_refl eq_refl).
Defined.

(** X20: the detail page only reads: whatever the request, the datastore,
    the log, the status and the headers are as before, and the body has
    at most one more piece, the rendered detail template. *)
Theorem MeasurementDetail_frame (env : platform) (req : request) (w : world) :
  let w' := snd (MeasurementDetail env req w) in
  w_store w' = w_store w /\
  w_next_id w' = w_next_id w /\
  w_log w' = w_log w /\
  w_status w' = w_status w /\
  w_headers w' = w_headers w /\
  (w_out w' = w_out w \/
   exists args, w_out w' = (w_out w ++ [Rendered detail_template args])%list).
Proof.
  cbv zeta.
  unfold MeasurementDetail, MeasurementDetail_try, MeasurementDetail_finally,
    current_user_email.
  destruct (unicode_int _) as [id | e].
  - destruct (check_id id) as [[] | e] eqn:Hcheck.
    + rewrite (get_by_id_checked "Measurement" id w Hcheck).
      destruct (find_entity (KId "Measurement" id) (w_store w));
        destruct (current_user env);
        repeat split; try reflexivity;
        solve [ left; reflexivity | right; eexists; reflexivity ].
    + rewrite (get_by_id_refused "Measurement" id w e Hcheck).
      repeat split; try reflexivity. left. reflexivity.
  - repeat split; try reflexivity. left. reflexivity.
Qed.

(** ** The link from a measurement to its snapshot *)

Section Keyed.

Variable classes : string -> option pyclass.
Hypothesis Hhooks : hooks_keep_others classes.

Lemma bound_method_keeps (o : pyobj) (hook : string) (m : method) :
  lookup_attr classes o hook = Some (Bound m) -> keeps_others m.
Proof.
  unfold lookup_attr, class_of.
  destruct (Dict.get hook (obj_attrs o)); [discriminate |].
  destruct (classes (obj_class o)) as [c |] eqn:Hc.
  - destruct (find_method hook (cls_methods c)) as [m0 |] eqn:Hm; [| discriminate].
    intros [= <-]. exact (Hhooks _ _ _ _ Hc Hm).
  - cbn [cls_methods find_method]. discriminate.
Qed.

Lemma keyed_insert_ne (k : dskey) (l l' : loc) (o : pyobj) (h : heap) :
  l <> l' -> keyed k l h -> keyed k l (<[l' := o]> h).
Proof.
  intros Hne (o0 & Hl & Hk). exists o0. split; [| exact Hk].
  rewrite list_lookup_insert_ne by (intros ->; now apply Hne). exact Hl.
Qed.

Lemma store_keyed (k : dskey) (l self : loc) (name : string) (v : value)
    (h : heap) :
  l <> self -> keyed k l h ->
  keyed k l (snd (store_attr self name v h)).
Proof.
  intros Hne Hk. unfold store_attr, bind, get_obj.
  destruct (h !! self) as [o |]; [| exact Hk].
  cbn [put_obj snd]. now apply keyed_insert_ne.
Qed.

Lemma property_set_keyed (validate : validator) (k : dskey) (l self : loc)
    (name : string) (v : value) (h : heap) :
  l <> self -> keyed k l h ->
  keyed k l (snd (property_set validate self name v h)).
Proof.
  intros Hne Hk. unfold property_set. unfold bind at 1.
  destruct (validate h v) as [[] | e]; [| exact Hk].
  now apply store_keyed.
Qed.

Lemma setattr_keyed (k : dskey) (l self : loc) (name : string) (v : value)
    (h : heap) :
  l <> self -> keyed k l h ->
  keyed k l (snd (py_setattr classes (VRef self) name v h)).
Proof.
  intros Hne Hk. unfold py_setattr. unfold bind at 1, get_obj.
  destruct (h !! self) as [o |]; [| exact Hk].
  destruct (declared (class_of classes o) name).
  - now apply property_set_keyed.
  - now apply store_keyed.
Qed.

Lemma step_keyed (k : dskey) (l self : loc) (name : string) (v : value) (h : heap) :
  l <> self -> keyed k l h ->
  keyed k l (snd (ConvertFromDict_step classes (VRef self) no_fields name v h)).
Proof.
  intros Hne Hk. unfold ConvertFromDict_step.
  unfold bind at 1. cbn [lift_result py_in no_fields existsb].
  unfold bind at 1, py_hasattr, bind at 1, get_obj.
  destruct (h !! self) as [o |] eqn:Hl; [| exact Hk].
  cbn [ret].
  destruct (lookup_attr classes o (hook_name name)) as [[d | m] |] eqn:Ha.
  - unfold bind, py_getattr, bind, get_obj. rewrite Hl, Ha. exact Hk.
  - unfold bind at 1, py_getattr, bind at 1, get_obj. rewrite Hl, Ha.
    cbn [ret py_call].
    now apply (bound_method_keeps o (hook_name name) m Ha).
  - now apply setattr_keyed.
Qed.

Lemma loop_keyed (k : dskey) (l self : loc) (items : list (string * value)) :
  l <> self ->
  forall h, keyed k l h ->
  keyed k l (snd (ConvertFromDict_loop classes (VRef self) no_fields items h)).
Proof.
  intros Hne. induction items as [| [name v] items IH]; intros h Hk.
  - exact Hk.
  - cbn [ConvertFromDict_loop]. unfold bind.
    pose proof (step_keyed k l self name v h Hne Hk) as Hs.
    destruct (ConvertFromDict_step classes (VRef self) no_fields name v h)
      as [[[] | e] h1]; cbn [snd] in Hs |- *.
    + now apply IH.
    + exact Hs.
Qed.

Lemma ConvertFromDict_keyed (k : dskey) (l self : loc) (d : value) (h : heap) :
  l <> self -> keyed k l h ->
  keyed k l (snd (ConvertFromDict classes (VRef self) d no_fields h)).
Proof.
  intros Hne Hk. unfold ConvertFromDict, bind.
  destruct d; cbn [py_items ret raise snd]; try exact Hk.
  now apply loop_keyed.
Qed.

End Keyed.

Lemma stored_attrs_get (h : heap) (name : string) (v : value) (d r : dict) :
  stored_attrs h d = Ok r -> Dict.get name d = Some v ->
  exists v', stored_value h v = Ok v' /\ Dict.get name r = Some v'.
Proof.
  revert r. induction d as [| [k0 v0] d IH]; intros r; cbn [stored_attrs].
  - discriminate.
  - destruct (stored_value h v0) as [v0' | e] eqn:Hv0; [| discriminate]. cbn [rbind].
    destruct (stored_attrs h d) as [r0 | e]; [| discriminate]. cbn [rbind].
    intros [= <-]. cbn [Dict.get].
    destruct (String.eqb name k0).
    + intros [= <-]. now exists v0'.
    + now apply IH.
Qed.

(** X21: a stored measurement never points at nothing: when the last
    statements of the loop body return, the entity written for the new
    measurement holds under [device_properties] the key of the snapshot,
    and an entity is stored under that key; this needs that the decode
    hooks of the measurement leave the keys of other instances alone. *)
Theorem PostMeasurement_store_links (classes : string -> option pyclass)
    (device_properties measurement_dict : value) (w w' : world) :
  hooks_keep_others classes ->
  PostMeasurement_store classes device_properties measurement_dict w = (Ok tt, w') ->
  exists ldp kd lm o km e,
    device_properties = VRef ldp /\
    keyed kd ldp (w_heap w') /\
    In kd (keys (w_store w')) /\
    lm = List.length (w_heap w) /\
    w_heap w' !! lm = Some o /\
    obj_key o = Some km /\
    find_entity km (w_store w') = Some e /\
    Dict.get "device_properties" (ent_attrs e) = Some (VKey kd).
Proof.
  intros Hhooks Hstore.
  unfold PostMeasurement_store in Hstore.
  apply bind_ok in Hstore as ([] & wa & Hput0 & Hstore).
  destruct device_properties as [| | | | | | | | | ldp | | |]; try discriminate.
  apply db_put_inv in Hput0 as (odp & attrs0 & kd & Hldp & _ & Hheap0 & Hst0 & _).
  assert (ldp < List.length (w_heap wa))%nat as Hlt.
  { rewrite Hheap0, length_insert. eapply lookup_lt_Some. exact Hldp. }
  assert (keyed kd ldp (w_heap wa)) as Hka.
  { exists (mkobj (obj_class odp) (Some kd) (obj_attrs odp)).
    split; [| reflexivity]. rewrite Hheap0.
    apply list_lookup_insert_eq. eapply lookup_lt_Some. exact Hldp. }
  assert (In kd (keys (w_store wa))) as Hina.
  { rewrite Hst0.
    destruct (find_some_key _ _ _ (find_upsert (mkent kd attrs0) (w_store w)))
      as [_ Hin].
    apply (in_map ent_key) in Hin. exact Hin. }
  apply bind_ok in Hstore as (measurement & wb & Hm & Hstore).
  apply new_instance_inv in Hm as [Hm ->]. injection Hm as ->.
  set (lm := List.length (w_heap wa)) in *.
  assert (ldp <> lm) as Hne by lia.
  apply bind_ok in Hstore as ([] & wc & Hmap & Hstore).
  apply on_heap_inv in Hmap as (hc & Hmap & ->).
  apply bind_ok in Hstore as ([] & wd & Hset & Hstore).
  apply on_heap_inv in Hset as (hd & Hset & ->).
  apply bind_ok in Hstore as ([] & we & Hput & Hstore).
  apply bind_ok in Hstore as ([] & wf & Hlog1 & Hstore).
  apply bind_ok in Hstore as (shown & wg & Hshown & Hlog2).
  apply on_heap_inv in Hshown as (hg & Hshown & ->).
  pose proof (read_only_getattr_value classes (VRef lm) "device_properties"
                (w_heap wf)) as Hro.
  rewrite Hshown in Hro. cbn [snd] in Hro. subst hg.
  unfold logging_info in Hlog1, Hlog2.
  injection Hlog1 as <-. injection Hlog2 as <-.
  apply db_put_inv in Hput as (o & attrs & km & Hl & Hattrs & Hheap & Hst & _).
  cbn [w_heap w_store set_heap] in Hl, Hattrs, Hheap, Hst, Hmap, Hset.
  (* the snapshot keeps its key while the measurement is filled in *)
  assert (keyed kd ldp hc) as Hkc.
  { replace hc with
      (snd (ConvertFromDict classes (VRef lm) measurement_dict no_fields
              (w_heap wa ++ [mkobj "Measurement" None
                 match classes "Measurement" with
                 | Some c => cls_defaults c
                 | None => []
                 end])%list))
      by now rewrite Hmap.
    apply (ConvertFromDict_keyed classes Hhooks); [exact Hne |].
    destruct Hka as (o0 & Ho0 & Hk0). exists o0. split; [| exact Hk0].
    now rewrite lookup_app_l. }
  assert (keyed kd ldp hd) as Hkd.
  { replace hd
      with (snd (py_setattr classes (VRef lm) "device_properties" (VRef ldp) hc))
      by now rewrite Hset.
    now apply setattr_keyed. }
  (* the attribute of the measurement is the reference to the snapshot *)
  assert (Dict.get "device_properties" (obj_attrs o) = Some (VRef ldp)) as Hattr.
  { apply (setattr_inv classes) in Hset as (oc & Hoc & ->).
    rewrite list_lookup_insert_eq in Hl by (eapply lookup_lt_Some; exact Hoc).
    injection Hl as <-. cbn [with_attr obj_attrs]. apply get_set_eq. }
  destruct (stored_attrs_get _ _ _ _ _ Hattrs Hattr) as (v' & Hv' & Hget).
  destruct Hkd as (od & Hod & Hkod).
  cbn [stored_value] in Hv'. rewrite Hod, Hkod in Hv'. injection Hv' as <-.
  exists ldp, kd, lm, (mkobj (obj_class o) (Some km) (obj_attrs o)), km,
    (mkent km attrs).
  cbn [w_heap w_store set_heap set_store obj_key ent_attrs].
  split; [reflexivity |].
  split; [| split; [| split; [| split; [| split; [reflexivity | split]]]]].
  - rewrite Hheap. apply keyed_insert_ne; [exact Hne |]. now exists od.
  - rewrite Hst. apply (proj1 (store_grows_upsert _ _)). exact Hina.
  - subst lm. rewrite Hheap0. apply length_insert.
  - rewrite Hheap. apply list_lookup_insert_eq. eapply lookup_lt_Some. exact Hl.
  - rewrite Hst. apply (find_upsert (mkent km attrs)).
  - exact Hget.
Qed.

(** The methods of the example assign attributes of their own object
    only. *)
Lemma Example_keep_others : hooks_keep_others Example.classes.
Proof.
  intros cls c hook m Hc Hm. unfold Example.classes in Hc.
  repeat match type of Hc with
         | (if ?b then _ else _) = _ => destruct b
         end; try discriminate; injection Hc as <-;
    cbn [cls_methods Example.Thing Example.MeasurementClass find_method] in Hm;
    try discriminate.
  - destruct (String.eqb hook "JSON_DECODE_x"); [| discriminate].
    injection Hm as <-. intros self v h l k Hne Hk.
    now apply store_keyed.
  - destruct (String.eqb hook "JSON_DECODE_timestamp"); [| discriminate].
    injection Hm as <-. intros self v h l k Hne Hk.
    unfold Example.decode_timestamp.
    destruct v; try exact Hk.
    unfold bind, lift_result.
    destruct (StringToTime s); [| exact Hk].
    now apply property_set_keyed.
Qed.

Lemma PostMeasurement_store_links_witness :
  exists w' kd km e,
    PostMeasurement_store Example.classes (VRef 0%nat)
      (VDict [("type", VStr "ping"); ("timestamp", VStr "2021-01-01T00:00:00.5Z")])
      unsaved_snapshot = (Ok tt, w') /\
    In kd (keys (w_store w')) /\
    find_entity km (w_store w') = Some e /\
    Dict.get "device_properties" (ent_attrs e) = Some (VKey kd).
Proof.
  set (w' := snd (PostMeasurement_store Example.classes (VRef 0%nat)
      (VDict [("type", VStr "ping"); ("timestamp", VStr "2021-01-01T00:00:00.5Z")])
      unsaved_snapshot)).
  assert (PostMeasurement_store Example.classes (VRef 0%nat)
      (VDict [("type", VStr "ping"); ("timestamp", VStr "2021-01-01T00:00:00.5Z")])
      unsaved_snapshot = (Ok tt, w')) as Hrun
    by (vm_compute; reflexivity).
  destruct (PostMeasurement_store_links Example.classes (VRef 0%nat)
              (VDict [("type", VStr "ping");
                      ("timestamp", VStr "2021-01-01T00:00:00.5Z")])
              unsaved_snapshot w' Example_keep_others Hrun)
    as (_ & kd & _ & _ & km & e & _ & _ & Hin & _ & _ & _ & He & Hget).
  exists w', kd, km, e.
  exact (conj Hrun (conj Hin (conj He Hget))).
Defined.

(** ** A time written by [ConvertToDict] and read by [StringToTime] *)

(** X22: what [ConvertToDict] writes for a field that holds a date and
    time, [StringToTime] reads back as the same date and time. *)
Theorem ConvertToDict_StringToTime (classes : string -> option pyclass)
    (depth : nat) (l : loc) (o : pyobj) (c : pyclass)
    (inc exc : option (list string)) (h : heap)
    (key : string) (t : Datetime.datetime) :
  h !! l = Some o ->
  classes (obj_class o) = Some c ->
  cls_is_model c = true ->
  Dict.get "properties" (obj_attrs o) = None ->
  (forall key prop, In (key, prop) (cls_properties c) ->
     exists v, Dict.get key (obj_attrs o) = Some v /\ is_flat v = true) ->
  selected inc exc key = true ->
  In key (map fst (cls_properties c)) ->
  Dict.get key (obj_attrs o) = Some (VTime (Datetime.ADateTime t)) ->
  Datetime.valid_datetime t = true ->
  exists output s,
    ConvertToDict classes (S depth) (VRef l) (fields_value inc) (fields_value exc) h
      = (Ok output, h) /\
    Dict.get key output = Some (VStr s) /\
    StringToTime s = Ok t.
Proof.
  intros Hl Hc Hm Hp Hflat Hsel Hin Hv Hvalid.
  destruct (loop_flat classes l o h inc exc Hl (ConvertToDict classes depth)
              (cls_properties c) Hflat []) as (output & Hrun & Hget).
  exists output, (TimeToString (Datetime.ADateTime t)).
  split; [| split].
  - cbn [ConvertToDict].
    now rewrite (bind_step _ _ _ _ _ (py_properties_model classes l o c h Hl Hc Hm Hp)).
  - rewrite Hget, Hsel, Hv.
    assert (existsb (String.eqb key) (map fst (cls_properties c)) = true) as ->.
    { apply existsb_exists. exists key. split; [exact Hin | apply String.eqb_refl]. }
    reflexivity.
  - now apply parse_formatted.
Qed.

Lemma ConvertToDict_StringToTime_witness :
  exists output s,
    ConvertToDict Sample2.classes 1 (VRef 0%nat) VNone VNone [Sample2.reading]
      = (Ok output, [Sample2.reading]) /\
    Dict.get "at" output = Some (VStr s) /\
    StringToTime s = Ok (Datetime.mkdt 2021 1 1 12 0 0 250000).
Proof.
  apply (ConvertToDict_StringToTime Sample2.classes 0 0%nat Sample2.reading
           Sample2.Reading None None [Sample2.reading] "at"
           (Datetime.mkdt 2021 1 1 12 0 0 250000)
           eq_refl eq_refl eq_refl eq_refl Sample2_reading_flat eq_refl).
  - right. left. reflexivity.
  - reflexivity.
  - reflexivity.
Defined.
